(** * zeropod: a shallow embedding of the shim wrapper, the restore engine
      and the annotation decoder, with the properties of their specification.

    The development follows the Go sources:
    - [GoLib]     the few functions of Go's [strings], [strconv], [path] and
                  [fmt] packages the code calls, written out from their
                  documented behaviour;
    - [Run]       the effects of the code: state, panics and [os.Exit];
    - [Zeropod]   zeropod/config.go;
    - [TaskStdio] the earliest service, whose restore rewrites the stdio paths;
    - [TaskCriu]  the earlier wrapper that drives the checkpoint itself;
    - [Task]      the task service wrapper with its exit reconciler, and
                  [Container.Restore] of zeropod/restore.go, which calls
                  back into it.
    [Examples] and [Statements] hold concrete inputs and the vocabulary of
    the properties, which follow in the modules named [...Facts]. *)

From Stdlib Require Import ZArith String Ascii List Lia Bool.
From stdpp Require Import base option list gmap strings.

Local Open Scope string_scope.
Local Open Scope Z_scope.

(* ===================================================================== *)
(** * Go library functions used by the code *)
(* ===================================================================== *)
Module GoLib.

(** Go's [error] values: a plain message, an error wrapping another one,
    the [*strconv.NumError] of the number parsers and the [*fs.PathError]
    of the file operations. *)
Inductive error : Type :=
| errorString (msg : string)
| wrapError (msg : string) (inner : error)
| NumError (func num : string) (kind : string)
| PathError (op path : string)
| grpcError (inner : error).

(** [errdefs.ToGRPC] *)
Definition ToGRPC (err : error) : error := grpcError err.

(** [fmt.Errorf(msg + ": %w", err)].  The operand may be [nil]: the verb
    then prints a placeholder and the result is still a non-nil error. *)
Definition Errorf_w (msg : string) (err : option error) : error :=
  match err with
  | Some e => wrapError msg e
  | None => errorString (msg ++ ": %!w(<nil>)")
  end.

(** A Go result pair [(v, err)]: exactly one of the two is meaningful. *)
Inductive result (A : Type) : Type :=
| Ok (a : A)
| Err (e : error).
Arguments Ok {A} a.
Arguments Err {A} e.

Definition is_err {A} (r : result A) : bool :=
  match r with Ok _ => false | Err _ => true end.

Definition is_ok {A} (r : result A) : bool := negb (is_err r).

(** [len(s)] *)
Definition len (s : string) : Z := Z.of_nat (String.length s).

(** [strings.HasPrefix] *)
Fixpoint HasPrefix (s pre : string) {struct pre} : bool :=
  match pre, s with
  | EmptyString, _ => true
  | String a pre', String b s' => Ascii.eqb a b && HasPrefix s' pre'
  | String _ _, EmptyString => false
  end.

(** [s[n:]] for [n <= len(s)] *)
Fixpoint drop_string (n : nat) (s : string) : string :=
  match n, s with
  | O, _ => s
  | S n', String _ s' => drop_string n' s'
  | S _, EmptyString => EmptyString
  end.

(** [s[:n]] for [n <= len(s)] *)
Fixpoint take_string (n : nat) (s : string) : string :=
  match n, s with
  | O, _ => EmptyString
  | S n', String c s' => String c (take_string n' s')
  | S _, EmptyString => EmptyString
  end.

(** [strings.HasSuffix] *)
Definition HasSuffix (s suf : string) : bool :=
  (String.length suf <=? String.length s)%nat &&
  String.eqb (drop_string (String.length s - String.length suf) s) suf.

(** [strings.TrimPrefix]: [s] without the leading [pre], or [s] itself. *)
Definition TrimPrefix (s pre : string) : string :=
  if HasPrefix s pre then drop_string (String.length pre) s else s.

(** [strings.TrimSuffix]: [s] without the trailing [suf], or [s] itself. *)
Definition TrimSuffix (s suf : string) : string :=
  if HasSuffix s suf then take_string (String.length s - String.length suf) s else s.

(** [strings.Split(s, sep)] for a non-empty separator: the substrings of
    [s] between the occurrences of [sep], scanned from the left.  [skip]
    counts the bytes of a separator that is being stepped over. *)
Fixpoint Split_from (sep : string) (skip : nat) (s : string) : list string :=
  match s with
  | EmptyString => [EmptyString]
  | String c s' =>
    match skip with
    | S k => Split_from sep k s'
    | O =>
      if HasPrefix s sep
      then EmptyString :: Split_from sep (String.length sep - 1) s'
      else match Split_from sep 0 s' with
           | h :: t => String c h :: t
           | [] => [String c EmptyString]
           end
    end
  end.

(** With an empty separator Go splits after each byte sequence; the
    package only ever passes the one-byte constants below. *)
Fixpoint explode (s : string) : list string :=
  match s with
  | EmptyString => []
  | String c s' => String c EmptyString :: explode s'
  end.

Definition Split (s sep : string) : list string :=
  match sep with
  | EmptyString => explode s
  | _ => Split_from sep 0 s
  end.

(** [strconv.ParseUint(s, 10, bitSize)] for [0 < bitSize <= 64]: the loop
    of the Go implementation over the bytes of [s]. *)
Definition ErrSyntax : string := "invalid syntax".
Definition ErrRange : string := "value out of range".

Definition digit (c : ascii) : option Z :=
  let n := Z.of_N (N_of_ascii c) in
  if (48 <=? n) && (n <=? 57) then Some (n - 48) else None.

Definition cutoff10 : Z := (2 ^ 64 - 1) / 10 + 1.

Fixpoint ParseUint_loop (s0 : string) (maxVal : Z) (n : Z) (s : string) : result Z :=
  match s with
  | EmptyString => Ok n
  | String c s' =>
    match digit c with
    | None => Err (NumError "ParseUint" s0 ErrSyntax)
    | Some d =>
      if cutoff10 <=? n then Err (NumError "ParseUint" s0 ErrRange)
      else
        let n1 := (n * 10 + d) mod 2 ^ 64 in
        if (n1 <? n * 10) || (maxVal <? n1)
        then Err (NumError "ParseUint" s0 ErrRange)
        else ParseUint_loop s0 maxVal n1 s'
    end
  end.

(** [uint16(p)] *)
Definition uint16 (p : Z) : Z := p mod 2 ^ 16.

Definition ParseUint10 (s : string) (bitSize : Z) : result Z :=
  match s with
  | EmptyString => Err (NumError "ParseUint" s ErrSyntax)
  | _ => ParseUint_loop s (2 ^ bitSize - 1) 0 s
  end.

(** [strconv.ParseBool] *)
Definition ParseBool (str : string) : result bool :=
  if existsb (String.eqb str) ["1"; "t"; "T"; "TRUE"; "true"; "True"] then Ok true
  else if existsb (String.eqb str) ["0"; "f"; "F"; "FALSE"; "false"; "False"] then Ok false
  else Err (NumError "ParseBool" str ErrSyntax).

(** [strings.Join] *)
Fixpoint Join (elems : list string) (sep : string) : string :=
  match elems with
  | [] => EmptyString
  | [e] => e
  | e :: rest => e ++ sep ++ Join rest sep
  end.

(** [path.Clean], by path elements: empty and [.] elements vanish, a [..]
    removes the element before it, and a [..] that has nothing to remove
    is dropped in a rooted path and kept otherwise.  [stack] holds the
    elements of the result so far, last one first. *)
Fixpoint cleanElems (rooted : bool) (stack : list string) (elems : list string)
  : list string :=
  match elems with
  | [] => rev stack
  | e :: rest =>
    if String.eqb e "" || String.eqb e "." then cleanElems rooted stack rest
    else if String.eqb e ".." then
      match stack with
      | top :: below =>
        if String.eqb top ".." then cleanElems rooted (e :: stack) rest
        else cleanElems rooted below rest
      | [] => if rooted then cleanElems rooted [] rest
              else cleanElems rooted [e] rest
      end
    else cleanElems rooted (e :: stack) rest
  end.

Definition Clean (p : string) : string :=
  let rooted := HasPrefix p "/" in
  let out := (if rooted then "/" else "") ++ Join (cleanElems rooted [] (Split p "/")) "/" in
  if String.eqb out "" then "." else out.

(** [path.Join(elem...)] (and [filepath.Join] on this platform): empty
    elements are ignored, the rest is joined with slashes and cleaned; with
    nothing to join the result is empty. *)
Definition path_Join (elem : list string) : string :=
  match List.filter (fun e => negb (String.eqb e "")) elem with
  | [] => EmptyString
  | elems => Clean (Join elems "/")
  end.

End GoLib.

(* ===================================================================== *)
(** * Effects: a state monad whose runs end normally, in a panic or in
      [os.Exit] *)
(* ===================================================================== *)
Module Run.

Inductive outcome (A : Type) : Type :=
| Done (a : A)          (* the call returned *)
| Panicked (why : string) (* a run-time panic unwound the goroutine *)
| Exited (code : Z).    (* os.Exit ended the process *)
Arguments Done {A} a.
Arguments Panicked {A} why.
Arguments Exited {A} code.

Definition M (S A : Type) : Type := S -> outcome A * S.

Definition ret {S A} (a : A) : M S A := fun s => (Done a, s).

Definition bind {S A B} (m : M S A) (k : A -> M S B) : M S B :=
  fun s => match m s with
           | (Done a, s') => k a s'
           | (Panicked why, s') => (Panicked why, s')
           | (Exited code, s') => (Exited code, s')
           end.

Definition panic {S A} (why : string) : M S A := fun s => (Panicked why, s).
Definition os_Exit {S A} (code : Z) : M S A := fun s => (Exited code, s).
Definition get {S} : M S S := fun s => (Done s, s).
Definition gets {S A} (f : S -> A) : M S A := fun s => (Done (f s), s).
Definition modify {S} (f : S -> S) : M S unit := fun s => (Done tt, f s).

#[global] Instance M_ret {S} : MRet (M S) := fun A => @ret S A.
#[global] Instance M_bind {S} : MBind (M S) := fun A B k m => @bind S A B m k.

(** [defer cleanup] around [body]: the cleanup runs when the body returns
    and when it panics, and does not run when the process exits. *)
Definition deferring {S A} (cleanup : M S unit) (body : M S A) : M S A :=
  fun s => match body s with
           | (Done a, s') =>
             match cleanup s' with
             | (Done _, s'') => (Done a, s'')
             | (Panicked why, s'') => (Panicked why, s'')
             | (Exited code, s'') => (Exited code, s'')
             end
           | (Panicked why, s') =>
             match cleanup s' with
             | (Exited code, s'') => (Exited code, s'')
             | (_, s'') => (Panicked why, s'')
             end
           | (Exited code, s') => (Exited code, s')
           end.

(** A [for _, x := range xs] loop whose body has effects only. *)
Fixpoint forEach {S A} (xs : list A) (body : A -> M S unit) : M S unit :=
  match xs with
  | [] => ret tt
  | x :: rest => bind (body x) (fun _ => forEach rest body)
  end.

(** The arguments of a formatted log call, kept apart from the format. *)
Inductive Arg : Type :=
| AStr (s : string)
| AInt (z : Z)
| AErr (e : GoLib.error)
| ABytes (b : string).

Inductive Level : Type := Debug | Info | Error | Fatal.

End Run.

(* ===================================================================== *)
(** * zeropod/config.go *)
(* ===================================================================== *)
Module Zeropod.
Import GoLib.

Definition PortsAnnotationKey := "zeropod.ctrox.dev/ports-map".
Definition ContainerNamesAnnotationKey := "zeropod.ctrox.dev/container-names".
Definition ScaleDownDurationAnnotationKey := "zeropod.ctrox.dev/scaledown-duration".
Definition DisableCheckpoiningAnnotationKey := "zeropod.ctrox.dev/disable-checkpointing".
Definition PreDumpAnnotationKey := "zeropod.ctrox.dev/pre-dump".
Definition CRIContainerNameAnnotation := "io.kubernetes.cri.container-name".
Definition CRIContainerTypeAnnotation := "io.kubernetes.cri.container-type".
Definition VClusterNameAnnotationKey := "vcluster.loft.sh/name".
Definition VClusterNamespaceAnnotationKey := "vcluster.loft.sh/namespace".

(** [time.Minute], in nanoseconds *)
Definition defaultScaleDownDuration : Z := 60 * 1000000000.
Definition containersDelim := ",".
Definition portsDelim := containersDelim.
Definition mappingDelim := ";".
Definition mapDelim := "=".
Definition defaultContainerdNS := "k8s.io".

(** The part of [specs.Spec] the package reads. *)
Record Spec := { Annotations : gmap string string }.

(** The part of a [context.Context] the package reads: the containerd
    namespace it may carry. *)
Record Context := { ctx_namespace : option string }.

Record annotationConfig := {
  a_PortMap : string;
  a_ZeropodContainerNames : string;
  a_ScaledownDuration : string;
  a_DisableCheckpointing : string;
  a_PreDump : string;
  a_ContainerName : string;
  a_ContainerType : string;
  a_PodName : string;
  a_PodNamespace : string;
  a_PodUID : string;
  a_VClusterPodName : string;
  a_VClusterPodNamespace : string
}.

Record Config := {
  ZeropodContainerNames : list string;
  Ports : list Z;
  ScaleDownDuration : Z;
  DisableCheckpointing : bool;
  PreDump : bool;
  ContainerName : string;
  ContainerType : string;
  podName : string;
  podNamespace : string;
  podUID : string;
  ContainerdNamespace : string;
  spec : Spec;
  vclusterPodName : string;
  vclusterPodNamespace : string
}.

(** The value under a key of the annotations, empty when it is absent. *)
Definition field (m : gmap string string) (key : string) : string :=
  default "" (m !! key).

(** [mapstructure.Decode] of a [map[string]string] whose keys are spelled
    as the tags of the string fields: a field takes the value under its
    tag and stays empty when the key is absent; keys without a field are
    ignored. *)
Definition decodeTagged (m : gmap string string) : result annotationConfig :=
  Ok {| a_PortMap := field m "zeropod.ctrox.dev/ports-map";
        a_ZeropodContainerNames := field m "zeropod.ctrox.dev/container-names";
        a_ScaledownDuration := field m "zeropod.ctrox.dev/scaledown-duration";
        a_DisableCheckpointing := field m "zeropod.ctrox.dev/disable-checkpointing";
        a_PreDump := field m "zeropod.ctrox.dev/pre-dump";
        a_ContainerName := field m "io.kubernetes.cri.container-name";
        a_ContainerType := field m "io.kubernetes.cri.container-type";
        a_PodName := field m "io.kubernetes.cri.sandbox-name";
        a_PodNamespace := field m "io.kubernetes.cri.sandbox-namespace";
        a_PodUID := field m "io.kubernetes.cri.sandbox-uid";
        a_VClusterPodName := field m "vcluster.loft.sh/name";
        a_VClusterPodNamespace := field m "vcluster.loft.sh/namespace" |}.

(** The inner loop of [NewConfig] over the ports of one mapping. *)
Fixpoint parsePorts (ports : list string) (containerPorts : list Z) : result (list Z) :=
  match ports with
  | [] => Ok containerPorts
  | port :: rest =>
    match ParseUint10 port 16 with
    | Err err => Err err
    | Ok p => parsePorts rest (containerPorts ++ [uint16 p])
    end
  end.

(** The outer loop of [NewConfig] over the mappings of the port map. *)
Fixpoint parseMappings (cname : string) (mappings : list string)
    (containerPorts : list Z) : result (list Z) :=
  match mappings with
  | [] => Ok containerPorts
  | mapping :: rest =>
    match Split mapping mapDelim with
    | [name; ports] =>
      if negb (String.eqb name cname) then parseMappings cname rest containerPorts
      else match parsePorts (Split ports portsDelim) containerPorts with
           | Err err => Err err
           | Ok containerPorts' => parseMappings cname rest containerPorts'
           end
    | _ => Err (errorString "invalid port map, the format needs to be name=port")
    end
  end.

(** What [NewConfig] takes from the Go runtime and from libraries:
    [runtime.GOARCH], [time.ParseDuration] and [mapstructure.Decode] into
    an [annotationConfig].  The decoder is verified for any of them. *)
Record Library := {
  GOARCH : string;
  ParseDuration : string -> result Z;
  Decode : gmap string string -> result annotationConfig
}.

Section NewConfig.
Variable lib : Library.

Definition NewConfig (ctx : Context) (spec : Spec) : result Config :=
  match Decode lib (Annotations spec) with
  | Err err => Err err
  | Ok cfg =>
  match (if negb (len (a_PortMap cfg) =? 0)
         then parseMappings (a_ContainerName cfg) (Split (a_PortMap cfg) mappingDelim) []
         else Ok []) with
  | Err err => Err err
  | Ok containerPorts =>
  match (if negb (len (a_ScaledownDuration cfg) =? 0)
         then ParseDuration lib (a_ScaledownDuration cfg)
         else Ok defaultScaleDownDuration) with
  | Err err => Err err
  | Ok dur =>
  match (if negb (len (a_DisableCheckpointing cfg) =? 0)
         then ParseBool (a_DisableCheckpointing cfg)
         else Ok false) with
  | Err err => Err err
  | Ok disableCheckpointing =>
  match (if negb (len (a_PreDump cfg) =? 0)
         then match ParseBool (a_PreDump cfg) with
              | Err err => Err err
              | Ok preDump =>
                if preDump && String.eqb (GOARCH lib) "arm64" then Ok false else Ok preDump
              end
         else Ok false) with
  | Err err => Err err
  | Ok preDump =>
    let containerNames :=
      if negb (len (a_ZeropodContainerNames cfg) =? 0)
      then Split (a_ZeropodContainerNames cfg) containersDelim
      else [] in
    let ns := match ctx_namespace ctx with
              | Some ns => ns
              | None => defaultContainerdNS
              end in
    Ok {| Ports := containerPorts;
          ScaleDownDuration := dur;
          DisableCheckpointing := disableCheckpointing;
          PreDump := preDump;
          ZeropodContainerNames := containerNames;
          ContainerName := a_ContainerName cfg;
          ContainerType := a_ContainerType cfg;
          ContainerdNamespace := ns;
          podName := a_PodName cfg;
          podNamespace := a_PodNamespace cfg;
          podUID := a_PodUID cfg;
          spec := spec;
          vclusterPodName := a_VClusterPodName cfg;
          vclusterPodNamespace := a_VClusterPodNamespace cfg |}
  end end end end end.
End NewConfig.

Definition IsZeropodContainer (cfg : Config) : bool :=
  existsb (fun n => String.eqb n (ContainerName cfg)) (ZeropodContainerNames cfg)
  || (Z.of_nat (length (ZeropodContainerNames cfg)) =? 0).

Definition HostPodName (cfg : Config) : string := podName cfg.
Definition HostPodNamespace (cfg : Config) : string := podNamespace cfg.
Definition HostPodUID (cfg : Config) : string := podUID cfg.

Definition PodName (cfg : Config) : string :=
  if negb (String.eqb (vclusterPodName cfg) "") then vclusterPodName cfg
  else podName cfg.

Definition PodNamespace (cfg : Config) : string :=
  if negb (String.eqb (vclusterPodNamespace cfg) "") then vclusterPodNamespace cfg
  else podNamespace cfg.

End Zeropod.

(* ===================================================================== *)
(** * The first task service: restore with rewritten stdio paths *)
(* ===================================================================== *)
Module TaskStdio.
Import GoLib Run.

Record Stdio := { Stdin : string; Stdout : string; Stderr : string; Terminal : bool }.

Record Container := { ID : string; Bundle : string }.

Record CreateConfig := { cc_ID : string; cc_Bundle : string; cc_Checkpoint : string }.

(** The fields of the [*process.Init] that [restore] builds. *)
Record Process := {
  p_ID : string;
  p_Stdio : Stdio;
  p_Bundle : string;
  p_WorkDir : string;
  p_CriuWorkPath : string
}.

Inductive Event : Type :=
| Log (lvl : Level) (format : string) (args : list Arg)
| ProcessCreate (p : Process) (cfg : CreateConfig)
| ProcessStart (p : Process)
| SendTaskResumed (containerID : string).

(** [service]: the stdio of the container and what the service did. *)
Record service := { stdio : Stdio; trace : list Event }.

Definition snapshotDir (bundle : string) : string := path_Join [bundle; "snapshots"].
Definition containerDir (bundle : string) : string :=
  path_Join [snapshotDir bundle; "container"].

Definition emit (ev : Event) : M service unit :=
  modify (fun s => {| stdio := stdio s; trace := trace s ++ [ev] |}).

Definition setStdout (v : string) : M service unit :=
  modify (fun s => {| stdio := {| Stdin := Stdin (stdio s); Stdout := v;
                                  Stderr := Stderr (stdio s);
                                  Terminal := Terminal (stdio s) |};
                      trace := trace s |}).

Definition setStderr (v : string) : M service unit :=
  modify (fun s => {| stdio := {| Stdin := Stdin (stdio s); Stdout := Stdout (stdio s);
                                  Stderr := v;
                                  Terminal := Terminal (stdio s) |};
                      trace := trace s |}).

(** [process.New(id, runtime, stdio)]: a process with these fields and
    everything else zero. *)
Definition process_New (id : string) (io : Stdio) : Process :=
  {| p_ID := id; p_Stdio := io; p_Bundle := ""; p_WorkDir := ""; p_CriuWorkPath := "" |}.

Section Restore.
(** What the runtime answers to [p.Create] and [p.Start], and the
    identifier hashed from the clock. *)
Variable runtime_Create : Process -> CreateConfig -> option error.
Variable runtime_Start : Process -> option error.
Variable newID : string.

Definition restore (container : Container) : M service (result Process * Container) :=
  let container := {| ID := newID; Bundle := Bundle container |} in
  s ← get;
  setStdout (TrimPrefix (Stdout (stdio s)) "file://");;
  s ← get;
  setStdout (TrimSuffix (Stdout (stdio s)) "-1");;
  s ← get;
  setStderr (TrimPrefix (Stdout (stdio s)) "file://");;
  s ← get;
  setStderr (TrimSuffix (Stdout (stdio s)) "-1");;
  s ← get;
  let p := process_New (ID container)
             {| Stdin := ""; Terminal := false;
                Stdout := "file://" ++ Stdout (stdio s) ++ "-1";
                Stderr := "file://" ++ Stderr (stdio s) ++ "-1" |} in
  let workDir := path_Join [Bundle container; "work"] in
  let p := {| p_ID := p_ID p; p_Stdio := p_Stdio p; p_Bundle := Bundle container;
              p_WorkDir := workDir;
              p_CriuWorkPath := if String.eqb (p_CriuWorkPath p) "" then workDir
                                else p_CriuWorkPath p |} in
  emit (Log Info "restoring %s" [AStr (ID container)]);;
  let cfg := {| cc_ID := ID container; cc_Bundle := Bundle container;
                cc_Checkpoint := containerDir (Bundle container) |} in
  emit (ProcessCreate p cfg);;
  match runtime_Create p cfg with
  | Some err => mret (Err (wrapError "creation failed during restore" err), container)
  | None =>
    emit (Log Info "restore: process created" []);;
    emit (ProcessStart p);;
    match runtime_Start p with
    | Some err => mret (Err (wrapError "start failed during restore" err), container)
    | None =>
      emit (SendTaskResumed (ID container));;
      mret (Ok p, container)
    end
  end.
End Restore.

End TaskStdio.

(* ===================================================================== *)
(** * The second task service: the wrapper that checkpoints on Start *)
(* ===================================================================== *)
Module TaskCriu.
Import GoLib Run.

Record Stdio := { Stdin : string; Stdout : string; Stderr : string; Terminal : bool }.

Record Container := { ID : string; Bundle : string }.

(** A [process.Process]: [p_isInit] tells whether its dynamic type is
    [*process.Init]. *)
Record Process := {
  p_ID : string;
  p_Pid : Z;
  p_isInit : bool;
  p_Stdio : Stdio
}.

Record StartRequest := { r_ID : string; r_ExecID : string }.
Record StartResponse := { Pid : Z }.

Record CheckpointConfig := {
  Path : string;
  WorkDir : string;
  Exit : bool;
  AllowOpenTCP : bool;
  AllowExternalUnixSockets : bool;
  AllowTerminal : bool;
  FileLocks : bool;
  EmptyNamespaces : list string
}.

(** The configuration this version decodes from the spec. *)
Record Config := { Port : Z; ScaleDownDuration : Z }.

Inductive Event : Type :=
| Log (lvl : Level) (format : string) (args : list Arg)
| ServiceStart (r : StartRequest)
| RemoveAll (path : string)
| Checkpoint (p : Process) (cfg : CheckpointConfig)
| ReadFile (path : string)
| SendTaskCheckpointed (containerID : string)
| NewServer (port : Z) (netNSPath : string)
| RegisterShutdownCallback
| ServerStart
| GetNS (path : string)
| IptablesRestore (netNSPath : string).

Record wrapper := {
  originalProcess : option Process;
  scaledDown : bool;
  netNSPath : string;
  trace : list Event
}.

Definition emit (ev : Event) : M wrapper unit :=
  modify (fun s => {| originalProcess := originalProcess s; scaledDown := scaledDown s;
                      netNSPath := netNSPath s; trace := trace s ++ [ev] |}).

Definition set_scaledDown (b : bool) : M wrapper unit :=
  modify (fun s => {| originalProcess := originalProcess s; scaledDown := b;
                      netNSPath := netNSPath s; trace := trace s |}).

Definition set_originalProcess (p : Process) : M wrapper unit :=
  modify (fun s => {| originalProcess := Some p; scaledDown := scaledDown s;
                      netNSPath := netNSPath s; trace := trace s |}).

Definition set_netNSPath (v : string) : M wrapper unit :=
  modify (fun s => {| originalProcess := originalProcess s; scaledDown := scaledDown s;
                      netNSPath := v; trace := trace s |}).

Definition snapshotDir (bundle : string) : string := path_Join [bundle; "snapshots"].
Definition containerDir (bundle : string) : string :=
  path_Join [snapshotDir bundle; "container"].

(** [uint32(x)] *)
Definition uint32 (x : Z) : Z := x mod 2 ^ 32.

(** What the delegate task service, the runtime, the file system and the
    activator answer.  The wrapper is verified for every such answer. *)
Record Env := {
  service_Start : StartRequest -> result StartResponse;
  getContainer : string -> result Container;
  container_Process : Container -> string -> result Process;
  IsSandboxContainer : string -> result bool;
  os_RemoveAll : string -> option error;
  Init_Checkpoint : Process -> CheckpointConfig -> option error;
  os_ReadFile : string -> result string;
  GetSpec : string -> result Zeropod.Spec;
  GetNetworkNS : Zeropod.Spec -> result string;
  NewConfig : Zeropod.Spec -> result Config;
  activator_NewServer : Z -> string -> option error;
  srv_Start : option error;
  ns_GetNS : string -> option error;
  iptables_restore : string -> option error
}.

Section Wrapper.
Variable env : Env.

(** [removeCriuIPTablesRules]: feeds the permissive filter table to
    [iptables-restore] inside the network namespace. *)
Definition removeCriuIPTablesRules (netNS : string) : M wrapper (option error) :=
  emit (IptablesRestore netNS);;
  mret (iptables_restore env netNS).

(** [StartZeropod].  The two closures handed to [srv.Start] run later,
    on the activator's goroutines. *)
Definition StartZeropod (container : Container) : M wrapper (option error) :=
  match GetSpec env (Bundle container) with
  | Err err => mret (Some err)
  | Ok spec =>
    s ← get;
    r ← (if len (netNSPath s) =? 0
         then match GetNetworkNS env spec with
              | Err err => mret (Some err)
              | Ok netNSPath => set_netNSPath netNSPath;; mret None
              end
         else mret None);
    match r with
    | Some err => mret (Some err)
    | None =>
      match NewConfig env spec with
      | Err err => mret (Some err)
      | Ok cfg =>
        emit (Log Info "starting activator with config: %v" []);;
        s ← get;
        emit (NewServer (Port cfg) (netNSPath s));;
        match activator_NewServer env (Port cfg) (netNSPath s) with
        | Some err => mret (Some err)
        | None =>
          emit RegisterShutdownCallback;;
          emit ServerStart;;
          match srv_Start env with
          | Some err =>
            emit (Log Error "failed to start server: %s" [AErr err]);;
            mret (Some err)
          | None =>
            emit (Log Info "activator started" []);;
            mret None
          end
        end
      end
    end
  end.

(** [scaleDown].  In the failure branch [b, err := os.ReadFile(...)]
    declares a new [err] in the block, so the [return err] that ends the
    branch returns the error of the read. *)
Definition scaleDown (container : Container) (p : Process) : M wrapper (option error) :=
  let snapshotDir := snapshotDir (Bundle container) in
  emit (RemoveAll snapshotDir);;
  match os_RemoveAll env snapshotDir with
  | Some err => mret (Some (wrapError "unable to prepare snapshot dir" err))
  | None =>
    let workDir := path_Join [snapshotDir; "work"] in
    emit (Log Info "checkpointing process %d of container to %s"
              [AInt (p_Pid p); AStr snapshotDir]);;
    set_scaledDown true;;
    (if p_isInit p then mret tt
     else panic "interface conversion: process.Process is not *process.Init");;
    let cfg := {| Path := containerDir (Bundle container);
                  WorkDir := workDir;
                  Exit := true;
                  AllowOpenTCP := true;
                  AllowExternalUnixSockets := true;
                  AllowTerminal := false;
                  FileLocks := false;
                  EmptyNamespaces := [] |} in
    emit (Checkpoint p cfg);;
    match Init_Checkpoint env p cfg with
    | Some err =>
      set_scaledDown false;;
      emit (Log Error "error checkpointing container: %s" [AErr err]);;
      emit (ReadFile (path_Join [workDir; "dump.log"]));;
      match os_ReadFile env (path_Join [workDir; "dump.log"]) with
      | Err err =>
        emit (Log Error "error reading dump.log: %s" [AErr err]);;
        emit (Log Error "dump.log: %s" [ABytes ""]);;
        mret (Some err)
      | Ok b =>
        emit (Log Error "dump.log: %s" [ABytes b]);;
        mret None
      end
    | None =>
      emit (SendTaskCheckpointed (ID container));;
      emit (Log Info "starting zeropod" []);;
      err ← StartZeropod container;
      match err with
      | Some err =>
        emit (Log Error "unable to start zeropod: %s" [AErr err]);;
        mret (Some err)
      | None =>
        s ← get;
        emit (GetNS (netNSPath s));;
        match ns_GetNS env (netNSPath s) with
        | Some err => mret (Some err)
        | None =>
          err ← removeCriuIPTablesRules (netNSPath s);
          match err with
          | Some err =>
            emit (Log Error "unable to restore iptables: %s" [AErr err]);;
            mret (Some err)
          | None =>
            emit (Log Info "restored iptables" []);;
            mret None
          end
        end
      end
    end
  end.

Definition Start (r : StartRequest) : M wrapper (result StartResponse) :=
  emit (ServiceStart r);;
  match service_Start env r with
  | Err err => mret (Err err)
  | Ok resp =>
  match getContainer env (r_ID r) with
  | Err err => mret (Err err)
  | Ok container =>
  match container_Process env container (r_ExecID r) with
  | Err err => mret (Err (ToGRPC err))
  | Ok p =>
  match IsSandboxContainer env (Bundle container) with
  | Err err => mret (Err err)
  | Ok sandboxContainer =>
    if negb sandboxContainer && (len (r_ExecID r) =? 0) then
      set_originalProcess p;;
      err ← scaleDown container p;
      match err with
      | Some _ => mret (Ok {| Pid := uint32 (p_Pid p) |})
      | None => mret (Ok resp)
      end
    else mret (Ok resp)
  end end end end.
End Wrapper.

(** The events that bring up an activator. *)
Definition startsActivator (ev : Event) : bool :=
  match ev with
  | NewServer _ _ | ServerStart => true
  | _ => false
  end.

Definition isCheckpoint (ev : Event) : bool :=
  match ev with
  | Checkpoint _ _ => true
  | _ => false
  end.

End TaskCriu.

(* ===================================================================== *)
(** * The task service wrapper and the restore engine *)
(* ===================================================================== *)
Module Task.
Import GoLib Run Zeropod.

Definition containerTypeSandbox : string := "sandbox".

Record Stdio := { Stdin : string; Stdout : string; Stderr : string; Terminal : bool }.

(** A [process.Process] value: the address of the object, the fields the
    wrapper reads, and whether its dynamic type is [*process.Init]. *)
Record Proc := {
  p_addr : nat;
  p_ID : string;
  p_Pid : Z;
  p_isInit : bool;
  p_Stdio : Stdio
}.

(** A [*runc.Container]: the address of the object and the fields read. *)
Record RuncContainer := { c_addr : nat; c_ID : string; c_Bundle : string }.

Record containerProcess := { Container : RuncContainer; Process : Proc }.

(** [runcC.Exit] *)
Record Exit := { e_Pid : Z; e_Status : Z }.

Record StartRequest := { sr_ID : string; sr_ExecID : string }.
Record StartResponse := { Pid : Z }.
Record ExecProcessRequest := { er_ID : string; er_ExecID : string }.
Record DeleteRequest := { dr_ID : string; dr_ExecID : string }.
Record DeleteResponse := { dr_Pid : Z; dr_ExitStatus : Z }.
Record KillRequest := { kr_ID : string; kr_ExecID : string; kr_Signal : Z; kr_All : bool }.

Record CreateTaskRequest := {
  ct_ID : string;
  ct_Bundle : string;
  ct_Terminal : bool;
  ct_Stdin : string;
  ct_Stdout : string;
  ct_Stderr : string;
  ct_ParentCheckpoint : string;
  ct_Checkpoint : string
}.

(** [zeropod.Container], with the fields restore.go and the wrapper use.
    The two callbacks are registered by the wrapper's [Start] only, so
    the record keeps whether they are set. *)
Record ZContainer := {
  zc_Container : RuncContainer;
  zc_cfg : Config;
  zc_scaledDown : bool;
  zc_process : Proc;
  zc_initialProcess : option Proc;
  zc_preRestore : bool;
  zc_postRestore : bool;
  zc_activatorStopped : bool;
  zc_scaleDownScheduled : bool
}.

Inductive Event : Type :=
| Log (lvl : Level) (format : string) (args : list Arg)
| Lock (mutex : string)
| Unlock (mutex : string)
| ServiceStart (r : StartRequest)
| ServiceExec (r : ExecProcessRequest)
| ServiceDelete (r : DeleteRequest)
| ServiceKill (r : KillRequest)
| HandleProcessExit (e : Exit) (c : RuncContainer) (p : Proc)
| SetExited (p : Proc) (status : Z)
| ProcessKill (p : Proc) (signal : Z) (all : bool)
| Stop (id : string)
| ScheduleScaleDown (id : string)
| CancelScaleDown (id : string)
| RegisterPreRestore (id : string)
| RegisterPostRestore (id : string)
| RegisterShutdownStop (id : string)
| RestoreLoggers (id : string)
| NewContainer (req : CreateTaskRequest)
| CgroupSet (c : RuncContainer)
| PreStart
| PreStartCleanup
| ProcessStart (p : Proc)
| ReadFile (path : string)
| ObserveRestoreDuration
| HandleStarted (c : RuncContainer) (p : Proc)
| DisableRedirects (id : string).

(** The wrapper with the embedded service, the heap of exit statuses of
    the process objects, and what has been done so far. *)
Record World := {
  exited : gmap nat Z;
  zeropodContainers : gmap string ZContainer;
  containers : gmap string RuncContainer;
  running : gmap Z (list containerProcess);
  pendingExecs : gmap nat Z;
  exitSubscribers : gmap nat (gmap Z (list Exit));
  trace : list Event
}.

Definition with_exited (f : gmap nat Z -> gmap nat Z) (w : World) : World :=
  {| exited := f (exited w); zeropodContainers := zeropodContainers w;
     containers := containers w; running := running w;
     pendingExecs := pendingExecs w; exitSubscribers := exitSubscribers w;
     trace := trace w |}.

Definition with_zeropodContainers
    (f : gmap string ZContainer -> gmap string ZContainer) (w : World) : World :=
  {| exited := exited w; zeropodContainers := f (zeropodContainers w);
     containers := containers w; running := running w;
     pendingExecs := pendingExecs w; exitSubscribers := exitSubscribers w;
     trace := trace w |}.

Definition with_containers
    (f : gmap string RuncContainer -> gmap string RuncContainer) (w : World) : World :=
  {| exited := exited w; zeropodContainers := zeropodContainers w;
     containers := f (containers w); running := running w;
     pendingExecs := pendingExecs w; exitSubscribers := exitSubscribers w;
     trace := trace w |}.

Definition with_running
    (f : gmap Z (list containerProcess) -> gmap Z (list containerProcess))
    (w : World) : World :=
  {| exited := exited w; zeropodContainers := zeropodContainers w;
     containers := containers w; running := f (running w);
     pendingExecs := pendingExecs w; exitSubscribers := exitSubscribers w;
     trace := trace w |}.

Definition with_exitSubscribers
    (f : gmap nat (gmap Z (list Exit)) -> gmap nat (gmap Z (list Exit)))
    (w : World) : World :=
  {| exited := exited w; zeropodContainers := zeropodContainers w;
     containers := containers w; running := running w;
     pendingExecs := pendingExecs w; exitSubscribers := f (exitSubscribers w);
     trace := trace w |}.

Definition with_trace (f : list Event -> list Event) (w : World) : World :=
  {| exited := exited w; zeropodContainers := zeropodContainers w;
     containers := containers w; running := running w;
     pendingExecs := pendingExecs w; exitSubscribers := exitSubscribers w;
     trace := f (trace w) |}.

Definition emit (ev : Event) : M World unit :=
  modify (with_trace (fun t => app t [ev])).

(** [p.SetExited(status)]: the process objects of the shim record the
    status of their first exit; on a stopped process the call changes
    nothing. *)
Definition Proc_SetExited (p : Proc) (status : Z) : M World unit :=
  emit (SetExited p status);;
  modify (with_exited (fun ex => match ex !! p_addr p with
                                 | Some _ => ex
                                 | None => <[p_addr p := status]> ex
                                 end)).

(** What the delegate task service, the runtime and the file system
    answer.  The wrapper is verified for every such answer. *)
Record Env := {
  lib : Library;
  service_Start : StartRequest -> result StartResponse;
  service_Exec : ExecProcessRequest -> result unit;
  service_Delete : DeleteRequest -> result DeleteResponse;
  service_Kill : KillRequest -> result unit;
  GetSpec : string -> result Spec;
  container_Process : RuncContainer -> string -> result Proc;
  process_Kill : Proc -> Z -> bool -> option error;
  timer_schedule : string -> option error;
  runc_NewContainer : CreateTaskRequest -> result RuncContainer;
  process_Start : Proc -> option error;
  os_ReadFile : string -> result string;
  activator_DisableRedirects : string -> option error
}.

(** ** The methods of [zeropod.Container] that are not in restore.go *)

(** Modelled from the spec: [ScaledDown()], the accessor that is true
    exactly in the state ScaledDown. *)
Definition ScaledDown (zc : ZContainer) : bool := zc_scaledDown zc.

(** Modelled from the spec: [Process()], the reference to the current
    process. *)
Definition Process_ (zc : ZContainer) : Proc := zc_process zc.

(** Modelled from the spec: [InitialProcess()], the reference to the
    process that was checkpointed; the wrapper tests it against [nil]. *)
Definition InitialProcess (zc : ZContainer) : option Proc := zc_initialProcess zc.

Definition update_zc (id : string) (f : ZContainer -> ZContainer) : M World unit :=
  modify (with_zeropodContainers (fun m => match m !! id with
                                           | Some zc => <[id := f zc]> m
                                           | None => m
                                           end)).

(** Modelled from the spec: [SetScaledDown(b)], the setter of the state
    flag. *)
Definition SetScaledDown (id : string) (b : bool) : M World unit :=
  update_zc id (fun zc =>
    {| zc_Container := zc_Container zc; zc_cfg := zc_cfg zc; zc_scaledDown := b;
       zc_process := zc_process zc; zc_initialProcess := zc_initialProcess zc;
       zc_preRestore := zc_preRestore zc; zc_postRestore := zc_postRestore zc;
       zc_activatorStopped := zc_activatorStopped zc;
       zc_scaleDownScheduled := zc_scaleDownScheduled zc |}).

(** Modelled from the spec: [Stop(ctx)] stops the Activator: listeners
    closed, redirection removed; idempotent. *)
Definition Container_Stop (id : string) : M World unit :=
  emit (Stop id);;
  update_zc id (fun zc =>
    {| zc_Container := zc_Container zc; zc_cfg := zc_cfg zc;
       zc_scaledDown := zc_scaledDown zc;
       zc_process := zc_process zc; zc_initialProcess := zc_initialProcess zc;
       zc_preRestore := zc_preRestore zc; zc_postRestore := zc_postRestore zc;
       zc_activatorStopped := true;
       zc_scaleDownScheduled := zc_scaleDownScheduled zc |}).

Definition set_scheduled (b : bool) (zc : ZContainer) : ZContainer :=
  {| zc_Container := zc_Container zc; zc_cfg := zc_cfg zc;
     zc_scaledDown := zc_scaledDown zc;
     zc_process := zc_process zc; zc_initialProcess := zc_initialProcess zc;
     zc_preRestore := zc_preRestore zc; zc_postRestore := zc_postRestore zc;
     zc_activatorStopped := zc_activatorStopped zc;
     zc_scaleDownScheduled := b |}.

(** Modelled from the spec: [CancelScaleDown()] cancels a pending timer;
    idempotent. *)
Definition Container_CancelScaleDown (id : string) : M World unit :=
  emit (CancelScaleDown id);;
  update_zc id (set_scheduled false).

Section Wrapper.
Variable env : Env.

(** Modelled from the spec: [ScheduleScaleDown()] starts (or restarts)
    the countdown; the timer may refuse. *)
Definition Container_ScheduleScaleDown (id : string) : M World (option error) :=
  emit (ScheduleScaleDown id);;
  match timer_schedule env id with
  | Some err => mret (Some err)
  | None => update_zc id (set_scheduled true);; mret None
  end.

(** Modelled from the spec: [zeropod.New] constructs the managed
    container in state Running; its initial and its current process are
    the init process of the runtime container, and it fails when that
    process cannot be found. *)
Definition New (cfg : Config) (container : RuncContainer) : result ZContainer :=
  match container_Process env container "" with
  | Err err => Err (ToGRPC err)
  | Ok p =>
    Ok {| zc_Container := container; zc_cfg := cfg; zc_scaledDown := false;
          zc_process := p; zc_initialProcess := Some p;
          zc_preRestore := false; zc_postRestore := false;
          zc_activatorStopped := false; zc_scaleDownScheduled := false |}
  end.

(** Modelled from the spec: [RegisterPreRestore] and
    [RegisterPostRestore] store the callback in the container. *)
Definition RegisterPreRestore_ (zc : ZContainer) : ZContainer :=
  {| zc_Container := zc_Container zc; zc_cfg := zc_cfg zc;
     zc_scaledDown := zc_scaledDown zc;
     zc_process := zc_process zc; zc_initialProcess := zc_initialProcess zc;
     zc_preRestore := true; zc_postRestore := zc_postRestore zc;
     zc_activatorStopped := zc_activatorStopped zc;
     zc_scaleDownScheduled := zc_scaleDownScheduled zc |}.

Definition RegisterPostRestore_ (zc : ZContainer) : ZContainer :=
  {| zc_Container := zc_Container zc; zc_cfg := zc_cfg zc;
     zc_scaledDown := zc_scaledDown zc;
     zc_process := zc_process zc; zc_initialProcess := zc_initialProcess zc;
     zc_preRestore := zc_preRestore zc; zc_postRestore := true;
     zc_activatorStopped := zc_activatorStopped zc;
     zc_scaleDownScheduled := zc_scaleDownScheduled zc |}.

(** ** The wrapper *)

(** [service.getContainer] of the embedded service *)
Definition getContainer (id : string) : M World (result RuncContainer) :=
  w ← get;
  match containers w !! id with
  | Some c => mret (Ok c)
  | None => mret (Err (ToGRPC (errorString "container not created")))
  end.

(** [getZeropodContainer]: the lookup under [w.mut], which is released
    before the function returns. *)
Definition getZeropodContainer (id : string) : M World (option ZContainer) :=
  gets (fun w => zeropodContainers w !! id).

Definition Start (ctx : Context) (r : StartRequest) : M World (result StartResponse) :=
  emit (Log Info "start called in zeropod service %s, %s"
            [AStr (sr_ID r); AStr (sr_ExecID r)]);;
  emit (ServiceStart r);;
  match service_Start env r with
  | Err err => mret (Err err)
  | Ok resp =>
  c ← getContainer (sr_ID r);
  match c with
  | Err err => mret (Err err)
  | Ok container =>
  match GetSpec env (c_Bundle container) with
  | Err err => mret (Err err)
  | Ok spec =>
  match NewConfig (lib env) ctx spec with
  | Err err => mret (Err err)
  | Ok cfg =>
    deferring (emit (Unlock "mut")) (
      emit (Lock "mut");;
      if String.eqb (ContainerType cfg) containerTypeSandbox
         || negb (len (sr_ExecID r) =? 0)
         || negb (IsZeropodContainer cfg)
      then
        emit (Log Debug "ignoring container: %q of type %q"
                  [AStr (ContainerName cfg); AStr (ContainerType cfg)]);;
        mret (Ok resp)
      else
        emit (Log Info "creating zeropod container: %s" [AStr (ContainerName cfg)]);;
        match New cfg container with
        | Err err => mret (Err (wrapError "error creating scaled container" err))
        | Ok zeropodContainer =>
          emit (RegisterPreRestore (sr_ID r));;
          emit (RegisterPostRestore (sr_ID r));;
          modify (with_zeropodContainers
                    <[sr_ID r := RegisterPostRestore_ (RegisterPreRestore_ zeropodContainer)]>);;
          emit (RegisterShutdownStop (sr_ID r));;
          err ← Container_ScheduleScaleDown (sr_ID r);
          match err with
          | Some err => mret (Err err)
          | None => mret (Ok resp)
          end
        end)
  end end end end.

Definition Delete (r : DeleteRequest) : M World (result DeleteResponse) :=
  zc ← getZeropodContainer (dr_ID r);
  match zc with
  | None => emit (ServiceDelete r);; mret (service_Delete env r)
  | Some _ =>
    err ← (if negb (len (dr_ExecID r) =? 0)
           then Container_ScheduleScaleDown (dr_ID r)
           else mret None);
    match err with
    | Some err => mret (Err err)
    | None => emit (ServiceDelete r);; mret (service_Delete env r)
    end
  end.

(** [InitialProcess().SetExited(0)]: a method call on a nil interface
    value panics. *)
Definition InitialProcess_SetExited (zc : ZContainer) (status : Z) : M World unit :=
  match InitialProcess zc with
  | Some ip => Proc_SetExited ip status
  | None => panic "invalid memory address or nil pointer dereference"
  end.

Definition Kill (r : KillRequest) : M World (result unit) :=
  deferring (emit (Unlock "checkpointRestore")) (
    emit (Lock "checkpointRestore");;
    zc ← getZeropodContainer (kr_ID r);
    match zc with
    | None => emit (ServiceKill r);; mret (service_Kill env r)
    | Some zeropodContainer =>
      if (len (kr_ExecID r) =? 0) && ScaledDown zeropodContainer then
        emit (Log Info "requested scaled down process %d to be killed"
                  [AInt (p_Pid (Process_ zeropodContainer))]);;
        Proc_SetExited (Process_ zeropodContainer) 0;;
        InitialProcess_SetExited zeropodContainer 0;;
        Container_Stop (kr_ID r);;
        emit (ServiceKill r);;
        mret (service_Kill env r)
      else if len (kr_ExecID r) =? 0 then
        emit (Log Info "requested container %s to be killed" [AStr (kr_ID r)]);;
        Container_Stop (kr_ID r);;
        emit (ProcessKill (Process_ zeropodContainer) (kr_Signal r) (kr_All r));;
        match process_Kill env (Process_ zeropodContainer) (kr_Signal r) (kr_All r) with
        | Some err => mret (Err (ToGRPC err))
        | None =>
          InitialProcess_SetExited zeropodContainer 0;;
          emit (ServiceKill r);;
          mret (service_Kill env r)
        end
      else
        emit (ServiceKill r);;
        mret (service_Kill env r)
    end).

(** ** zeropod/restore.go *)

(** Modelled from the spec: [containerDir] of package zeropod is not
    among the sources; the Checkpoint is the directory
    [<bundle>/snapshots/container]. *)
Definition containerDir (bundle : string) : string :=
  path_Join [path_Join [bundle; "snapshots"]; "container"].

(** [wrapper.preRestore]: [preStart(nil)] of the embedded service
    returns the handleStarted closure and a cleanup that is deferred. *)
Definition preRestore : M World unit :=
  emit PreStart;;
  emit PreStartCleanup.

(** [wrapper.postRestore].  The error of [container.Process] is dropped;
    without a process the closure of the service has nothing to
    dereference. *)
Definition postRestore (container : RuncContainer) (handleStarted : bool) : M World unit :=
  modify (with_containers <[c_ID container := container]>);;
  if handleStarted
  then match container_Process env container "" with
       | Ok p => emit (HandleStarted container p)
       | Err _ => panic "invalid memory address or nil pointer dereference"
       end
  else mret tt.

(** The [createReq] of [Container.Restore]: the request for the new
    runtime container, whose Checkpoint is cleared when checkpointing is
    disabled. *)
Definition createReq (c : ZContainer) (initialProcess : Proc) : CreateTaskRequest :=
  {| ct_ID := c_ID (zc_Container c);
     ct_Bundle := c_Bundle (zc_Container c);
     ct_Terminal := false;
     ct_Stdin := Stdin (p_Stdio initialProcess);
     ct_Stdout := Stdout (p_Stdio initialProcess);
     ct_Stderr := Stderr (p_Stdio initialProcess);
     ct_ParentCheckpoint := "";
     ct_Checkpoint := if DisableCheckpointing (zc_cfg c) then ""
                      else containerDir (c_Bundle (zc_Container c)) |}.

(** [Container.Restore], on the container registered under [id].  In
    the branch of a failed start, [b, err := os.ReadFile(...)] declares
    a new [err], so the error that is wrapped is the one of the read. *)
Definition Restore (id : string) (c : ZContainer)
  : M World (result (RuncContainer * Proc)) :=
  deferring (emit (Unlock "checkpointRestore")) (
    emit (Lock "checkpointRestore");;
    match zc_initialProcess c with
    | None => panic "invalid memory address or nil pointer dereference"
    | Some initialProcess =>
      emit (RestoreLoggers (c_ID (zc_Container c)));;
      let createReq := createReq c initialProcess in
      emit (NewContainer createReq);;
      match runc_NewContainer env createReq with
      | Err err => mret (Err err)
      | Ok container =>
        emit (CgroupSet container);;
        (if zc_preRestore c then preRestore else mret tt);;
        match container_Process env container "" with
        | Err err => mret (Err err)
        | Ok p =>
          emit (Log Info "restore: process created" []);;
          emit (ProcessStart p);;
          match process_Start env p with
          | Some _ =>
            let path := path_Join [c_Bundle container; "work"; "restore.log"] in
            emit (ReadFile path);;
            match os_ReadFile env path with
            | Err err =>
              emit (Log Error "error reading restore.log: %s" [AErr err]);;
              emit (Log Error "restore.log: %s" [ABytes ""]);;
              mret (Err (Errorf_w "start failed during restore" (Some err)))
            | Ok b =>
              emit (Log Error "restore.log: %s" [ABytes b]);;
              mret (Err (Errorf_w "start failed during restore" None))
            end
          | None =>
            emit ObserveRestoreDuration;;
            update_zc id (fun zc =>
              {| zc_Container := container; zc_cfg := zc_cfg zc;
                 zc_scaledDown := zc_scaledDown zc;
                 zc_process := p; zc_initialProcess := zc_initialProcess zc;
                 zc_preRestore := zc_preRestore zc;
                 zc_postRestore := zc_postRestore zc;
                 zc_activatorStopped := zc_activatorStopped zc;
                 zc_scaleDownScheduled := zc_scaleDownScheduled zc |});;
            (if zc_postRestore c then postRestore container (zc_preRestore c)
             else mret tt);;
            emit (DisableRedirects id);;
            match activator_DisableRedirects env id with
            | Some err => mret (Err (wrapError "could not disable redirects" err))
            | None => mret (Ok (container, p))
            end
          end
        end
      end
    end).

(** [wrapper.Exec].  [Fatalf] logs and ends the process with status 1,
    as does the [os.Exit(1)] that follows it. *)
Definition Exec (r : ExecProcessRequest) : M World (result unit) :=
  zc ← getZeropodContainer (er_ID r);
  match zc with
  | None => emit (ServiceExec r);; mret (service_Exec env r)
  | Some zeropodContainer =>
    Container_CancelScaleDown (er_ID r);;
    (if ScaledDown zeropodContainer then
       emit (Log Info "got exec for scaled down container, restoring" []);;
       res ← Restore (er_ID r) zeropodContainer;
       match res with
       | Err err =>
         emit (Log Fatal "error restoring container, exiting shim: %s" [AErr err]);;
         os_Exit 1
       | Ok (_, p) =>
         SetScaledDown (er_ID r) false;;
         emit (Log Info "restored process for exec: %d in %s" [AInt (p_Pid p)])
       end
     else mret tt);;
    emit (ServiceExec r);;
    mret (service_Exec env r)
  end.

(** ** The exit reconciler *)

Definition preventExit (cp : containerProcess) : M World bool :=
  zc ← getZeropodContainer (c_ID (Container cp));
  match zc with
  | Some zeropodContainer =>
    if ScaledDown zeropodContainer then
      emit (Log Info "not setting exited because process has scaled down: %v"
                [AInt (p_Pid (Process cp))]);;
      mret true
    else
      (if match InitialProcess zeropodContainer with
          | Some ip => String.eqb (p_ID (Process cp)) (p_ID ip)
          | None => false
          end
          || String.eqb (p_ID (Process cp)) (p_ID (Process_ zeropodContainer))
       then InitialProcess_SetExited zeropodContainer 0
       else mret tt);;
      mret false
  | None => mret false
  end.

(** The first loop of [processExits]: [preventExit] is called on every
    pair, and the flag is set once one call returns true. *)
Fixpoint preventExitLoop (cps : list containerProcess) (flag : bool) : M World bool :=
  match cps with
  | [] => mret flag
  | cp :: rest =>
    b ← preventExit cp;
    preventExitLoop rest (if (b : bool) then true else flag)
  end.

(** The second loop: an init whose container has pending execs goes to
    [skipped], every other pair is appended to [cps]. *)
Fixpoint splitExits (pending : gmap nat Z) (rs : list containerProcess)
    (skipped cps : list containerProcess)
  : list containerProcess * list containerProcess :=
  match rs with
  | [] => (skipped, cps)
  | cp :: rest =>
    if p_isInit (Process cp)
       && negb (default 0 (pending !! c_addr (Container cp)) =? 0)
    then splitExits pending rest (skipped ++ [cp]) cps
    else splitExits pending rest skipped (cps ++ [cp])
  end.

(** The body of the loop of [processExits] for one exit event.  [cps]
    is read from the map before the first loop and is appended to in
    the second one. *)
Definition processExit (e : Exit) : M World unit :=
  w ← get;
  let cps := default [] (running w !! e_Pid e) in
  flag ← preventExitLoop cps false;
  if (flag : bool) then mret tt
  else
    emit (Lock "lifecycleMu");;
    modify (with_exitSubscribers
              (fmap (fun subscriber : gmap Z (list Exit) =>
                       <[e_Pid e := app (default [] (subscriber !! e_Pid e)) [e]]> subscriber)));;
    w ← get;
    let '(skipped, cps) :=
      splitExits (pendingExecs w) (default [] (running w !! e_Pid e)) [] cps in
    (if 0 <? Z.of_nat (length skipped)
     then modify (with_running <[e_Pid e := skipped]>)
     else modify (with_running (delete (e_Pid e))));;
    emit (Unlock "lifecycleMu");;
    forEach cps (fun cp => emit (HandleProcessExit e (Container cp) (Process cp))).

(** [processExits]: the loop over the exit events the channel delivers. *)
Definition processExits (ec : list Exit) : M World unit :=
  forEach ec processExit.

End Wrapper.
End Task.

(* ===================================================================== *)
(** * Concrete containers, environments and wrapper states *)
(* ===================================================================== *)
Module Examples.
Import GoLib Run Zeropod.

(** A [time.ParseDuration] that knows one duration. *)
Definition parseDuration (s : string) : result Z :=
  if String.eqb s "30s" then Ok (30 * 1000000000)
  else Err (errorString "time: invalid duration").

(** The library on an amd64 host, for annotations with exact keys. *)
Definition library : Library :=
  {| GOARCH := "amd64"; ParseDuration := parseDuration; Decode := decodeTagged |}.

Definition noCtx : Context := {| ctx_namespace := None |}.

(** The annotations of a workload container named app. *)
Definition appAnnotations : gmap string string :=
  <["zeropod.ctrox.dev/ports-map" := "app=8080,8081;sidecar=9090"]>
  (<["io.kubernetes.cri.container-name" := "app"]>
  (<["io.kubernetes.cri.container-type" := "container"]>
  (<["io.kubernetes.cri.sandbox-name" := "pod-1"]>
  (<["io.kubernetes.cri.sandbox-namespace" := "default"]> ∅)))).

(** The same pod seen through a virtual cluster. *)
Definition vclusterAnnotations : gmap string string :=
  <["vcluster.loft.sh/name" := "vpod"]>
  (<["vcluster.loft.sh/namespace" := "vns"]> appAnnotations).

(** A port map whose only mapping has no [=]. *)
Definition brokenAnnotations : gmap string string :=
  <["zeropod.ctrox.dev/ports-map" := "8080"]>
  (<["io.kubernetes.cri.container-name" := "app"]> ∅).

(** A port map whose unparseable port belongs to another container. *)
Definition foreignPortAnnotations : gmap string string :=
  <["zeropod.ctrox.dev/ports-map" := "sidecar=http"]>
  (<["io.kubernetes.cri.container-name" := "app"]> ∅).

(** A port map whose unparseable port belongs to this container. *)
Definition ownPortAnnotations : gmap string string :=
  <["zeropod.ctrox.dev/ports-map" := "sidecar=9090;app=80,65536"]>
  (<["io.kubernetes.cri.container-name" := "app"]> ∅).

Definition appSpec : Spec := {| Annotations := appAnnotations |}.
Definition vclusterSpec : Spec := {| Annotations := vclusterAnnotations |}.
Definition brokenSpec : Spec := {| Annotations := brokenAnnotations |}.
Definition foreignPortSpec : Spec := {| Annotations := foreignPortAnnotations |}.
Definition ownPortSpec : Spec := {| Annotations := ownPortAnnotations |}.

(** The configuration decoded from [appSpec] and from [vclusterSpec]. *)
Definition appConfig : Config :=
  {| ZeropodContainerNames := []; Ports := [8080; 8081];
     ScaleDownDuration := 60000000000; DisableCheckpointing := false;
     PreDump := false; ContainerName := "app"; ContainerType := "container";
     podName := "pod-1"; podNamespace := "default"; podUID := "";
     ContainerdNamespace := "k8s.io"; spec := appSpec;
     vclusterPodName := ""; vclusterPodNamespace := "" |}.

Definition vclusterConfig : Config :=
  {| ZeropodContainerNames := []; Ports := [8080; 8081];
     ScaleDownDuration := 60000000000; DisableCheckpointing := false;
     PreDump := false; ContainerName := "app"; ContainerType := "container";
     podName := "pod-1"; podNamespace := "default"; podUID := "";
     ContainerdNamespace := "k8s.io"; spec := vclusterSpec;
     vclusterPodName := "vpod"; vclusterPodNamespace := "vns" |}.

(** ** The task wrapper *)
Module T.
Import Task.

Definition io : Stdio :=
  {| Stdin := ""; Stdout := "/run/c1/out"; Stderr := "/run/c1/err"; Terminal := false |}.
Definition c1 : RuncContainer := {| c_addr := 1; c_ID := "c1"; c_Bundle := "/run/c1" |}.
Definition c1' : RuncContainer := {| c_addr := 2; c_ID := "c1"; c_Bundle := "/run/c1" |}.
Definition init1 : Proc :=
  {| p_addr := 10; p_ID := "c1"; p_Pid := 42; p_isInit := true; p_Stdio := io |}.
Definition init1' : Proc :=
  {| p_addr := 12; p_ID := "c1"; p_Pid := 77; p_isInit := true; p_Stdio := io |}.
Definition exec1 : Proc :=
  {| p_addr := 11; p_ID := "sh"; p_Pid := 43; p_isInit := false; p_Stdio := io |}.

(** An environment in which the delegate and the runtime succeed, the
    restored process fails to start, and the spec is [spec]. *)
Definition env (spec : Spec) : Env :=
  {| lib := library;
     service_Start := fun _ => Ok {| Pid := 42 |};
     service_Exec := fun _ => Ok tt;
     service_Delete := fun _ => Ok {| dr_Pid := 42; dr_ExitStatus := 0 |};
     service_Kill := fun _ => Ok tt;
     GetSpec := fun _ => Ok spec;
     container_Process := fun c _ => if Nat.eqb (c_addr c) 1 then Ok init1 else Ok init1';
     process_Kill := fun _ _ _ => None;
     timer_schedule := fun _ => None;
     runc_NewContainer := fun _ => Ok c1';
     process_Start := fun _ => Some (errorString "criu failed: type RESTORE errno 0");
     os_ReadFile := fun _ => Ok "Error (criu/cr-restore.c): Restoring FAILED.";
     activator_DisableRedirects := fun _ => None |}.

Definition managed (scaledDown : bool) : ZContainer :=
  {| zc_Container := c1; zc_cfg := appConfig; zc_scaledDown := scaledDown;
     zc_process := init1; zc_initialProcess := Some init1;
     zc_preRestore := true; zc_postRestore := true;
     zc_activatorStopped := false; zc_scaleDownScheduled := false |}.

(** The wrapper after Create: the container is known, nothing is managed. *)
Definition created : World :=
  {| exited := ∅; zeropodContainers := ∅; containers := {[ "c1" := c1 ]};
     running := ∅; pendingExecs := ∅; exitSubscribers := ∅; trace := [] |}.

(** The wrapper with the managed container [c1] scaled down; pid 42 is
    still registered for its init process. *)
Definition scaledDownWorld : World :=
  {| exited := ∅; zeropodContainers := {[ "c1" := managed true ]};
     containers := {[ "c1" := c1 ]};
     running := {[ 42 := [ {| Container := c1; Process := init1 |} ] ]};
     pendingExecs := ∅; exitSubscribers := ∅; trace := [] |}.

(** An unmanaged container whose init has pid 42 while one exec is
    pending, and whose finished exec has pid 43. *)
Definition pendingExecWorld : World :=
  {| exited := ∅; zeropodContainers := ∅; containers := {[ "c1" := c1 ]};
     running := {[ 42 := [ {| Container := c1; Process := init1 |} ];
                   43 := [ {| Container := c1; Process := exec1 |} ] ]};
     pendingExecs := {[ 1%nat := 1 ]}; exitSubscribers := ∅; trace := [] |}.

Definition exit42 : Exit := {| e_Pid := 42; e_Status := 137 |}.
Definition exit43 : Exit := {| e_Pid := 43; e_Status := 0 |}.

End T.
(** ** The wrapper that checkpoints on Start *)
Module K.
Import TaskCriu.

Definition io : Stdio :=
  {| Stdin := ""; Stdout := "/run/c1/out"; Stderr := "/run/c1/err"; Terminal := false |}.
Definition c1 : Container := {| ID := "c1"; Bundle := "/run/c1" |}.
Definition init1 : Process :=
  {| p_ID := "c1"; p_Pid := 42; p_isInit := true; p_Stdio := io |}.
Definition start : StartRequest := {| r_ID := "c1"; r_ExecID := "" |}.

(** An environment in which everything succeeds except, when
    [criuFails], the checkpoint of the runtime. *)
Definition env (criuFails : bool) : Env :=
  {| service_Start := fun _ => Ok {| Pid := 42 |};
     getContainer := fun _ => Ok c1;
     container_Process := fun _ _ => Ok init1;
     IsSandboxContainer := fun _ => Ok false;
     os_RemoveAll := fun _ => None;
     Init_Checkpoint := fun _ _ =>
       if criuFails then Some (errorString "criu failed: type NOTIFY errno 0") else None;
     os_ReadFile := fun _ => Ok "Error (criu/namespaces.c): Unsupported namespace";
     GetSpec := fun _ => Ok appSpec;
     GetNetworkNS := fun _ => Ok "/proc/42/ns/net";
     NewConfig := fun _ => Ok {| Port := 8080; ScaleDownDuration := 60000000000 |};
     activator_NewServer := fun _ _ => None;
     srv_Start := None;
     ns_GetNS := fun _ => None;
     iptables_restore := fun _ => None |}.

Definition fresh : wrapper :=
  {| originalProcess := None; scaledDown := false; netNSPath := ""; trace := [] |}.

End K.

(** ** The service that rewrites the stdio paths *)
Module S.
Import TaskStdio.

Definition c1 : Container := {| ID := "c1"; Bundle := "/run/c1" |}.

(** A service whose stdout path still ends in [-1] after one trim. *)
Definition twiceSuffixed : service :=
  {| stdio := {| Stdin := ""; Stdout := "file:///var/log/out-1-1";
                 Stderr := "file:///var/log/err-1"; Terminal := false |};
     trace := [] |}.

Definition usual : service :=
  {| stdio := {| Stdin := ""; Stdout := "file:///var/log/out-1";
                 Stderr := "file:///var/log/err-1"; Terminal := false |};
     trace := [] |}.

Definition create_ok (p : Process) (cfg : CreateConfig) : option error := None.
Definition start_ok (p : Process) : option error := None.

End S.
End Examples.

(* ===================================================================== *)
(** * The vocabulary of the properties *)
(* ===================================================================== *)
Module Statements.
Import GoLib Run Zeropod.

(** ** Paths *)

Fixpoint noSlash (s : string) : bool :=
  match s with
  | EmptyString => true
  | String c s' => negb (Ascii.eqb "/" c) && noSlash s'
  end.

(** A path element that [path.Clean] keeps as it is. *)
Definition plain (e : string) : bool :=
  negb (String.eqb e "") && negb (String.eqb e ".") && negb (String.eqb e "..")
  && noSlash e.

(** The rooted path with the elements [es]. *)
Definition rooted (es : list string) : string := "/" ++ Join es "/".

(** ** The port map *)

(** A mapping of the port map that [NewConfig] rejects for the container
    named [cname]: it does not split on [=] into a name and its ports, or
    it names this container and one of its ports is not a 16-bit unsigned
    decimal. *)
Definition badMapping (cname mapping : string) : Prop :=
  length (Split mapping mapDelim) <> 2%nat \/
  exists name ports port,
    Split mapping mapDelim = [name; ports] /\ name = cname /\
    port ∈ Split ports portsDelim /\ is_err (ParseUint10 port 16) = true.

(** A mapping with a port that is not a 16-bit unsigned decimal, whatever
    container it names. *)
Definition unparseablePort (mapping : string) : Prop :=
  exists name ports port,
    Split mapping mapDelim = [name; ports] /\
    port ∈ Split ports portsDelim /\ is_err (ParseUint10 port 16) = true.

(** ** The restore of the first service *)

(** The stdout path after the two trims of [restore]. *)
Definition rewrittenStdout (s : TaskStdio.service) : string :=
  TrimSuffix (TrimPrefix (TaskStdio.Stdout (TaskStdio.stdio s)) "file://") "-1".

(** ** The checkpoint *)

(** The options of the specification, for the bundle of the container. *)
Definition checkpointOptions (bundle : string) : TaskCriu.CheckpointConfig :=
  {| TaskCriu.Path := path_Join [path_Join [bundle; "snapshots"]; "container"];
     TaskCriu.WorkDir := path_Join [path_Join [bundle; "snapshots"]; "work"];
     TaskCriu.Exit := true;
     TaskCriu.AllowOpenTCP := true;
     TaskCriu.AllowExternalUnixSockets := true;
     TaskCriu.AllowTerminal := false;
     TaskCriu.FileLocks := false;
     TaskCriu.EmptyNamespaces := [] |}.

Definition dumpLogPath (bundle : string) : string :=
  path_Join [path_Join [path_Join [bundle; "snapshots"]; "work"]; "dump.log"].

(** What the log shows of dump.log: its contents, or nothing when it
    cannot be read. *)
Definition dumpLog (env : TaskCriu.Env) (bundle : string) : string :=
  match TaskCriu.os_ReadFile env (dumpLogPath bundle) with
  | Ok b => b
  | Err _ => ""
  end.

(** ** The task wrapper *)
Import Task.

Definition isHandleProcessExit (ev : Event) : bool :=
  match ev with HandleProcessExit _ _ _ => true | _ => false end.

Definition isServiceExec (ev : Event) : bool :=
  match ev with ServiceExec _ => true | _ => false end.

(** The events by which [Start] takes a container under management. *)
Definition managesContainer (ev : Event) : bool :=
  match ev with
  | RegisterPreRestore _ | RegisterPostRestore _ | RegisterShutdownStop _
  | ScheduleScaleDown _ => true
  | _ => false
  end.

(** [w'] differs from [w] by statuses of processes and by the events
    [evs], none of which hands an exit to the delegate. *)
Definition quietStep (w w' : World) (evs : list Event) : Prop :=
  zeropodContainers w' = zeropodContainers w /\
  containers w' = containers w /\
  running w' = running w /\
  pendingExecs w' = pendingExecs w /\
  exitSubscribers w' = exitSubscribers w /\
  trace w' = (trace w ++ evs)%list /\
  forallb (fun ev => negb (isHandleProcessExit ev)) evs = true.

(** The pair belongs to a managed container that is scaled down. *)
Definition scaledDownPair (w : World) (cp : containerProcess) : Prop :=
  exists zc, zeropodContainers w !! c_ID (Container cp) = Some zc /\ ScaledDown zc = true.

(** The pairs the second loop of [processExits] defers. *)
Definition deferred (pending : gmap nat Z) (cp : containerProcess) : bool :=
  p_isInit (Process cp) && negb (default 0 (pending !! c_addr (Container cp)) =? 0).

Definition restoreLogPath (newc : RuncContainer) : string :=
  path_Join [c_Bundle newc; "work"; "restore.log"].

(** What the log shows of restore.log. *)
Definition restoreLog (env : Env) (newc : RuncContainer) : string :=
  match os_ReadFile env (restoreLogPath newc) with
  | Ok b => b
  | Err _ => ""
  end.

(** The error of the read of restore.log, if any. *)
Definition restoreLogError (env : Env) (newc : RuncContainer) : option error :=
  match os_ReadFile env (restoreLogPath newc) with
  | Ok _ => None
  | Err e => Some e
  end.

(** The Start RPCs the wrapper leaves to the delegate. *)
Definition ignored (r : StartRequest) (cfg : Config) : Prop :=
  sr_ExecID r <> "" \/ ContainerType cfg = "sandbox" \/ IsZeropodContainer cfg = false.

End Statements.

(* ===================================================================== *)
(** * The second task service: Kill, restore and the exit events *)
(* ===================================================================== *)
Module TaskCriuRest.
Import GoLib Run TaskCriu.

Record KillRequest := { k_ID : string; k_ExecID : string; k_Signal : Z; k_All : bool }.

(** [runcC.Exit] *)
Record Exit := { e_Pid : Z; e_Status : Z }.

Record CreateConfig := { cc_ID : string; cc_Bundle : string; cc_Checkpoint : string }.

(** The fields of the [*process.Init] that [restore] builds. *)
Record Init := {
  i_ID : string;
  i_Stdio : Stdio;
  i_Bundle : string;
  i_WorkDir : string;
  i_CriuWorkPath : string
}.

(** A container of the service with the processes [All()] returns. *)
Record Tracked := { t_Container : Container; t_All : list Process }.

Inductive Event : Type :=
| Log (lvl : Level) (format : string) (args : list Arg)
| Lock (mutex : string)
| Unlock (mutex : string)
| ServiceKill (r : KillRequest)
| SetExited (p : Process) (status : Z)
| ProcessCreate (p : Init) (cfg : CreateConfig)
| ProcessStart (p : Init)
| SetMainProcess (containerID : string) (p : Init)
| SendTaskStart (containerID : string) (pid : Z)
| SendTaskExit (containerID : string) (id : string) (pid : Z) (status : Z)
| KillAll (p : Process).

(** The wrapper of [TaskCriu] together with what these functions did. *)
Record state := { base : wrapper; events : list Event }.

Definition emit (ev : Event) : M state unit :=
  modify (fun s => {| base := base s; events := events s ++ [ev] |}).

Definition set_scaledDown (b : bool) : M state unit :=
  modify (fun s => {| base := {| originalProcess := originalProcess (base s);
                                 scaledDown := b;
                                 netNSPath := netNSPath (base s);
                                 trace := trace (base s) |};
                      events := events s |}).

(** What the delegate and the runtime answer to these functions. *)
Record Env := {
  lookup : TaskCriu.Env;
  service_Kill : KillRequest -> result unit;
  runtime_Create : Init -> CreateConfig -> option error;
  runtime_Start : Init -> option error;
  runtime_Pid : Init -> Z;
  ShouldKillAllOnExit : string -> bool;
  Init_KillAll : Process -> option error
}.

(** [process.New(id, runtime, stdio)] *)
Definition process_New (id : string) (io : Stdio) : Init :=
  {| i_ID := id; i_Stdio := io; i_Bundle := ""; i_WorkDir := ""; i_CriuWorkPath := "" |}.

(** [container.HasPid]: the pid of the init or of one of the execs. *)
Definition HasPid (c : Tracked) (pid : Z) : bool :=
  existsb (fun p => p_Pid p =? pid) (t_All c).

Section Wrapper.
Variable env : Env.

(** [wrapper.Kill] *)
Definition Kill (r : KillRequest) : M state (result unit) :=
  s ← get;
  if (len (k_ExecID r) =? 0) && scaledDown (base s) then
    match getContainer (lookup env) (k_ID r) with
    | Err err => mret (Err err)
    | Ok container =>
      match container_Process (lookup env) container "" with
      | Err err => mret (Err err)
      | Ok p =>
        emit (Log Info "requested scaled down process %d to be killed" [AInt (p_Pid p)]);;
        match originalProcess (base s) with
        | None => panic "invalid memory address or nil pointer dereference"
        | Some op =>
          emit (SetExited op 0);;
          emit (SetExited p 0);;
          emit (ServiceKill r);;
          mret (service_Kill env r)
        end
      end
    end
  else
    emit (ServiceKill r);;
    mret (service_Kill env r).

(** [wrapper.restore] *)
Definition restore (container : Container) : M state (result Init) :=
  s ← get;
  match originalProcess (base s) with
  | None => panic "invalid memory address or nil pointer dereference"
  | Some op =>
    let p := process_New (ID container)
               {| Stdin := ""; Terminal := false;
                  Stdout := "file://" ++ Stdout (p_Stdio op) ++ "-1";
                  Stderr := "file://" ++ Stderr (p_Stdio op) ++ "-1" |} in
    let workDir := path_Join [Bundle container; "work"] in
    let p := {| i_ID := i_ID p; i_Stdio := i_Stdio p; i_Bundle := Bundle container;
                i_WorkDir := workDir;
                i_CriuWorkPath := if String.eqb (i_CriuWorkPath p) "" then workDir
                                  else i_CriuWorkPath p |} in
    emit (Log Info "restoring %s" [AStr (ID container)]);;
    let cfg := {| cc_ID := ID container; cc_Bundle := Bundle container;
                  cc_Checkpoint := containerDir (Bundle container) |} in
    emit (ProcessCreate p cfg);;
    match runtime_Create env p cfg with
    | Some err => mret (Err (wrapError "creation failed during restore" err))
    | None =>
      emit (Log Info "restore: process created" []);;
      emit (ProcessStart p);;
      match runtime_Start env p with
      | Some err => mret (Err (wrapError "start failed during restore" err))
      | None =>
        emit (SetMainProcess (ID container) p);;
        emit (SendTaskStart (ID container) (uint32 (runtime_Pid env p)));;
        mret (Ok p)
      end
    end
  end.

(** The first closure [StartZeropod] hands to the activator: what runs
    when a connection is accepted. *)
Definition onAccept (container : Container) : M state (Container * Init) :=
  emit (Log Info "got a request" []);;
  emit (Lock "eventSendMu");;
  r ← restore container;
  match r with
  | Err err =>
    emit (Log Fatal "error restoring container, exiting shim: %s" [AErr err]);;
    os_Exit 1
  | Ok p =>
    set_scaledDown false;;
    emit (Log Info "restored process: %d" [AInt (runtime_Pid env p)]);;
    emit (SendTaskStart (ID container) (uint32 (runtime_Pid env p)));;
    emit (Unlock "eventSendMu");;
    mret (container, p)
  end.

(** The inner loop of [checkProcesses] over the processes of the first
    container that has the pid: a process that is skipped or suppressed
    lets the loop go on, the first one that is handled ends the function. *)
Fixpoint checkAll (e : Exit) (container : Container) (ps : list Process)
  : M state unit :=
  match ps with
  | [] => mret tt
  | p :: rest =>
    if negb (p_Pid p =? e_Pid e) then checkAll e container rest
    else
      (if p_isInit p && ShouldKillAllOnExit env (Bundle container)
       then emit (KillAll p);;
            match Init_KillAll env p with
            | Some err => emit (Log Error "failed to kill init's children" [AErr err; AStr (p_ID p)])
            | None => mret tt
            end
       else mret tt);;
      s ← get;
      if scaledDown (base s) then
        emit (Log Info "not setting exited because process has scaled down: %v"
                  [AInt (p_Pid p)]);;
        checkAll e container rest
      else
        match originalProcess (base s) with
        | None => panic "invalid memory address or nil pointer dereference"
        | Some op =>
          (if String.eqb (p_ID p) (p_ID op) then emit (SetExited op 0) else mret tt);;
          emit (SetExited p (e_Status e));;
          emit (SendTaskExit (ID container) (p_ID p) (uint32 (e_Pid e))
                             (uint32 (e_Status e)))
        end
  end.

(** The outer loop over the containers, in the order in which the map
    of the service is ranged over: the function returns after the first
    container that has the pid. *)
Fixpoint checkContainers (e : Exit) (cs : list Tracked) : M state unit :=
  match cs with
  | [] => mret tt
  | c :: rest =>
    if negb (HasPid c (e_Pid e)) then checkContainers e rest
    else checkAll e (t_Container c) (t_All c)
  end.

(** [wrapper.checkProcesses] *)
Definition checkProcesses (containers : list Tracked) (e : Exit) : M state unit :=
  deferring (emit (Unlock "mu")) (emit (Lock "mu");; checkContainers e containers).

(** [wrapper.processExits] over the exit events the channel delivers. *)
Definition processExits (containers : list Tracked) (ec : list Exit) : M state unit :=
  forEach ec (checkProcesses containers).

End Wrapper.

Definition isTaskExit (ev : Event) : bool :=
  match ev with SendTaskExit _ _ _ _ => true | _ => false end.

Definition isSetExited (ev : Event) : bool :=
  match ev with SetExited _ _ => true | _ => false end.

Definition isTaskStart (ev : Event) : bool :=
  match ev with SendTaskStart _ _ => true | _ => false end.

End TaskCriuRest.

(* ===================================================================== *)
(** * More vocabulary *)
(* ===================================================================== *)
Module MoreStatements.
Import GoLib Run Zeropod.

(** The number a port of the port map stands for. *)
Definition portValue (port : string) : Z :=
  match ParseUint10 port 16 with
  | Ok p => p
  | Err _ => 0
  end.

(** The ports a mapping contributes to the container named [cname]. *)
Definition mappingPorts (cname mapping : string) : list Z :=
  match Split mapping mapDelim with
  | [name; ports] =>
    if String.eqb name cname then map portValue (Split ports portsDelim) else []
  | _ => []
  end.

(** The mappings of a decoded port map. *)
Definition mappingsOf (a : annotationConfig) : list string :=
  if String.eqb (a_PortMap a) "" then [] else Split (a_PortMap a) mappingDelim.

(** An option of the annotations that is set and does not parse. *)
Definition unparseable {A} (parse : string -> result A) (value : string) : Prop :=
  value <> "" /\ is_err (parse value) = true.

End MoreStatements.

(* ===================================================================== *)
(** * Vocabulary of the exit reconciler *)
(* ===================================================================== *)
Module TaskStatements.
Import GoLib Run Task.

(** The pair belongs to no managed container, or to a managed one that
    is not scaled down and has its initial process. *)
Definition livePair (w : World) (cp : containerProcess) : Prop :=
  match zeropodContainers w !! c_ID (Container cp) with
  | None => True
  | Some zc => ScaledDown zc = false /\ is_Some (InitialProcess zc)
  end.

(** A subscriber after it was informed of the exit. *)
Definition informed (e : Exit) (subscriber : gmap Z (list Exit)) : gmap Z (list Exit) :=
  <[e_Pid e := (default [] (subscriber !! e_Pid e) ++ [e])%list]> subscriber.

(** The process of the pair has the id of the initial or of the current
    process of the managed container. *)
Definition isMainProcess (zc : ZContainer) (ip : Proc) (cp : containerProcess) : Prop :=
  p_ID (Process cp) = p_ID ip \/ p_ID (Process cp) = p_ID (Process_ zc).

End TaskStatements.

(* ===================================================================== *)
(** * Vocabulary of the checkpoint on Start *)
(* ===================================================================== *)
Module CriuStatements.
Import GoLib Run TaskCriu Statements.

(** The error of the read of dump.log, if any. *)
Definition dumpLogError (env : Env) (bundle : string) : option error :=
  match os_ReadFile env (dumpLogPath bundle) with
  | Ok _ => None
  | Err e => Some e
  end.

(** The network namespace the wrapper uses: the stored path, or the one
    of the spec when none is stored yet. *)
Definition usedNetNS (env : Env) (spec : Zeropod.Spec) (w : wrapper) : result string :=
  if len (netNSPath w) =? 0 then GetNetworkNS env spec else Ok (netNSPath w).

End CriuStatements.

(* ===================================================================== *)
(** * Vocabulary of the restore and of the exit events *)
(* ===================================================================== *)
Module CriuRestStatements.
Import GoLib Run TaskCriu TaskCriuRest.

(** The process that [restore] asks the runtime to create for a
    container, given the original process. *)
Definition restoredInit (container : Container) (op : Process) : Init :=
  {| i_ID := ID container;
     i_Stdio := {| Stdin := ""; Terminal := false;
                   Stdout := "file://" ++ Stdout (p_Stdio op) ++ "-1";
                   Stderr := "file://" ++ Stderr (p_Stdio op) ++ "-1" |};
     i_Bundle := Bundle container;
     i_WorkDir := path_Join [Bundle container; "work"];
     i_CriuWorkPath := path_Join [Bundle container; "work"] |}.

Definition restoreConfig (container : Container) : CreateConfig :=
  {| cc_ID := ID container; cc_Bundle := Bundle container;
     cc_Checkpoint := containerDir (Bundle container) |}.

(** What is done to the children of an init that exited. *)
Definition killEvents (env : Env) (container : Container) (p : Process) : list Event :=
  if p_isInit p && ShouldKillAllOnExit env (Bundle container)
  then KillAll p ::
       match Init_KillAll env p with
       | Some err => [Log Error "failed to kill init's children" [AErr err; AStr (p_ID p)]]
       | None => []
       end
  else [].

(** The first process of the first container that has the pid. *)
Definition exitedProcess (cs : list Tracked) (pid : Z) : option (Tracked * Process) :=
  match List.find (fun c => HasPid c pid) cs with
  | Some c =>
    match List.find (fun p => p_Pid p =? pid) (t_All c) with
    | Some p => Some (c, p)
    | None => None
    end
  | None => None
  end.

Definition marksExit (ev : Event) : bool := isSetExited ev || isTaskExit ev.

End CriuRestStatements.

(* ===================================================================== *)
(** * More concrete inputs *)
(* ===================================================================== *)
Module MoreExamples.
Import GoLib Run Zeropod Examples.

(** An arm64 host, and annotations that ask for pre-dump and disable
    checkpointing. *)
Definition armLibrary : Library :=
  {| GOARCH := "arm64"; ParseDuration := parseDuration; Decode := decodeTagged |}.

Definition flagsSpec : Spec :=
  {| Annotations := <["zeropod.ctrox.dev/pre-dump" := "true"]>
                    (<["zeropod.ctrox.dev/disable-checkpointing" := "1"]> ∅) |}.

Definition flagsConfig : Config :=
  {| ZeropodContainerNames := []; Ports := [];
     ScaleDownDuration := 60000000000; DisableCheckpointing := true;
     PreDump := false; ContainerName := ""; ContainerType := "";
     podName := ""; podNamespace := ""; podUID := "";
     ContainerdNamespace := "k8s.io"; spec := flagsSpec;
     vclusterPodName := ""; vclusterPodNamespace := "" |}.

(** Annotations that select two containers, on the container sidecar. *)
Definition namesSpec : Spec :=
  {| Annotations := <["zeropod.ctrox.dev/container-names" := "app,web"]>
                    (<["io.kubernetes.cri.container-name" := "sidecar"]> ∅) |}.

Definition namesConfig : Config :=
  {| ZeropodContainerNames := ["app"; "web"]; Ports := [];
     ScaleDownDuration := 60000000000; DisableCheckpointing := false;
     PreDump := false; ContainerName := "sidecar"; ContainerType := "";
     podName := ""; podNamespace := ""; podUID := "";
     ContainerdNamespace := "k8s.io"; spec := namesSpec;
     vclusterPodName := ""; vclusterPodNamespace := "" |}.

(** ** The task wrapper *)
Module T2.
Import Task.

(** An environment in which everything succeeds, except the timer when
    [timerFails], the signal when [killFails], the creation of the
    restored container when [createFails] and the removal of the
    redirects when [redirectsFail]. *)
Definition env (timerFails killFails createFails redirectsFail : bool) : Env :=
  {| lib := library;
     service_Start := fun _ => Ok {| Pid := 42 |};
     service_Exec := fun _ => Ok tt;
     service_Delete := fun _ => Ok {| dr_Pid := 43; dr_ExitStatus := 0 |};
     service_Kill := fun _ => Ok tt;
     GetSpec := fun _ => Ok appSpec;
     container_Process := fun c _ => if Nat.eqb (c_addr c) 1 then Ok T.init1 else Ok T.init1';
     process_Kill := fun _ _ _ =>
       if killFails then Some (errorString "process already finished") else None;
     timer_schedule := fun _ =>
       if timerFails then Some (errorString "timer refused") else None;
     runc_NewContainer := fun _ =>
       if createFails then Err (errorString "bundle not found") else Ok T.c1';
     process_Start := fun _ => None;
     os_ReadFile := fun _ => Err (PathError "open" "restore.log");
     activator_DisableRedirects := fun _ =>
       if redirectsFail then Some (errorString "iptables: no chain") else None |}.

Definition ok : Env := env false false false false.

(** The wrapper with the managed container [c1] running. *)
Definition runningWorld : World :=
  {| exited := ∅; zeropodContainers := {[ "c1" := T.managed false ]};
     containers := {[ "c1" := T.c1 ]};
     running := {[ 42 := [ {| Container := T.c1; Process := T.init1 |} ] ]};
     pendingExecs := ∅;
     exitSubscribers := {[ 7%nat := ∅ ]}; trace := [] |}.

Definition killInit : KillRequest :=
  {| kr_ID := "c1"; kr_ExecID := ""; kr_Signal := 15; kr_All := false |}.
Definition killExec : KillRequest :=
  {| kr_ID := "c1"; kr_ExecID := "sh"; kr_Signal := 9; kr_All := false |}.
Definition deleteExec : DeleteRequest := {| dr_ID := "c1"; dr_ExecID := "sh" |}.
Definition deleteInit : DeleteRequest := {| dr_ID := "c1"; dr_ExecID := "" |}.
Definition execSh : ExecProcessRequest := {| er_ID := "c1"; er_ExecID := "sh" |}.
Definition startInit : StartRequest := {| sr_ID := "c1"; sr_ExecID := "" |}.

End T2.

(** ** The second task service *)
Module K2.
Import TaskCriu TaskCriuRest.

Definition exec1 : Process :=
  {| p_ID := "sh"; p_Pid := 43; p_isInit := false; p_Stdio := K.io |}.

Definition tracked : Tracked := {| t_Container := K.c1; t_All := [exec1; K.init1] |}.

Definition other : Tracked :=
  {| t_Container := {| ID := "c2"; Bundle := "/run/c2" |};
     t_All := [ {| p_ID := "c2"; p_Pid := 42; p_isInit := true; p_Stdio := K.io |} ] |}.

Definition env (startFails : bool) : Env :=
  {| lookup := K.env false;
     service_Kill := fun _ => Ok tt;
     runtime_Create := fun _ _ => None;
     runtime_Start := fun _ =>
       if startFails then Some (errorString "criu failed: type RESTORE errno 0") else None;
     runtime_Pid := fun _ => 77;
     ShouldKillAllOnExit := fun _ => true;
     Init_KillAll := fun _ => None |}.

(** The wrapper after a scale-down, and after a restore. *)
Definition scaled : state :=
  {| base := {| originalProcess := Some K.init1; scaledDown := true;
                netNSPath := "/proc/42/ns/net"; trace := [] |};
     events := [] |}.

Definition live : state :=
  {| base := {| originalProcess := Some K.init1; scaledDown := false;
                netNSPath := "/proc/42/ns/net"; trace := [] |};
     events := [] |}.

Definition exit42 : Exit := {| e_Pid := 42; e_Status := 137 |}.

End K2.
End MoreExamples.

(* ===================================================================== *)
(** * Properties *)
(* ===================================================================== *)

(** Runs a monadic definition symbolically as far as its tests allow. *)
Ltac run :=
  unfold mbind, Run.M_bind, mret, Run.M_ret, Run.bind, Run.ret, Run.deferring,
         Run.get, Run.gets, Run.modify, Run.panic, Run.os_Exit;
  cbn.

(** Decides membership of an event in an explicit list of events. *)
Ltac in_events H :=
  repeat (apply elem_of_cons in H as [H|H];
          [first [discriminate | by inversion H | by subst]|]);
  try (by inversion H).

(* --------------------------------------------------------------------- *)
(** ** Paths *)
(* --------------------------------------------------------------------- *)
Module PathFacts.
Import GoLib Statements.

Lemma len_zero s : (len s =? 0) = String.eqb s "".
Proof. destruct s; reflexivity. Qed.

Lemma append_assoc (a b c : string) : (a ++ b) ++ c = a ++ b ++ c.
Proof.
  induction a as [|x a IH]; [reflexivity|].
  change (String x ((a ++ b) ++ c) = String x (a ++ b ++ c)). f_equal. exact IH.
Qed.

Lemma Split_from_plain e : noSlash e = true -> Split_from "/" 0 e = [e].
Proof.
  induction e as [|c e IH]; [reflexivity|]. cbn [noSlash]. intros H.
  apply andb_true_iff in H as [Hc He]. apply negb_true_iff in Hc.
  cbn [Split_from HasPrefix]. rewrite Hc. cbn [andb]. rewrite (IH He). reflexivity.
Qed.

Lemma Split_from_slash e rest :
  noSlash e = true ->
  Split_from "/" 0 (e ++ "/" ++ rest) = e :: Split_from "/" 0 rest.
Proof.
  induction e as [|c e IH]; intros H.
  - reflexivity.
  - cbn [noSlash] in H. apply andb_true_iff in H as [Hc He]. apply negb_true_iff in Hc.
    change ((String c e) ++ "/" ++ rest) with (String c (e ++ "/" ++ rest)).
    cbn [Split_from HasPrefix]. rewrite Hc. cbn [andb]. rewrite (IH He). reflexivity.
Qed.

Lemma Split_from_Join es :
  es <> [] -> forallb noSlash es = true -> Split_from "/" 0 (Join es "/") = es.
Proof.
  induction es as [|e [|e2 rest] IH]; intros Hne Hall; [congruence| |].
  - cbn in Hall. rewrite andb_true_r in Hall. apply Split_from_plain, Hall.
  - cbn [forallb] in Hall. apply andb_true_iff in Hall as [He Hrest].
    change (Join (e :: e2 :: rest) "/") with (e ++ "/" ++ Join (e2 :: rest) "/").
    rewrite Split_from_slash by exact He. rewrite IH; [reflexivity|discriminate|exact Hrest].
Qed.

Lemma cleanElems_plain r es : forall stack,
  forallb plain es = true -> cleanElems r stack es = (rev stack ++ es)%list.
Proof.
  induction es as [|e es IH]; intros stack Hall.
  - cbn. rewrite app_nil_r. reflexivity.
  - cbn [forallb] in Hall. apply andb_true_iff in Hall as [He Hes].
    unfold plain in He. rewrite !andb_true_iff, !negb_true_iff in He.
    destruct He as [[[H1 H2] H3] _].
    cbn [cleanElems]. rewrite H1, H2, H3. cbn [orb].
    rewrite IH by exact Hes. cbn [rev]. rewrite <- app_assoc. reflexivity.
Qed.

Lemma plain_noSlash es : forallb plain es = true -> forallb noSlash es = true.
Proof.
  induction es as [|e es IH]; [reflexivity|]. cbn [forallb]. rewrite !andb_true_iff.
  intros [He Hes]. split; [|auto]. unfold plain in He. rewrite !andb_true_iff in He. tauto.
Qed.

(** A rooted path of plain elements is already clean. *)
Lemma Clean_rooted es :
  es <> [] -> forallb plain es = true -> Clean (rooted es) = rooted es.
Proof.
  intros Hne Hall. unfold Clean, rooted.
  change (HasPrefix ("/" ++ Join es "/") "/") with true. cbn iota.
  change (Split ("/" ++ Join es "/") "/") with ("" :: Split_from "/" 0 (Join es "/")).
  rewrite Split_from_Join by auto using plain_noSlash.
  cbn [cleanElems String.eqb orb]. rewrite cleanElems_plain by exact Hall. cbn [rev app].
  reflexivity.
Qed.

Lemma Join_snoc es x : es <> [] -> Join (es ++ [x]) "/" = Join es "/" ++ "/" ++ x.
Proof.
  induction es as [|e [|e2 rest] IH]; intros Hne; [congruence|reflexivity|].
  change (Join ((e :: e2 :: rest) ++ [x]) "/")
    with (e ++ "/" ++ Join ((e2 :: rest) ++ [x]) "/").
  rewrite IH by discriminate.
  change (Join (e :: e2 :: rest) "/") with (e ++ "/" ++ Join (e2 :: rest) "/").
  rewrite !append_assoc. reflexivity.
Qed.

(** [path.Join] of a rooted clean path and one more plain element appends
    the element after a slash. *)
Lemma path_Join_rooted es x :
  es <> [] -> forallb plain es = true -> plain x = true ->
  path_Join [rooted es; x] = rooted (es ++ [x]) /\
  rooted (es ++ [x]) = rooted es ++ "/" ++ x.
Proof.
  intros Hne Hall Hx.
  assert (Hx' : String.eqb x "" = false).
  { unfold plain in Hx. rewrite !andb_true_iff, !negb_true_iff in Hx. tauto. }
  assert (Heq : rooted (es ++ [x]) = rooted es ++ "/" ++ x).
  { unfold rooted. rewrite Join_snoc by exact Hne. reflexivity. }
  split; [|exact Heq].
  unfold path_Join. cbn [List.filter]. change (String.eqb (rooted es) "") with false.
  rewrite Hx'. cbn [negb Join]. rewrite <- Heq.
  apply Clean_rooted.
  - destruct es; discriminate.
  - rewrite forallb_app, Hall. cbn. rewrite Hx. reflexivity.
Qed.

(** The two directories under the snapshot directory of a bundle. *)
Lemma snapshot_paths es sub :
  es <> [] -> forallb plain es = true -> plain sub = true ->
  path_Join [path_Join [rooted es; "snapshots"]; sub]
  = rooted es ++ "/snapshots/" ++ sub.
Proof.
  intros Hne Hall Hsub.
  destruct (path_Join_rooted es "snapshots" Hne Hall eq_refl) as [H1 H2].
  rewrite H1.
  destruct (path_Join_rooted (es ++ ["snapshots"]) sub) as [H3 H4].
  - destruct es; discriminate.
  - rewrite forallb_app, Hall. reflexivity.
  - exact Hsub.
  - rewrite H3, H4, H2, !append_assoc. reflexivity.
Qed.

End PathFacts.

(* --------------------------------------------------------------------- *)
(** ** The annotation decoder *)
(* --------------------------------------------------------------------- *)
Module ConfigFacts.
Import GoLib Zeropod Statements Examples.

Lemma parsePorts_err ports : forall acc port,
  port ∈ ports -> is_err (ParseUint10 port 16) = true ->
  is_err (parsePorts ports acc) = true.
Proof.
  induction ports as [|q rest IH]; intros acc port Hin Hbad.
  - inversion Hin.
  - simpl. destruct (ParseUint10 q 16) as [v|e] eqn:Hq; [|reflexivity].
    apply elem_of_cons in Hin as [->|Hin].
    + rewrite Hq in Hbad. discriminate.
    + eapply IH; eauto.
Qed.

Lemma parsePorts_err_inv ports : forall acc,
  is_err (parsePorts ports acc) = true ->
  exists port, port ∈ ports /\ is_err (ParseUint10 port 16) = true.
Proof.
  induction ports as [|q rest IH]; intros acc H; [discriminate|].
  simpl in H. destruct (ParseUint10 q 16) eqn:Hq.
  - destruct (IH _ H) as (port & ? & ?). exists port. split; [by right|done].
  - exists q. split; [by left|]. by rewrite Hq.
Qed.

Lemma parseMappings_cons cname m rest acc :
  parseMappings cname (m :: rest) acc =
  match Split m mapDelim with
  | [name; ports] =>
    if negb (String.eqb name cname) then parseMappings cname rest acc
    else match parsePorts (Split ports portsDelim) acc with
         | Err err => Err err
         | Ok acc' => parseMappings cname rest acc'
         end
  | _ => Err (errorString "invalid port map, the format needs to be name=port")
  end.
Proof. reflexivity. Qed.

(** The loop over the mappings fails as soon as one mapping is bad. *)
Lemma parseMappings_err cname mappings : forall acc mapping,
  mapping ∈ mappings -> badMapping cname mapping ->
  is_err (parseMappings cname mappings acc) = true.
Proof.
  induction mappings as [|m rest IH]; intros acc mapping Hin Hbad.
  - inversion Hin.
  - rewrite parseMappings_cons.
    apply elem_of_cons in Hin as [->|Hin].
    + destruct Hbad as [Hlen|(name & ports & port & Hs & -> & Hp & Hbad)].
      * destruct (Split m mapDelim) as [|a [|b [|c l]]]; try reflexivity.
        exfalso; apply Hlen; reflexivity.
      * rewrite Hs, String.eqb_refl. cbn [negb].
        pose proof (parsePorts_err _ acc _ Hp Hbad) as H.
        destruct (parsePorts (Split ports portsDelim) acc); [discriminate|reflexivity].
    + destruct (Split m mapDelim) as [|a [|b [|c l]]]; try reflexivity.
      destruct (negb (a =? cname)%string); [eapply IH; eauto|].
      destruct (parsePorts (Split b portsDelim) acc); [eapply IH; eauto|reflexivity].
Qed.

(** And it fails only then. *)
Lemma parseMappings_err_inv cname mappings : forall acc,
  is_err (parseMappings cname mappings acc) = true ->
  exists mapping, mapping ∈ mappings /\ badMapping cname mapping.
Proof.
  induction mappings as [|m rest IH]; intros acc H; [discriminate|].
  rewrite parseMappings_cons in H.
  destruct (Split m mapDelim) as [|a [|b [|c l]]] eqn:Hs.
  1,2,4: exists m; split; [by left|]; left; rewrite Hs; simpl; lia.
  destruct (a =? cname)%string eqn:Ha; cbn [negb] in H.
  - destruct (parsePorts (Split b portsDelim) acc) eqn:Hp.
    + destruct (IH _ H) as (x & ? & ?). exists x; split; [by right|done].
    + destruct (parsePorts_err_inv (Split b portsDelim) acc) as (port & ? & ?);
        [by rewrite Hp|].
      exists m; split; [by left|]. right. exists a, b, port.
      apply String.eqb_eq in Ha. rewrite Hs. done.
  - destruct (IH _ H) as (x & ? & ?). exists x; split; [by right|done].
Qed.

(** [NewConfig] fails on a non-empty port map with a bad mapping. *)
Lemma NewConfig_bad_port_map lib ctx spec a mapping :
  Decode lib (Annotations spec) = Ok a ->
  a_PortMap a <> "" ->
  mapping ∈ Split (a_PortMap a) mappingDelim ->
  badMapping (a_ContainerName a) mapping ->
  exists e, NewConfig lib ctx spec = Err e.
Proof.
  intros Hdec Hne Hin Hbad. unfold NewConfig. rewrite Hdec.
  rewrite PathFacts.len_zero.
  apply String.eqb_neq in Hne. rewrite Hne. cbn [negb].
  pose proof (parseMappings_err _ _ [] _ Hin Hbad) as H.
  destruct (parseMappings _ _ _) as [v|e]; [discriminate|]. eauto.
Qed.

(** The tagged decoder reads the fields off the annotations. *)
Lemma decodeTagged_fields m :
  exists a, decodeTagged m = Ok a /\
    a_PortMap a = field m PortsAnnotationKey /\
    a_ContainerName a = field m CRIContainerNameAnnotation /\
    a_VClusterPodName a = field m VClusterNameAnnotationKey /\
    a_VClusterPodNamespace a = field m VClusterNamespaceAnnotationKey.
Proof. eexists. split; [reflexivity|]. repeat split. Qed.

(** The identity fields of a configuration are the decoded annotations. *)
Lemma NewConfig_pod_identity lib ctx spec cfg :
  NewConfig lib ctx spec = Ok cfg ->
  exists a, Decode lib (Annotations spec) = Ok a /\
    vclusterPodName cfg = a_VClusterPodName a /\
    vclusterPodNamespace cfg = a_VClusterPodNamespace a /\
    HostPodName cfg = a_PodName a /\
    HostPodNamespace cfg = a_PodNamespace a.
Proof.
  unfold NewConfig.
  destruct (Decode lib (Annotations spec)) as [a|]; [|discriminate].
  repeat match goal with
         | |- context [match ?x with Ok _ => _ | Err _ => _ end] =>
           destruct x; [|discriminate]
         end.
  intros [= <-]. exists a. repeat split.
Qed.

(** [C10] For every configuration, [PodName] is the vcluster pod name when
    that is not empty and the host pod name otherwise, and [PodNamespace]
    is the vcluster namespace when that is not empty and the host pod
    namespace otherwise. *)
Theorem PodName_PodNamespace_vcluster_first (cfg : Config) :
  (vclusterPodName cfg <> "" -> PodName cfg = vclusterPodName cfg) /\
  (vclusterPodName cfg = "" -> PodName cfg = HostPodName cfg) /\
  (vclusterPodNamespace cfg <> "" -> PodNamespace cfg = vclusterPodNamespace cfg) /\
  (vclusterPodNamespace cfg = "" -> PodNamespace cfg = HostPodNamespace cfg).
Proof.
  unfold PodName, PodNamespace, HostPodName, HostPodNamespace.
  repeat split; intros H.
  - apply String.eqb_neq in H. rewrite H. reflexivity.
  - rewrite H. reflexivity.
  - apply String.eqb_neq in H. rewrite H. reflexivity.
  - rewrite H. reflexivity.
Qed.

Lemma PodName_PodNamespace_witness :
  NewConfig library noCtx vclusterSpec = Ok vclusterConfig /\
  NewConfig library noCtx appSpec = Ok appConfig /\
  PodName vclusterConfig = "vpod" /\ PodNamespace vclusterConfig = "vns" /\
  PodName appConfig = "pod-1" /\ PodNamespace appConfig = "default".
Proof.
  split; [vm_compute; reflexivity|]. split; [vm_compute; reflexivity|].
  destruct (PodName_PodNamespace_vcluster_first vclusterConfig) as (Hv1 & _ & Hv3 & _).
  destruct (PodName_PodNamespace_vcluster_first appConfig) as (_ & Ha2 & _ & Ha4).
  split; [apply Hv1; discriminate|]. split; [apply Hv3; discriminate|].
  split; [apply Ha2; reflexivity|apply Ha4; reflexivity].
Defined.

(** The port of a mapping for another container is not parsed: the
    decoding succeeds although the port is not a number. *)
Lemma NewConfig_skips_ports_of_other_containers :
  Decode library foreignPortAnnotations = decodeTagged foreignPortAnnotations /\
  field foreignPortAnnotations PortsAnnotationKey = "sidecar=http" /\
  field foreignPortAnnotations CRIContainerNameAnnotation = "app" /\
  (exists mapping,
     mapping ∈ Split (field foreignPortAnnotations PortsAnnotationKey) mappingDelim /\
     unparseablePort mapping) /\
  is_ok (NewConfig library noCtx foreignPortSpec) = true.
Proof.
  split; [reflexivity|]. split; [reflexivity|]. split; [reflexivity|].
  split; [|vm_compute; reflexivity].
  exists "sidecar=http". split; [vm_compute; by left|].
  exists "sidecar", "http", "http". split; [reflexivity|].
  split; [vm_compute; by left|reflexivity].
Qed.

End ConfigFacts.

(* --------------------------------------------------------------------- *)
(** ** The stdio paths of the restored process *)
(* --------------------------------------------------------------------- *)
Module StdioFacts.
Import GoLib Run TaskStdio Statements Examples.

#[local] Arguments path_Join : simpl never.
#[local] Arguments TrimPrefix : simpl never.
#[local] Arguments TrimSuffix : simpl never.

(** A stdout path that ends in [-1-1] keeps one suffix through the
    rewriting; the stderr path loses it, and the two paths differ. *)
Lemma restore_stderr_differs_from_stdout :
  exists p s',
    restore S.create_ok S.start_ok "r1" S.c1 S.twiceSuffixed = (Done (Ok p, {| ID := "r1"; Bundle := "/run/c1" |}), s') /\
    Stdout (p_Stdio p) = "file:///var/log/out-1-1" /\
    Stderr (p_Stdio p) = "file:///var/log/out-1" /\
    Stderr (p_Stdio p) <> Stdout (p_Stdio p).
Proof.
  do 2 eexists. split; [vm_compute; reflexivity|]. cbn.
  split; [reflexivity|]. split; [reflexivity|]. discriminate.
Qed.

(** [C9] In the stdio rewriting of [restore] the stderr path is computed
    from the rewritten stdout string alone, whatever the configured
    stderr: the process is created with stdout [file://] + o + [-1] and
    stderr [file://] + TrimSuffix(o, [-1]) + [-1], where o is the
    rewritten stdout; the two are the same path whenever o does not itself
    end in [-1]. *)
Theorem restore_stderr_from_stdout
    (runtime_Create : Process -> CreateConfig -> option error)
    (runtime_Start : Process -> option error) (newID : string)
    (container : Container) (s : service) :
  exists res s' p cfg rest,
    restore runtime_Create runtime_Start newID container s = (Done res, s') /\
    trace s' = (trace s ++ Log Info "restoring %s" [AStr newID]
                        :: ProcessCreate p cfg :: rest)%list /\
    (forall q, fst res = Ok q -> q = p) /\
    Stdout (p_Stdio p) = "file://" ++ rewrittenStdout s ++ "-1" /\
    Stderr (p_Stdio p) = "file://" ++ TrimSuffix (rewrittenStdout s) "-1" ++ "-1" /\
    (HasSuffix (rewrittenStdout s) "-1" = false ->
       Stderr (p_Stdio p) = Stdout (p_Stdio p)).
Proof.
  unfold restore, emit, setStdout, setStderr, process_New, rewrittenStdout. run.
  set (out := TrimSuffix (TrimPrefix (Stdout (stdio s)) "file://") "-1").
  assert (Hsame : HasSuffix out "-1" = false ->
            "file://" ++ TrimSuffix out "-1" ++ "-1" = "file://" ++ out ++ "-1").
  { intros H. unfold TrimSuffix. rewrite H. reflexivity. }
  destruct (runtime_Create _ _) as [e|]; run.
  - do 5 eexists. split; [reflexivity|]. cbn. rewrite <- !app_assoc. cbn.
    split; [reflexivity|]. cbn. split; [discriminate|]. auto.
  - destruct (runtime_Start _) as [e|]; run;
      do 5 eexists; (split; [reflexivity|]); cbn; rewrite <- !app_assoc; cbn;
      (split; [reflexivity|]); cbn; (split; [try discriminate; by intros q [= <-]|]); auto.
Qed.

Lemma restore_stderr_from_stdout_witness :
  HasSuffix (rewrittenStdout S.usual) "-1" = false /\
  exists res s' p,
    restore S.create_ok S.start_ok "r1" S.c1 S.usual = (Done res, s') /\
    (forall q, fst res = Ok q -> q = p) /\
    Stdout (p_Stdio p) = "file://" ++ rewrittenStdout S.usual ++ "-1" /\
    Stderr (p_Stdio p) = Stdout (p_Stdio p).
Proof.
  split; [reflexivity|].
  destruct (restore_stderr_from_stdout S.create_ok S.start_ok "r1" S.c1 S.usual)
    as (res & s' & p & cfg & rest & Hrun & _ & Hres & Hout & _ & Hsame).
  exists res, s', p. split; [exact Hrun|]. split; [exact Hres|].
  split; [exact Hout|]. apply Hsame. reflexivity.
Defined.

End StdioFacts.

(* --------------------------------------------------------------------- *)
(** ** The checkpoint on Start *)
(* --------------------------------------------------------------------- *)
Module CriuFacts.
Import GoLib Run TaskCriu Statements Examples.

#[local] Arguments len : simpl never.
#[local] Arguments path_Join : simpl never.

Ltac step :=
  match goal with
  | |- context [match ?x with _ => _ end] =>
    match x with
    | context [match _ with _ => _ end] => fail 1
    | _ => destruct x eqn:?
    end
  end; run.

(** Bringing up the activator never checkpoints. *)
Lemma StartZeropod_no_checkpoint env container w :
  exists o w' evs, StartZeropod env container w = (o, w') /\
    trace w' = (trace w ++ evs)%list /\
    forallb (fun ev => negb (isCheckpoint ev)) evs = true.
Proof.
  unfold StartZeropod, emit, set_netNSPath. run.
  repeat step;
    do 3 eexists; (split; [reflexivity|]); cbn; rewrite <- ?app_assoc;
    (split; [try reflexivity; symmetry; apply app_nil_r|reflexivity]).
Qed.

(** [C6] Every checkpoint that [scaleDown] invokes is passed the options
    of the specification: dump target [<bundle>/snapshots/container], work
    directory [<bundle>/snapshots/work], exit after dump, open TCP and
    external unix sockets allowed, no terminal, no file locks and no empty
    namespaces.  Once the snapshot directory is removed, the checkpoint of
    an init process is invoked exactly once.  The two directories are
    built with [path.Join]; for a bundle given as a rooted clean path
    they are the bundle path followed by [/snapshots/container] and
    [/snapshots/work]. *)
Theorem scaleDown_checkpoint_options (env : Env) (container : Container)
    (p : Process) (w : wrapper) :
  exists o w' evs,
    scaleDown env container p w = (o, w') /\
    trace w' = (trace w ++ evs)%list /\
    (forall q cfg, Checkpoint q cfg ∈ evs ->
       q = p /\ cfg = checkpointOptions (Bundle container)) /\
    (os_RemoveAll env (snapshotDir (Bundle container)) = None ->
     p_isInit p = true ->
     exists pre post,
       evs = (pre ++ Checkpoint p (checkpointOptions (Bundle container)) :: post)%list /\
       forallb (fun ev => negb (isCheckpoint ev)) pre = true /\
       forallb (fun ev => negb (isCheckpoint ev)) post = true) /\
    (forall es, es <> [] -> forallb plain es = true -> Bundle container = rooted es ->
       Path (checkpointOptions (Bundle container))
         = Bundle container ++ "/snapshots/container" /\
       WorkDir (checkpointOptions (Bundle container))
         = Bundle container ++ "/snapshots/work").
Proof.
  assert (Hpaths : forall es, es <> [] -> forallb plain es = true ->
            Bundle container = rooted es ->
            Path (checkpointOptions (Bundle container))
              = Bundle container ++ "/snapshots/container" /\
            WorkDir (checkpointOptions (Bundle container))
              = Bundle container ++ "/snapshots/work").
  { intros es Hne Hall ->. unfold checkpointOptions. cbn [Path WorkDir].
    rewrite !PathFacts.snapshot_paths by auto. split; reflexivity. }
  unfold scaleDown, removeCriuIPTablesRules, emit, set_scaledDown. run.
  unfold snapshotDir at 1.
  destruct (os_RemoveAll env _) as [e|] eqn:Hrm; run.
  { do 3 eexists. split; [reflexivity|]. cbn. split; [reflexivity|].
    split; [|split; [intros Hn; unfold snapshotDir in Hn; congruence|exact Hpaths]].
    intros q cfg Hin. in_events Hin. }
  destruct (p_isInit p) eqn:Hinit; run.
  2:{ do 3 eexists. split; [reflexivity|]. cbn. rewrite <- !app_assoc.
      split; [reflexivity|]. split; [|split; [discriminate|exact Hpaths]].
      intros q cfg Hin. cbn in Hin. in_events Hin. }
  unfold containerDir, snapshotDir.
  fold (checkpointOptions (Bundle container)).
  set (opts := checkpointOptions (Bundle container)) in *.
  destruct (Init_Checkpoint env p _) as [e|] eqn:Hcp; run.
  - destruct (os_ReadFile env _) as [b|e'] eqn:Hrd; run;
      do 3 eexists; (split; [reflexivity|]); cbn; rewrite <- !app_assoc;
      (split; [reflexivity|]); cbn; (split;
        [ intros q cfg Hin; in_events Hin
        | split; [intros _ _; eexists [_; _], _; split; [reflexivity|]; split; reflexivity
                 |exact Hpaths] ]).
  - match goal with
    | |- context [StartZeropod env container ?w0] =>
      destruct (StartZeropod_no_checkpoint env container w0)
        as (o & w1 & evs & Hrun & Ht & Hq)
    end.
    rewrite Hrun. cbn in Ht. rewrite <- !app_assoc in Ht. cbn in Ht.
    assert (Hnone : forall q cfg, Checkpoint q cfg ∈ evs -> False).
    { intros q cfg Hin. rewrite forallb_forall in Hq.
      apply list_elem_of_In in Hin. specialize (Hq _ Hin). discriminate. }
    assert (Hfin : forall (o' : outcome (option error)) w2 post,
               trace w2 = (trace w1 ++ post)%list ->
               forallb (fun ev => negb (isCheckpoint ev)) post = true ->
               exists o2 w' evs0, (o', w2) = (o2, w') /\
                 trace w' = (trace w ++ evs0)%list /\
                 (forall q cfg, Checkpoint q cfg ∈ evs0 -> q = p /\ cfg = opts) /\
                 (@None error = None -> true = true ->
                  exists pre post0, evs0 = (pre ++ Checkpoint p opts :: post0)%list /\
                    forallb (fun ev => negb (isCheckpoint ev)) pre = true /\
                    forallb (fun ev => negb (isCheckpoint ev)) post0 = true) /\
                 (forall es, es <> [] -> forallb plain es = true ->
                    Bundle container = rooted es ->
                    Path opts = Bundle container ++ "/snapshots/container" /\
                    WorkDir opts = Bundle container ++ "/snapshots/work")).
    { intros o' w2 post Hw2 Hpost. exists o', w2. eexists. split; [reflexivity|].
      rewrite Hw2, Ht, <- !app_assoc. cbn. split; [reflexivity|]. split; [|split].
      - intros q cfg Hin.
        repeat (apply elem_of_cons in Hin as [Hin|Hin];
                [first [discriminate | by inversion Hin]|]).
        apply elem_of_app in Hin as [Hin|Hin]; [destruct (Hnone _ _ Hin)|].
        rewrite forallb_forall in Hpost. apply list_elem_of_In in Hin.
        specialize (Hpost _ Hin). discriminate.
      - intros _ _. eexists [_; _], _. split; [reflexivity|]. split; [reflexivity|].
        cbn. rewrite forallb_app, Hq, Hpost. reflexivity.
      - exact Hpaths. }
    destruct o as [[e|]| |]; run.
    + eapply Hfin; [cbn; rewrite <- ?app_assoc; reflexivity|reflexivity].
    + destruct (ns_GetNS env _) as [e|]; run.
      * eapply Hfin; [cbn; rewrite <- ?app_assoc; reflexivity|reflexivity].
      * destruct (iptables_restore env _) as [e|]; run.
        -- eapply Hfin; [cbn; rewrite <- ?app_assoc; reflexivity|reflexivity].
        -- eapply Hfin; [cbn; rewrite <- ?app_assoc; reflexivity|reflexivity].
    + apply Hfin with (post := []); [cbn; rewrite app_nil_r; reflexivity|reflexivity].
    + apply Hfin with (post := []); [cbn; rewrite app_nil_r; reflexivity|reflexivity].
Qed.

Lemma scaleDown_checkpoint_options_witness :
  os_RemoveAll (K.env false) (snapshotDir (Bundle K.c1)) = None /\
  p_isInit K.init1 = true /\
  Bundle K.c1 = rooted ["run"; "c1"] /\
  exists o w' evs,
    scaleDown (K.env false) K.c1 K.init1 K.fresh = (o, w') /\
    trace w' = (trace K.fresh ++ evs)%list /\
    Checkpoint K.init1 (checkpointOptions (Bundle K.c1)) ∈ evs /\
    Path (checkpointOptions (Bundle K.c1)) = "/run/c1" ++ "/snapshots/container" /\
    WorkDir (checkpointOptions (Bundle K.c1)) = "/run/c1" ++ "/snapshots/work".
Proof.
  split; [reflexivity|]. split; [reflexivity|]. split; [reflexivity|].
  destruct (scaleDown_checkpoint_options (K.env false) K.c1 K.init1 K.fresh)
    as (o & w' & evs & Hrun & Ht & _ & Honce & Hpaths).
  destruct (Honce eq_refl eq_refl) as (pre & post & -> & _ & _).
  destruct (Hpaths ["run"; "c1"]) as [Hp Hw];
    [discriminate|reflexivity|reflexivity|].
  exists o, w', (pre ++ Checkpoint K.init1 (checkpointOptions (Bundle K.c1)) :: post)%list.
  split; [exact Hrun|]. split; [exact Ht|].
  split; [apply elem_of_app; right; apply elem_of_cons; by left|].
  split; [exact Hp|exact Hw].
Defined.

(** [C4] When the checkpoint of the runtime fails during the scale-down
    that [Start] triggers, the scaled-down flag is false again, dump.log
    of the checkpoint work directory is read and what was read is logged,
    no activator is created or started, and [Start] returns a response
    without an error. *)
Theorem Start_checkpoint_failure_recovers (env : Env) (r : StartRequest) (w : wrapper)
    (resp : StartResponse) (container : Container) (p : Process) (err : error) :
  service_Start env r = Ok resp ->
  getContainer env (r_ID r) = Ok container ->
  container_Process env container (r_ExecID r) = Ok p ->
  IsSandboxContainer env (Bundle container) = Ok false ->
  r_ExecID r = "" ->
  p_isInit p = true ->
  os_RemoveAll env (snapshotDir (Bundle container)) = None ->
  Init_Checkpoint env p (checkpointOptions (Bundle container)) = Some err ->
  exists resp' w' evs,
    Start env r w = (Done (Ok resp'), w') /\
    scaledDown w' = false /\
    trace w' = (trace w ++ evs)%list /\
    Checkpoint p (checkpointOptions (Bundle container)) ∈ evs /\
    ReadFile (dumpLogPath (Bundle container)) ∈ evs /\
    Log Error "dump.log: %s" [ABytes (dumpLog env (Bundle container))] ∈ evs /\
    (forall ev, ev ∈ evs -> startsActivator ev = false).
Proof.
  intros Hsvc Hc Hp Hsb Hexec Hinit Hrm Hcp.
  unfold dumpLog, dumpLogPath.
  unfold Start, scaleDown, emit, set_scaledDown, set_originalProcess. run.
  rewrite Hsvc, Hc, Hp, Hsb, Hexec. run.
  rewrite Hrm. run. rewrite Hinit. run.
  unfold checkpointOptions in *. unfold containerDir, snapshotDir in *.
  rewrite Hcp. run.
  destruct (os_ReadFile env _) as [b|e]; run;
    do 3 eexists; (split; [reflexivity|]); cbn; (split; [reflexivity|]);
    rewrite <- !app_assoc; (split; [reflexivity|]); cbn;
    (split; [set_solver|]); (split; [set_solver|]); (split; [set_solver|]);
    intros ev Hev;
    repeat (apply elem_of_cons in Hev as [->|Hev]; [reflexivity|]); inversion Hev.
Qed.

Lemma Start_checkpoint_failure_recovers_witness :
  Init_Checkpoint (K.env true) K.init1 (checkpointOptions (Bundle K.c1))
    = Some (errorString "criu failed: type NOTIFY errno 0") /\
  exists resp' w' evs,
    Start (K.env true) K.start K.fresh = (Done (Ok resp'), w') /\
    scaledDown w' = false /\
    trace w' = (trace K.fresh ++ evs)%list /\
    Log Error "dump.log: %s"
        [ABytes "Error (criu/namespaces.c): Unsupported namespace"] ∈ evs /\
    (forall ev, ev ∈ evs -> startsActivator ev = false).
Proof.
  split; [reflexivity|].
  destruct (Start_checkpoint_failure_recovers (K.env true) K.start K.fresh
              {| Pid := 42 |} K.c1 K.init1
              (errorString "criu failed: type NOTIFY errno 0")
              eq_refl eq_refl eq_refl eq_refl eq_refl eq_refl eq_refl eq_refl)
    as (resp' & w' & evs & Hrun & Hsd & Ht & _ & _ & Hlog & Hact).
  exists resp', w', evs. split; [exact Hrun|]. split; [exact Hsd|].
  split; [exact Ht|]. split; [exact Hlog|exact Hact].
Defined.

End CriuFacts.

(* --------------------------------------------------------------------- *)
(** ** The task wrapper: Kill and the exit reconciler *)
(* --------------------------------------------------------------------- *)
Module TaskFacts.
Import GoLib Run Zeropod Task Statements Examples.

#[local] Arguments NewConfig : simpl never.
#[local] Arguments IsZeropodContainer : simpl never.
#[local] Arguments len : simpl never.
#[local] Arguments path_Join : simpl never.

(** [C1] A Kill with an empty exec id on a managed container that is
    scaled down marks the current and the initial process as exited with
    status 0, stops the activator and then hands the request to the
    delegate; what the delegate answers is the answer of the call, so the
    wrapper adds no failure of its own. *)
Theorem Kill_scaled_down (env : Env) (r : KillRequest) (w : World)
    (zc : ZContainer) (ip : Proc) :
  kr_ExecID r = "" ->
  zeropodContainers w !! kr_ID r = Some zc ->
  ScaledDown zc = true ->
  InitialProcess zc = Some ip ->
  exists w',
    Kill env r w = (Done (service_Kill env r), w') /\
    trace w' = (trace w ++
      [ Lock "checkpointRestore";
        Log Info "requested scaled down process %d to be killed"
            [AInt (p_Pid (Process_ zc))];
        SetExited (Process_ zc) 0;
        SetExited ip 0;
        Stop (kr_ID r);
        ServiceKill r;
        Unlock "checkpointRestore" ])%list /\
    is_Some (exited w' !! p_addr (Process_ zc)) /\
    is_Some (exited w' !! p_addr ip) /\
    (exited w !! p_addr (Process_ zc) = None ->
       exited w' !! p_addr (Process_ zc) = Some 0) /\
    (exited w !! p_addr ip = None -> exited w' !! p_addr ip = Some 0) /\
    (exists zc', zeropodContainers w' !! kr_ID r = Some zc' /\
                 zc_activatorStopped zc' = true /\ ScaledDown zc' = true).
Proof.
  intros Hexec Hzc Hsd Hip.
  unfold Kill, getZeropodContainer, InitialProcess_SetExited, Proc_SetExited,
    Container_Stop, update_zc, emit.
  run. rewrite Hzc, Hexec, Hsd, Hip. run.
  eexists. split; [reflexivity|]. cbn. rewrite <- !app_assoc. cbn.
  split; [reflexivity|]. rewrite Hzc.
  set (a := p_addr (Process_ zc)). set (b := p_addr ip).
  assert (Hfacts :
    forall ex : gmap nat Z,
      let ex1 := match ex !! a with Some _ => ex | None => <[a := 0]> ex end in
      let ex2 := match ex1 !! b with Some _ => ex1 | None => <[b := 0]> ex1 end in
      is_Some (ex2 !! a) /\ is_Some (ex2 !! b) /\
      (ex !! a = None -> ex2 !! a = Some 0) /\
      (ex !! b = None -> ex2 !! b = Some 0)).
  { intros ex. cbn zeta.
    destruct (ex !! a) as [sa|] eqn:Ha.
    - destruct (ex !! b) as [sb|] eqn:Hb.
      + rewrite Ha, Hb. repeat split; eauto; discriminate.
      + destruct (decide (b = a)) as [->|Hne]; [congruence|].
        rewrite lookup_insert_ne, Ha, lookup_insert_eq by done.
        repeat split; eauto; discriminate.
    - rewrite lookup_insert. destruct (decide (a = b)) as [<-|Hne].
      + rewrite lookup_insert_eq. repeat split; eauto.
      + destruct (ex !! b) as [sb|] eqn:Hb.
        * rewrite lookup_insert_eq, lookup_insert_ne, Hb by done.
          repeat split; eauto; discriminate.
        * rewrite lookup_insert_eq.
          rewrite lookup_insert_ne, lookup_insert_eq by done.
          repeat split; eauto. }
  destruct (Hfacts (exited w)) as (H1 & H2 & H3 & H4).
  repeat (split; [assumption|]).
  eexists. split; [apply lookup_insert_eq|]. split; [reflexivity|exact Hsd].
Qed.

Lemma Kill_scaled_down_witness :
  zeropodContainers T.scaledDownWorld !! "c1" = Some (T.managed true) /\
  exists w',
    Kill (T.env appSpec) {| kr_ID := "c1"; kr_ExecID := ""; kr_Signal := 15; kr_All := false |}
         T.scaledDownWorld = (Done (Ok tt), w') /\
    exited w' !! 10%nat = Some 0 /\
    (exists zc', zeropodContainers w' !! "c1" = Some zc' /\
                 zc_activatorStopped zc' = true /\ ScaledDown zc' = true).
Proof.
  split; [reflexivity|].
  destruct (Kill_scaled_down (T.env appSpec)
              {| kr_ID := "c1"; kr_ExecID := ""; kr_Signal := 15; kr_All := false |}
              T.scaledDownWorld (T.managed true) T.init1
              eq_refl eq_refl eq_refl eq_refl)
    as (w' & Hrun & _ & _ & _ & Hex & _ & Hstop).
  exists w'. split; [exact Hrun|]. split; [apply Hex; reflexivity|exact Hstop].
Defined.

Lemma quietStep_refl w : quietStep w w [].
Proof. unfold quietStep. rewrite app_nil_r. tauto. Qed.

Lemma quietStep_trans w1 w2 w3 evs1 evs2 :
  quietStep w1 w2 evs1 -> quietStep w2 w3 evs2 -> quietStep w1 w3 (evs1 ++ evs2).
Proof.
  unfold quietStep. intros (?&?&?&?&?&Ht1&Hq1) (?&?&?&?&?&Ht2&Hq2).
  repeat split; try congruence.
  - rewrite Ht2, Ht1, app_assoc. reflexivity.
  - rewrite forallb_app, Hq1, Hq2. reflexivity.
Qed.

(** [preventExit] hands nothing to the delegate, and answers true when
    the pair belongs to a managed container that is scaled down. *)
Lemma preventExit_quiet cp w :
  exists o w' evs, preventExit cp w = (o, w') /\ quietStep w w' evs /\
    (scaledDownPair w cp -> o = Done true) /\
    (forall why, o <> Exited why).
Proof.
  unfold scaledDownPair.
  unfold preventExit, getZeropodContainer, InitialProcess_SetExited, Proc_SetExited, emit.
  run.
  destruct (zeropodContainers w !! c_ID (Container cp)) as [zc|] eqn:Hzc.
  - destruct (ScaledDown zc) eqn:Hsd.
    + run. do 3 eexists. split; [reflexivity|]. split.
      * unfold quietStep; cbn. repeat split; reflexivity.
      * split; [reflexivity|discriminate].
    + destruct (InitialProcess zc) as [ip|] eqn:Hip.
      * destruct ((p_ID (Process cp) =? p_ID ip)%string
                  || (p_ID (Process cp) =? p_ID (Process_ zc))%string);
          run; do 3 eexists; (split; [reflexivity|]); split.
        -- unfold quietStep; cbn. repeat split; reflexivity.
        -- split; [intros (zc' & [= <-] & ?); congruence | discriminate].
        -- apply quietStep_refl.
        -- split; [intros (zc' & [= <-] & ?); congruence | discriminate].
      * cbn. destruct (p_ID (Process cp) =? p_ID (Process_ zc))%string;
          run; do 3 eexists; (split; [reflexivity|]); split.
        -- apply quietStep_refl.
        -- split; [intros (zc' & [= <-] & ?); congruence | discriminate].
        -- apply quietStep_refl.
        -- split; [intros (zc' & [= <-] & ?); congruence | discriminate].
  - do 3 eexists. split; [reflexivity|]. split; [apply quietStep_refl|].
    split; [intros (zc' & ? & ?); discriminate | discriminate].
Qed.

(** The first loop hands nothing to the delegate either, and it can only
    end with a false flag when no pair is scaled down. *)
Lemma preventExitLoop_quiet cps : forall flag w,
  exists o w' evs, preventExitLoop cps flag w = (o, w') /\ quietStep w w' evs /\
    (o = Done false ->
       flag = false /\ forall cp, cp ∈ cps -> ~ scaledDownPair w cp) /\
    (forall why, o <> Exited why).
Proof.
  induction cps as [|cp rest IH]; intros flag w.
  - exists (Done flag), w, []. split; [reflexivity|]. split; [apply quietStep_refl|].
    split; [|discriminate].
    intros [= ->]. split; [reflexivity|]. intros cp Hin. inversion Hin.
  - destruct (preventExit_quiet cp w) as (o & w1 & evs1 & Hrun & Hq & Hyes & Hnx).
    cbn [preventExitLoop]. unfold mbind, M_bind, Run.bind. rewrite Hrun.
    destruct o as [b| |].
    + destruct (IH (if b then true else flag) w1)
        as (o2 & w2 & evs2 & Hrun2 & Hq2 & Hfalse & Hnx2).
      exists o2, w2, (evs1 ++ evs2)%list. split; [exact Hrun2|].
      split; [eapply quietStep_trans; eauto|]. split; [|exact Hnx2].
      intros ->. destruct (Hfalse eq_refl) as [Hflag Hrest].
      destruct b; [discriminate|]. split; [exact Hflag|].
      intros cp' Hin Hsd.
      apply elem_of_cons in Hin as [->|Hin].
      * specialize (Hyes Hsd). discriminate.
      * apply (Hrest cp' Hin). destruct Hsd as (zc & Hzc & Hsd). exists zc.
        split; [|exact Hsd]. destruct Hq as (Hz & _). rewrite Hz. exact Hzc.
    + exists (Panicked why), w1, evs1. split; [reflexivity|]. split; [exact Hq|].
      split; discriminate.
    + destruct (Hnx code eq_refl).
Qed.

(** [C2] When the pid of an exit event maps to a pair of a managed
    container that is scaled down, [processExits] drops the event: nothing
    is handed to [handleProcessExit] of the delegate, the running map and
    the exit subscribers are as before, and the loop goes on with the next
    event (or the goroutine has panicked in [preventExit]). *)
Theorem processExit_suppresses_scaled_down (e : Exit) (w : World)
    (cp : containerProcess) (zc : ZContainer) :
  cp ∈ default [] (running w !! e_Pid e) ->
  zeropodContainers w !! c_ID (Container cp) = Some zc ->
  ScaledDown zc = true ->
  exists o w' evs,
    processExit e w = (o, w') /\
    (o = Done tt \/ exists why, o = Panicked why) /\
    trace w' = (trace w ++ evs)%list /\
    (forall ev, ev ∈ evs -> isHandleProcessExit ev = false) /\
    running w' = running w /\
    exitSubscribers w' = exitSubscribers w.
Proof.
  intros Hin Hzc Hsd.
  unfold processExit. unfold mbind at 1, M_bind at 1, Run.bind at 1, Run.get at 1.
  destruct (preventExitLoop_quiet (default [] (running w !! e_Pid e)) false w)
    as (o & w1 & evs & Hrun & Hq & Hfalse & Hnx).
  unfold mbind at 1, M_bind at 1, Run.bind at 1. rewrite Hrun.
  assert (Hquiet : trace w1 = (trace w ++ evs)%list /\
             (forall ev, ev ∈ evs -> isHandleProcessExit ev = false) /\
             running w1 = running w /\ exitSubscribers w1 = exitSubscribers w).
  { destruct Hq as (_&_&Hr&_&Hs&Ht&Hall). repeat split; auto.
    intros ev Hev. rewrite forallb_forall in Hall.
    apply list_elem_of_In in Hev. specialize (Hall ev Hev).
    destruct (isHandleProcessExit ev); [discriminate|reflexivity]. }
  destruct o as [flag| |].
  - destruct flag.
    + exists (Done tt), w1, evs. split; [reflexivity|]. split; [by left|exact Hquiet].
    + exfalso. destruct (Hfalse eq_refl) as [_ Hnone].
      apply (Hnone cp Hin). exists zc. auto.
  - exists (Panicked why), w1, evs. split; [reflexivity|].
    split; [right; eauto|exact Hquiet].
  - destruct (Hnx code eq_refl).
Qed.

Lemma processExit_suppresses_scaled_down_witness :
  {| Container := T.c1; Process := T.init1 |}
    ∈ default [] (running T.scaledDownWorld !! e_Pid T.exit42) /\
  exists o w' evs,
    processExit T.exit42 T.scaledDownWorld = (o, w') /\
    trace w' = (trace T.scaledDownWorld ++ evs)%list /\
    (forall ev, ev ∈ evs -> isHandleProcessExit ev = false) /\
    running w' = running T.scaledDownWorld.
Proof.
  assert (Hin : {| Container := T.c1; Process := T.init1 |}
                  ∈ default [] (running T.scaledDownWorld !! e_Pid T.exit42))
    by (vm_compute; by left).
  split; [exact Hin|].
  destruct (processExit_suppresses_scaled_down T.exit42 T.scaledDownWorld
              {| Container := T.c1; Process := T.init1 |} (T.managed true)
              Hin eq_refl eq_refl)
    as (o & w' & evs & Hrun & _ & Ht & Hq & Hr & _).
  exists o, w', evs. auto.
Defined.

(** The second loop appends to the two slices it is given. *)
Lemma splitExits_spec pending rs : forall skipped cps,
  splitExits pending rs skipped cps =
  ((skipped ++ List.filter (deferred pending) rs)%list,
   (cps ++ List.filter (fun cp => negb (deferred pending cp)) rs)%list).
Proof.
  induction rs as [|cp rest IH]; intros skipped cps.
  - cbn. rewrite !app_nil_r. reflexivity.
  - cbn [splitExits List.filter].
    change (p_isInit (Process cp)
            && negb (default 0 (pending !! c_addr (Container cp)) =? 0))
      with (deferred pending cp).
    destruct (deferred pending cp); rewrite IH; cbn [negb];
      rewrite <- app_assoc; reflexivity.
Qed.

Lemma forEach_emit (f : containerProcess -> Event) cps : forall w,
  forEach cps (fun cp => emit (f cp)) w
  = (Done tt, with_trace (fun t => (t ++ map f cps)%list) w).
Proof.
  induction cps as [|cp rest IH]; intros w.
  - cbn. unfold Run.ret, with_trace. rewrite app_nil_r. destruct w; reflexivity.
  - cbn [forEach]. unfold Run.bind, emit, Run.modify. rewrite IH.
    unfold with_trace. cbn. rewrite <- app_assoc. reflexivity.
Qed.

Lemma preventExitLoop_unmanaged cps : forall flag w,
  zeropodContainers w = ∅ -> preventExitLoop cps flag w = (Done flag, w).
Proof.
  induction cps as [|cp rest IH]; intros flag w Hz; [reflexivity|].
  cbn [preventExitLoop]. unfold preventExit, getZeropodContainer. run.
  rewrite Hz, lookup_empty. run. apply IH, Hz.
Qed.

(** What one pass of [processExits] hands to the delegate when no
    container is managed: every pair registered for the pid, and then once
    more every pair that is not deferred. *)
Lemma processExit_unmanaged (e : Exit) (w : World) :
  zeropodContainers w = ∅ ->
  let cps := default [] (running w !! e_Pid e) in
  exists w',
    processExit e w = (Done tt, w') /\
    trace w' = (trace w ++ Lock "lifecycleMu" :: Unlock "lifecycleMu"
                  :: map (fun cp => HandleProcessExit e (Container cp) (Process cp))
                         (cps ++ List.filter (fun cp => negb (deferred (pendingExecs w) cp)) cps))%list /\
    running w' !! e_Pid e =
      match List.filter (deferred (pendingExecs w)) cps with
      | [] => None
      | skipped => Some skipped
      end.
Proof.
  intros Hz cps. unfold processExit.
  unfold mbind at 1, M_bind at 1, Run.bind at 1, Run.get at 1.
  unfold mbind at 1, M_bind at 1, Run.bind at 1.
  rewrite preventExitLoop_unmanaged by exact Hz.
  pose proof (forEach_emit (fun cp => HandleProcessExit e (Container cp) (Process cp)))
    as HF.
  unfold emit, Run.modify in HF.
  unfold emit. run. fold cps. rewrite splitExits_spec. cbn [app].
  destruct (List.filter (deferred (pendingExecs w)) cps) as [|s0 sk] eqn:Hsk.
  - change (0 <? Z.of_nat (length (@nil containerProcess))) with false. run. rewrite HF.
    eexists. split; [reflexivity|]. cbn. rewrite <- !app_assoc. cbn.
    split; [reflexivity|]. apply lookup_delete_eq.
  - assert (Hlen : (0 <? Z.of_nat (length (s0 :: sk))) = true)
      by (apply Z.ltb_lt; cbn [length]; lia).
    rewrite Hlen. run. rewrite HF.
    eexists. split; [reflexivity|]. cbn. rewrite <- !app_assoc. cbn.
    split; [reflexivity|]. apply lookup_insert_eq.
Qed.

(** [C3] (a defect: the init exit is not deferred)  At the exit of the
    init process of a container that has a pending exec, one pass of
    [processExits] keeps the pair in the running map for the closure of
    the exec and all the same hands it to [handleProcessExit] in this
    pass; at the exit of a process without pending execs the pair is
    handed to [handleProcessExit] twice.  Deferring the init exit and
    handling every other pair once would need a fresh [cps] for the
    second loop. *)
Theorem processExit_handles_deferred_and_twice :
  deferred (pendingExecs T.pendingExecWorld)
    {| Container := T.c1; Process := T.init1 |} = true /\
  (exists w',
     processExit T.exit42 T.pendingExecWorld = (Done tt, w') /\
     running w' !! 42 = Some [ {| Container := T.c1; Process := T.init1 |} ] /\
     trace w' = [ Lock "lifecycleMu"; Unlock "lifecycleMu";
                  HandleProcessExit T.exit42 T.c1 T.init1 ]) /\
  deferred (pendingExecs T.pendingExecWorld)
    {| Container := T.c1; Process := T.exec1 |} = false /\
  (exists w',
     processExit T.exit43 T.pendingExecWorld = (Done tt, w') /\
     running w' !! 43 = None /\
     trace w' = [ Lock "lifecycleMu"; Unlock "lifecycleMu";
                  HandleProcessExit T.exit43 T.c1 T.exec1;
                  HandleProcessExit T.exit43 T.c1 T.exec1 ]).
Proof.
  split; [reflexivity|]. split.
  - destruct (processExit_unmanaged T.exit42 T.pendingExecWorld eq_refl)
      as (w' & Hrun & Ht & Hr).
    exists w'. split; [exact Hrun|]. split; [exact Hr|exact Ht].
  - split; [reflexivity|].
    destruct (processExit_unmanaged T.exit43 T.pendingExecWorld eq_refl)
      as (w' & Hrun & Ht & Hr).
    exists w'. split; [exact Hrun|]. split; [exact Hr|exact Ht].
Qed.

(* --------------------------------------------------------------------- *)
(** ** The task wrapper: Exec and the restore engine *)
(* --------------------------------------------------------------------- *)

(** [C5] When the restored process fails to start, [Restore] reads
    [<bundle>/work/restore.log], logs what it read and returns an error;
    [Exec], which called it for a scaled-down container, then ends the
    shim process with exit status 1: the request is not handed to the
    delegate and the container stays scaled down. *)
Theorem Exec_restore_failure_exits (env : Env) (r : ExecProcessRequest) (w : World)
    (zc : ZContainer) (ip : Proc) (newc : RuncContainer) (p : Proc) (err : error) :
  zeropodContainers w !! er_ID r = Some zc ->
  ScaledDown zc = true ->
  InitialProcess zc = Some ip ->
  runc_NewContainer env (createReq zc ip) = Ok newc ->
  container_Process env newc "" = Ok p ->
  process_Start env p = Some err ->
  (exists w1 evs,
     Restore env (er_ID r) zc w
       = (Done (Err (Errorf_w "start failed during restore" (restoreLogError env newc))), w1) /\
     trace w1 = (trace w ++ evs)%list /\
     ReadFile (restoreLogPath newc) ∈ evs /\
     Log Error "restore.log: %s" [ABytes (restoreLog env newc)] ∈ evs) /\
  (exists w' evs,
     Exec env r w = (Exited 1, w') /\
     trace w' = (trace w ++ evs)%list /\
     ReadFile (restoreLogPath newc) ∈ evs /\
     Log Error "restore.log: %s" [ABytes (restoreLog env newc)] ∈ evs /\
     (forall ev, ev ∈ evs -> isServiceExec ev = false) /\
     (exists zc', zeropodContainers w' !! er_ID r = Some zc' /\ ScaledDown zc' = true)).
Proof.
  intros Hzc Hsd Hip Hnew Hproc Hstart.
  unfold restoreLog, restoreLogError, restoreLogPath.
  split.
  - unfold Restore, preRestore, emit. unfold InitialProcess in Hip. run.
    rewrite Hip. run. rewrite Hnew. run.
    destruct (zc_preRestore zc); run; rewrite Hproc; run; rewrite Hstart; run;
      destruct (os_ReadFile env _) as [b|e]; run;
      do 2 eexists; (split; [reflexivity|]); cbn; rewrite <- !app_assoc;
      (split; [reflexivity|]); cbn; split; set_solver.
  - unfold Exec, getZeropodContainer, Container_CancelScaleDown, update_zc,
      Restore, preRestore, emit. unfold InitialProcess in Hip. run.
    rewrite Hzc. run. rewrite Hsd. run. rewrite Hip. run. rewrite Hnew. run.
    destruct (zc_preRestore zc); run; rewrite Hproc; run; rewrite Hstart; run;
      destruct (os_ReadFile env _) as [b|e]; run;
      do 2 eexists; (split; [reflexivity|]); cbn; rewrite <- !app_assoc;
      (split; [reflexivity|]); cbn;
      (split; [set_solver|]); (split; [set_solver|]);
      (split; [intros ev Hev;
               repeat (apply elem_of_cons in Hev as [->|Hev]; [reflexivity|]);
               inversion Hev|]);
      rewrite Hzc; eexists; (split; [apply lookup_insert_eq|exact Hsd]).
Qed.

Lemma Exec_restore_failure_exits_witness :
  process_Start (T.env appSpec) T.init1'
    = Some (errorString "criu failed: type RESTORE errno 0") /\
  exists w' evs,
    Exec (T.env appSpec) {| er_ID := "c1"; er_ExecID := "sh" |} T.scaledDownWorld
      = (Exited 1, w') /\
    trace w' = (trace T.scaledDownWorld ++ evs)%list /\
    ReadFile "/run/c1/work/restore.log" ∈ evs /\
    Log Error "restore.log: %s"
        [ABytes "Error (criu/cr-restore.c): Restoring FAILED."] ∈ evs /\
    (forall ev, ev ∈ evs -> isServiceExec ev = false).
Proof.
  split; [reflexivity|].
  destruct (Exec_restore_failure_exits (T.env appSpec)
              {| er_ID := "c1"; er_ExecID := "sh" |} T.scaledDownWorld
              (T.managed true) T.init1 T.c1' T.init1'
              (errorString "criu failed: type RESTORE errno 0")
              eq_refl eq_refl eq_refl eq_refl eq_refl eq_refl)
    as (_ & w' & evs & Hrun & Ht & Hread & Hlog & Hno & _).
  exists w', evs. split; [exact Hrun|]. split; [exact Ht|].
  split; [exact Hread|]. split; [exact Hlog|exact Hno].
Defined.

(* --------------------------------------------------------------------- *)
(** ** The task wrapper: Start *)
(* --------------------------------------------------------------------- *)

Lemma ignored_test r cfg :
  ignored r cfg <->
  String.eqb (ContainerType cfg) containerTypeSandbox
    || negb (len (sr_ExecID r) =? 0) || negb (IsZeropodContainer cfg) = true.
Proof.
  unfold ignored, containerTypeSandbox. rewrite PathFacts.len_zero.
  rewrite !orb_true_iff, negb_true_iff, negb_true_iff, String.eqb_eq, String.eqb_neq.
  tauto.
Qed.

(** A Start with an exec id on a container whose port map cannot be
    decoded: the delegate has answered, and the wrapper returns the error
    of the decoder instead of that answer. *)
Lemma Start_exec_with_broken_annotations_fails :
  sr_ExecID {| sr_ID := "c1"; sr_ExecID := "sh" |} <> "" /\
  service_Start (T.env brokenSpec) {| sr_ID := "c1"; sr_ExecID := "sh" |}
    = Ok {| Pid := 42 |} /\
  exists w',
    Start (T.env brokenSpec) noCtx {| sr_ID := "c1"; sr_ExecID := "sh" |} T.created
      = (Done (Err (errorString "invalid port map, the format needs to be name=port")), w').
Proof.
  split; [discriminate|]. split; [reflexivity|].
  eexists. vm_compute. reflexivity.
Qed.

(** [C7] Once the delegate has answered, the container is found, its spec
    is loaded and its annotations are decoded: a Start with an exec id, or
    of a sandbox, or of a container the zeropod predicate does not select,
    returns the answer of the delegate unchanged and creates no managed
    container; every other Start succeeds exactly when [zeropod.New] finds
    the init process and the countdown can be scheduled, and it then
    returns the answer of the delegate after constructing the managed
    container in state Running, registering the pre-restore and the
    post-restore callback and the shutdown hook and scheduling the
    scale-down. *)
Theorem Start_ignores_or_manages (env : Env) (ctx : Context) (r : StartRequest)
    (w : World) (resp : StartResponse) (container : RuncContainer) (spec : Spec)
    (cfg : Config) :
  service_Start env r = Ok resp ->
  containers w !! sr_ID r = Some container ->
  GetSpec env (c_Bundle container) = Ok spec ->
  NewConfig (lib env) ctx spec = Ok cfg ->
  (ignored r cfg ->
     exists w' evs,
       Start env ctx r w = (Done (Ok resp), w') /\
       zeropodContainers w' = zeropodContainers w /\
       trace w' = (trace w ++ evs)%list /\
       forall ev, ev ∈ evs -> managesContainer ev = false) /\
  (~ ignored r cfg ->
     (forall resp' w',
        Start env ctx r w = (Done (Ok resp'), w') ->
        resp' = resp /\
        (exists p, container_Process env container "" = Ok p) /\
        timer_schedule env (sr_ID r) = None) /\
     (forall p,
        container_Process env container "" = Ok p ->
        timer_schedule env (sr_ID r) = None ->
        exists w',
          Start env ctx r w = (Done (Ok resp), w') /\
          zeropodContainers w' !! sr_ID r =
            Some {| zc_Container := container; zc_cfg := cfg; zc_scaledDown := false;
                    zc_process := p; zc_initialProcess := Some p;
                    zc_preRestore := true; zc_postRestore := true;
                    zc_activatorStopped := false; zc_scaleDownScheduled := true |} /\
          trace w' = (trace w ++
            [ Log Info "start called in zeropod service %s, %s"
                  [AStr (sr_ID r); AStr (sr_ExecID r)];
              ServiceStart r;
              Lock "mut";
              Log Info "creating zeropod container: %s" [AStr (ContainerName cfg)];
              RegisterPreRestore (sr_ID r);
              RegisterPostRestore (sr_ID r);
              RegisterShutdownStop (sr_ID r);
              ScheduleScaleDown (sr_ID r);
              Unlock "mut" ])%list)).
Proof.
  intros Hsvc Hc Hspec Hcfg. split.
  - intros Hign. apply ignored_test in Hign.
    unfold Start, getContainer, emit. run.
    rewrite Hsvc. run. rewrite Hc. run. rewrite Hspec, Hcfg. run.
    rewrite Hign. run.
    do 2 eexists. split; [reflexivity|]. cbn. split; [reflexivity|].
    rewrite <- !app_assoc. split; [reflexivity|].
    intros ev Hev. cbn in Hev.
    repeat (apply elem_of_cons in Hev as [->|Hev]; [reflexivity|]). inversion Hev.
  - intros Hign. rewrite ignored_test in Hign. apply not_true_is_false in Hign.
    split.
    + intros resp' w'.
      unfold Start, getContainer, Container_ScheduleScaleDown, update_zc, New, emit. run.
      rewrite Hsvc. run. rewrite Hc. run. rewrite Hspec, Hcfg. run.
      rewrite Hign. run.
      destruct (container_Process env container "") as [p|e]; run; [|discriminate].
      destruct (timer_schedule env (sr_ID r)); run; [discriminate|].
      intros [= <- <-]. split; [reflexivity|]. split; [eauto|reflexivity].
    + intros p Hp Htimer.
      unfold Start, getContainer, Container_ScheduleScaleDown, update_zc, New, emit. run.
      rewrite Hsvc. run. rewrite Hc. run. rewrite Hspec, Hcfg. run.
      rewrite Hign. run. rewrite Hp. run. rewrite Htimer. run.
      eexists. split; [reflexivity|]. cbn. split.
      * rewrite lookup_insert_eq, lookup_insert_eq. reflexivity.
      * rewrite <- !app_assoc. reflexivity.
Qed.

Lemma Start_ignores_or_manages_witness :
  NewConfig (lib (T.env appSpec)) noCtx appSpec
    = Ok appConfig /\
  ignored {| sr_ID := "c1"; sr_ExecID := "sh" |} appConfig /\
  ~ ignored {| sr_ID := "c1"; sr_ExecID := "" |} appConfig /\
  (exists w',
     Start (T.env appSpec) noCtx {| sr_ID := "c1"; sr_ExecID := "sh" |} T.created
       = (Done (Ok {| Pid := 42 |}), w') /\
     zeropodContainers w' = zeropodContainers T.created) /\
  (exists w',
     Start (T.env appSpec) noCtx {| sr_ID := "c1"; sr_ExecID := "" |} T.created
       = (Done (Ok {| Pid := 42 |}), w') /\
     zeropodContainers w' !! "c1" =
       Some {| zc_Container := T.c1; zc_cfg := appConfig; zc_scaledDown := false;
               zc_process := T.init1; zc_initialProcess := Some T.init1;
               zc_preRestore := true; zc_postRestore := true;
               zc_activatorStopped := false; zc_scaleDownScheduled := true |}).
Proof.
  assert (Hcfg : NewConfig (lib (T.env appSpec)) noCtx appSpec = Ok appConfig)
    by (vm_compute; reflexivity).
  assert (Hign : ignored {| sr_ID := "c1"; sr_ExecID := "sh" |} appConfig)
    by (left; discriminate).
  assert (Hnot : ~ ignored {| sr_ID := "c1"; sr_ExecID := "" |} appConfig).
  { intros [H|[H|H]]; [by apply H|discriminate|vm_compute in H; discriminate]. }
  split; [exact Hcfg|]. split; [exact Hign|]. split; [exact Hnot|]. split.
  - destruct (Start_ignores_or_manages (T.env appSpec) noCtx
                {| sr_ID := "c1"; sr_ExecID := "sh" |} T.created {| Pid := 42 |}
                T.c1 appSpec appConfig eq_refl eq_refl eq_refl Hcfg) as [Hyes _].
    destruct (Hyes Hign) as (w' & evs & Hrun & Hz & _). exists w'. auto.
  - destruct (Start_ignores_or_manages (T.env appSpec) noCtx
                {| sr_ID := "c1"; sr_ExecID := "" |} T.created {| Pid := 42 |}
                T.c1 appSpec appConfig eq_refl eq_refl eq_refl Hcfg) as [_ Hno].
    destruct (Hno Hnot) as [_ Hman].
    destruct (Hman T.init1 eq_refl eq_refl) as (w' & Hrun & Hz & _).
    exists w'. auto.
Defined.

(** [C8] A non-empty port map with a mapping that does not split on [=]
    into exactly a name and its ports, or with a mapping for this
    container one of whose ports is not a 16-bit unsigned decimal, makes
    [NewConfig] return an error, and the Start that decoded it returns
    that error and creates no managed container.  (The ports of mappings
    for other containers are not parsed.) *)
Theorem Start_fails_on_bad_port_map (env : Env) (ctx : Context) (spec : Spec)
    (a : annotationConfig) (mapping : string) :
  Decode (lib env) (Annotations spec) = Ok a ->
  a_PortMap a <> "" ->
  mapping ∈ Split (a_PortMap a) mappingDelim ->
  badMapping (a_ContainerName a) mapping ->
  exists e,
    NewConfig (lib env) ctx spec = Err e /\
    forall (r : StartRequest) (w : World) (resp : StartResponse)
           (container : RuncContainer),
      service_Start env r = Ok resp ->
      containers w !! sr_ID r = Some container ->
      GetSpec env (c_Bundle container) = Ok spec ->
      exists w',
        Start env ctx r w = (Done (Err e), w') /\
        zeropodContainers w' = zeropodContainers w.
Proof.
  intros Hdec Hne Hin Hbad.
  destruct (ConfigFacts.NewConfig_bad_port_map (lib env) ctx spec a mapping
              Hdec Hne Hin Hbad) as [e He].
  exists e. split; [exact He|].
  intros r w resp container Hsvc Hc Hspec.
  unfold Start, getContainer, emit. run.
  rewrite Hsvc. run. rewrite Hc. run. rewrite Hspec, He. run.
  eexists. split; reflexivity.
Qed.

Lemma Start_fails_on_bad_port_map_witness :
  (exists a,
     Decode library (Annotations ownPortSpec) = Ok a /\
     a_PortMap a = "sidecar=9090;app=80,65536" /\
     "app=80,65536" ∈ Split (a_PortMap a) mappingDelim /\
     badMapping (a_ContainerName a) "app=80,65536") /\
  exists e w',
    NewConfig library noCtx ownPortSpec = Err e /\
    Start (T.env ownPortSpec) noCtx {| sr_ID := "c1"; sr_ExecID := "" |} T.created
      = (Done (Err e), w') /\
    zeropodContainers w' = zeropodContainers T.created.
Proof.
  destruct (ConfigFacts.decodeTagged_fields (Annotations ownPortSpec))
    as (a & Hdec & Hpm & Hname & _).
  assert (Hpm' : a_PortMap a = "sidecar=9090;app=80,65536") by (rewrite Hpm; reflexivity).
  assert (Hname' : a_ContainerName a = "app") by (rewrite Hname; reflexivity).
  assert (Hne : a_PortMap a <> "") by (rewrite Hpm'; discriminate).
  assert (Hin : "app=80,65536" ∈ Split (a_PortMap a) mappingDelim)
    by (rewrite Hpm'; vm_compute; right; by left).
  assert (Hbad : badMapping (a_ContainerName a) "app=80,65536").
  { right. exists "app", "80,65536", "65536". split; [reflexivity|].
    split; [by rewrite Hname'|]. split; [vm_compute; right; by left|reflexivity]. }
  split; [exists a; auto|].
  destruct (Start_fails_on_bad_port_map (T.env ownPortSpec) noCtx ownPortSpec a
              "app=80,65536" Hdec Hne Hin Hbad) as (e & He & Hstart).
  destruct (Hstart {| sr_ID := "c1"; sr_ExecID := "" |} T.created {| Pid := 42 |} T.c1
              eq_refl eq_refl eq_refl) as (w' & Hrun & Hz).
  exists e, w'. split; [exact He|]. split; [exact Hrun|exact Hz].
Defined.

End TaskFacts.

(* --------------------------------------------------------------------- *)
(** ** More on the annotation decoder *)
(* --------------------------------------------------------------------- *)
Module ConfigMore.
Import GoLib Zeropod Statements MoreStatements Examples MoreExamples.

Lemma ParseUint_loop_range s0 maxVal s : forall n v,
  0 <= n <= maxVal -> ParseUint_loop s0 maxVal n s = Ok v -> 0 <= v <= maxVal.
Proof.
  induction s as [|c s IH]; intros n v Hn H.
  - cbn in H. injection H as <-. exact Hn.
  - cbn [ParseUint_loop] in H. destruct (digit c) as [d|]; [|discriminate].
    destruct (cutoff10 <=? n); [discriminate|].
    cbv zeta in H.
    destruct (((n * 10 + d) mod 2 ^ 64 <? n * 10) || (maxVal <? (n * 10 + d) mod 2 ^ 64))
      eqn:Hov; [discriminate|].
    apply orb_false_iff in Hov as [_ Hmax]. apply Z.ltb_ge in Hmax.
    apply (IH _ _ (conj (proj1 (Z.mod_pos_bound (n * 10 + d) (2 ^ 64) ltac:(lia))) Hmax) H).
Qed.

Lemma ParseUint10_range s v : ParseUint10 s 16 = Ok v -> 0 <= v <= 65535.
Proof.
  unfold ParseUint10. destruct s as [|c s]; [discriminate|].
  apply ParseUint_loop_range. change (2 ^ 16 - 1) with 65535. lia.
Qed.

Lemma parsePorts_ok ports : forall acc ps,
  parsePorts ports acc = Ok ps ->
  ps = (acc ++ map portValue ports)%list /\
  (Forall (fun p => 0 <= p <= 65535) acc -> Forall (fun p => 0 <= p <= 65535) ps).
Proof.
  induction ports as [|q rest IH]; intros acc ps H.
  - cbn in H. injection H as <-. rewrite app_nil_r. auto.
  - cbn [parsePorts] in H. destruct (ParseUint10 q 16) as [v|e] eqn:Hq; [|discriminate].
    destruct (IH _ _ H) as [-> Hr]. pose proof (ParseUint10_range _ _ Hq) as Hv.
    assert (Hu : uint16 v = v) by (unfold uint16; apply Z.mod_small; lia).
    split.
    + cbn [map]. unfold portValue at 2. rewrite Hq, <- app_assoc, Hu. reflexivity.
    + intros Hacc. apply Hr. apply Forall_app. split; [exact Hacc|].
      constructor; [rewrite Hu; exact Hv|constructor].
Qed.

Lemma parseMappings_ok cname mappings : forall acc ps,
  parseMappings cname mappings acc = Ok ps ->
  ps = (acc ++ flat_map (mappingPorts cname) mappings)%list /\
  (Forall (fun p => 0 <= p <= 65535) acc -> Forall (fun p => 0 <= p <= 65535) ps).
Proof.
  induction mappings as [|m rest IH]; intros acc ps H.
  - cbn in H. injection H as <-. rewrite app_nil_r. auto.
  - rewrite ConfigFacts.parseMappings_cons in H. cbn [flat_map]. unfold mappingPorts at 1.
    destruct (Split m mapDelim) as [|a [|b [|c l]]]; try discriminate.
    destruct (a =? cname)%string; cbn [negb] in H.
    + destruct (parsePorts (Split b portsDelim) acc) as [acc'|] eqn:Hp; [|discriminate].
      destruct (parsePorts_ok _ _ _ Hp) as [-> Hr1].
      destruct (IH _ _ H) as [-> Hr2].
      split; [rewrite <- app_assoc; reflexivity|]. intros Hacc. apply Hr2, Hr1, Hacc.
    + destruct (IH _ _ H) as [-> Hr2]. split; [reflexivity|exact Hr2].
Qed.

Lemma Split_from_not_nil sep s : forall skip, Split_from sep skip s <> [].
Proof.
  induction s as [|c s IH]; intros skip; [discriminate|].
  cbn [Split_from]. destruct skip; [|apply IH].
  destruct (HasPrefix (String c s) sep); [discriminate|].
  destruct (Split_from sep 0 s); discriminate.
Qed.

Lemma existsb_eqb_elem_of (x : string) l :
  existsb (fun n => String.eqb n x) l = true <-> x ∈ l.
Proof.
  induction l as [|y l IH]; cbn.
  - split; [discriminate|intros H; inversion H].
  - rewrite orb_true_iff, IH, String.eqb_eq, elem_of_cons. split; intros [H|H]; auto.
Qed.

(** What [NewConfig] returns, field by field, when it succeeds. *)
Lemma NewConfig_ok lib ctx spec cfg :
  NewConfig lib ctx spec = Ok cfg ->
  exists a ports dur dc pd,
    Decode lib (Annotations spec) = Ok a /\
    (if negb (len (a_PortMap a) =? 0)
     then parseMappings (a_ContainerName a) (Split (a_PortMap a) mappingDelim) []
     else Ok []) = Ok ports /\
    (if negb (len (a_ScaledownDuration a) =? 0)
     then ParseDuration lib (a_ScaledownDuration a) else Ok defaultScaleDownDuration) = Ok dur /\
    (if negb (len (a_DisableCheckpointing a) =? 0)
     then ParseBool (a_DisableCheckpointing a) else Ok false) = Ok dc /\
    (if negb (len (a_PreDump a) =? 0) then ParseBool (a_PreDump a) else Ok false) = Ok pd /\
    Ports cfg = ports /\ ScaleDownDuration cfg = dur /\ DisableCheckpointing cfg = dc /\
    PreDump cfg = (if pd && String.eqb (GOARCH lib) "arm64" then false else pd) /\
    ZeropodContainerNames cfg =
      (if negb (len (a_ZeropodContainerNames a) =? 0)
       then Split (a_ZeropodContainerNames a) containersDelim else []) /\
    ContainerName cfg = a_ContainerName a /\
    ContainerType cfg = a_ContainerType a /\
    ContainerdNamespace cfg = default defaultContainerdNS (ctx_namespace ctx).
Proof.
  unfold NewConfig.
  destruct (Decode lib (Annotations spec)) as [a|]; [|discriminate].
  destruct (if negb (len (a_PortMap a) =? 0) then _ else _) as [ports|] eqn:Hports;
    [|discriminate].
  destruct (if negb (len (a_ScaledownDuration a) =? 0) then _ else _) as [dur|] eqn:Hdur;
    [|discriminate].
  destruct (if negb (len (a_DisableCheckpointing a) =? 0) then _ else _) as [dc|] eqn:Hdc;
    [|discriminate].
  destruct (if negb (len (a_PreDump a) =? 0) then _ else _) as [pd'|] eqn:Hpd;
    [|discriminate].
  intros [= <-]. cbn.
  assert (Hpd2 : exists pd,
            (if negb (len (a_PreDump a) =? 0) then ParseBool (a_PreDump a) else Ok false)
              = Ok pd /\
            pd' = (if pd && String.eqb (GOARCH lib) "arm64" then false else pd)).
  { destruct (negb (len (a_PreDump a) =? 0)).
    - destruct (ParseBool (a_PreDump a)) as [pd|]; [|discriminate].
      exists pd. split; [reflexivity|].
      destruct (pd && (GOARCH lib =? "arm64")%string); congruence.
    - injection Hpd as <-. exists false. auto. }
  destruct Hpd2 as (pd & Hb & ->).
  exists a, ports, dur, dc, pd.
  repeat (split; [first [reflexivity|assumption]|]).
  destruct (ctx_namespace ctx); reflexivity.
Qed.

(** [X1] Annotations that set none of the zeropod options decode to the
    defaults: no ports, a scale-down duration of one minute, checkpointing
    enabled, no pre-dump, and every container of the pod selected; the
    containerd namespace is the one of the context, or [k8s.io]. *)
Theorem NewConfig_defaults (lib : Library) (ctx : Context) (spec : Spec)
    (a : annotationConfig) :
  Decode lib (Annotations spec) = Ok a ->
  a_PortMap a = "" -> a_ScaledownDuration a = "" ->
  a_DisableCheckpointing a = "" -> a_PreDump a = "" ->
  a_ZeropodContainerNames a = "" ->
  exists cfg,
    NewConfig lib ctx spec = Ok cfg /\
    Ports cfg = [] /\
    ScaleDownDuration cfg = 60 * 1000000000 /\
    DisableCheckpointing cfg = false /\
    PreDump cfg = false /\
    IsZeropodContainer cfg = true /\
    ContainerdNamespace cfg = default "k8s.io" (ctx_namespace ctx).
Proof.
  intros Hdec H1 H2 H3 H4 H5. unfold NewConfig. rewrite Hdec, H1, H2, H3, H4, H5.
  cbn. eexists. split; [reflexivity|]. cbn.
  repeat (split; [reflexivity|]). destruct (ctx_namespace ctx); reflexivity.
Qed.

Lemma NewConfig_defaults_witness :
  (exists a, Decode library ∅ = Ok a /\ a_PortMap a = "" /\ a_ScaledownDuration a = "") /\
  exists cfg,
    NewConfig library {| ctx_namespace := Some "moby" |} {| Annotations := ∅ |} = Ok cfg /\
    Ports cfg = [] /\ ScaleDownDuration cfg = 60000000000 /\
    IsZeropodContainer cfg = true /\ ContainerdNamespace cfg = "moby".
Proof.
  assert (Hdec : Decode library (Annotations {| Annotations := ∅ |})
                 = Ok {| a_PortMap := ""; a_ZeropodContainerNames := "";
                         a_ScaledownDuration := ""; a_DisableCheckpointing := "";
                         a_PreDump := ""; a_ContainerName := ""; a_ContainerType := "";
                         a_PodName := ""; a_PodNamespace := ""; a_PodUID := "";
                         a_VClusterPodName := ""; a_VClusterPodNamespace := "" |})
    by (vm_compute; reflexivity).
  split; [eexists; split; [exact Hdec|split; reflexivity]|].
  destruct (NewConfig_defaults library {| ctx_namespace := Some "moby" |}
              {| Annotations := ∅ |} _ Hdec eq_refl eq_refl eq_refl eq_refl eq_refl)
    as (cfg & Hrun & Hp & Hd & _ & _ & Hz & Hns).
  exists cfg. auto.
Defined.

(** [X2] [NewConfig] fails exactly when the annotations do not decode, or
    the non-empty port map has a mapping it rejects, or the scale-down
    duration, the disable-checkpointing flag or the pre-dump flag is set
    and does not parse; an option that is not set never makes it fail. *)
Theorem NewConfig_fails_iff (lib : Library) (ctx : Context) (spec : Spec) :
  is_err (NewConfig lib ctx spec) = true <->
  is_err (Decode lib (Annotations spec)) = true \/
  exists a,
    Decode lib (Annotations spec) = Ok a /\
    ((exists mapping, mapping ∈ mappingsOf a /\ badMapping (a_ContainerName a) mapping) \/
     unparseable (ParseDuration lib) (a_ScaledownDuration a) \/
     unparseable ParseBool (a_DisableCheckpointing a) \/
     unparseable ParseBool (a_PreDump a)).
Proof.
  unfold NewConfig, mappingsOf, unparseable.
  destruct (Decode lib (Annotations spec)) as [a|e]; [|cbn; tauto].
  rewrite !PathFacts.len_zero.
  assert (Hne : forall s : string, (s =? "")%string = false <-> s <> "")
    by (intros s; apply String.eqb_neq).
  split.
  - intros H. right. exists a. split; [reflexivity|].
    destruct (a_PortMap a =? "")%string eqn:Hpm; cbn [negb] in H.
    + destruct (a_ScaledownDuration a =? "")%string eqn:Hsd; cbn [negb] in H.
      * destruct (a_DisableCheckpointing a =? "")%string eqn:Hdc; cbn [negb] in H.
        -- destruct (a_PreDump a =? "")%string eqn:Hpd; cbn [negb] in H; [discriminate|].
           right; right; right. split; [by apply Hne|].
           destruct (ParseBool (a_PreDump a)) as [b|]; [|reflexivity].
           destruct (b && (GOARCH lib =? "arm64")%string); discriminate.
        -- destruct (ParseBool (a_DisableCheckpointing a)) as [dc|] eqn:Hb.
           ++ destruct (a_PreDump a =? "")%string eqn:Hpd; cbn [negb] in H; [discriminate|].
              right; right; right. split; [by apply Hne|].
              destruct (ParseBool (a_PreDump a)) as [b|]; [|reflexivity].
              destruct (b && (GOARCH lib =? "arm64")%string); discriminate.
           ++ right; right; left. split; [by apply Hne|reflexivity].
      * destruct (ParseDuration lib (a_ScaledownDuration a)) as [dur|] eqn:Hd.
        -- destruct (a_DisableCheckpointing a =? "")%string eqn:Hdc; cbn [negb] in H.
           ++ destruct (a_PreDump a =? "")%string eqn:Hpd; cbn [negb] in H; [discriminate|].
              right; right; right. split; [by apply Hne|].
              destruct (ParseBool (a_PreDump a)) as [b|]; [|reflexivity].
              destruct (b && (GOARCH lib =? "arm64")%string); discriminate.
           ++ destruct (ParseBool (a_DisableCheckpointing a)) as [dc|] eqn:Hb.
              ** destruct (a_PreDump a =? "")%string eqn:Hpd; cbn [negb] in H; [discriminate|].
                 right; right; right. split; [by apply Hne|].
                 destruct (ParseBool (a_PreDump a)) as [b|]; [|reflexivity].
                 destruct (b && (GOARCH lib =? "arm64")%string); discriminate.
              ** right; right; left. split; [by apply Hne|reflexivity].
        -- right; left. split; [by apply Hne|reflexivity].
    + destruct (parseMappings (a_ContainerName a) (Split (a_PortMap a) mappingDelim) [])
        as [ports|] eqn:Hp.
      * destruct (a_ScaledownDuration a =? "")%string eqn:Hsd; cbn [negb] in H.
        -- destruct (a_DisableCheckpointing a =? "")%string eqn:Hdc; cbn [negb] in H.
           ++ destruct (a_PreDump a =? "")%string eqn:Hpd; cbn [negb] in H; [discriminate|].
              right; right; right. split; [by apply Hne|].
              destruct (ParseBool (a_PreDump a)) as [b|]; [|reflexivity].
              destruct (b && (GOARCH lib =? "arm64")%string); discriminate.
           ++ destruct (ParseBool (a_DisableCheckpointing a)) as [dc|] eqn:Hb.
              ** destruct (a_PreDump a =? "")%string eqn:Hpd; cbn [negb] in H; [discriminate|].
                 right; right; right. split; [by apply Hne|].
                 destruct (ParseBool (a_PreDump a)) as [b|]; [|reflexivity].
                 destruct (b && (GOARCH lib =? "arm64")%string); discriminate.
              ** right; right; left. split; [by apply Hne|reflexivity].
        -- destruct (ParseDuration lib (a_ScaledownDuration a)) as [dur|] eqn:Hd.
           ++ destruct (a_DisableCheckpointing a =? "")%string eqn:Hdc; cbn [negb] in H.
              ** destruct (a_PreDump a =? "")%string eqn:Hpd; cbn [negb] in H; [discriminate|].
                 right; right; right. split; [by apply Hne|].
                 destruct (ParseBool (a_PreDump a)) as [b|]; [|reflexivity].
                 destruct (b && (GOARCH lib =? "arm64")%string); discriminate.
              ** destruct (ParseBool (a_DisableCheckpointing a)) as [dc|] eqn:Hb.
                 --- destruct (a_PreDump a =? "")%string eqn:Hpd; cbn [negb] in H;
                       [discriminate|].
                     right; right; right. split; [by apply Hne|].
                     destruct (ParseBool (a_PreDump a)) as [b|]; [|reflexivity].
                     destruct (b && (GOARCH lib =? "arm64")%string); discriminate.
                 --- right; right; left. split; [by apply Hne|reflexivity].
           ++ right; left. split; [by apply Hne|reflexivity].
      * left.
        destruct (ConfigFacts.parseMappings_err_inv (a_ContainerName a)
                    (Split (a_PortMap a) mappingDelim) []) as (m & Hm & Hbad);
          [rewrite Hp; reflexivity|].
        exists m. split; [exact Hm|exact Hbad].
  - intros [H|(a' & [= <-] & H)]; [discriminate|].
    destruct H as [(m & Hm & Hbad)|[[Hs He]|[[Hs He]|[Hs He]]]].
    + destruct (a_PortMap a =? "")%string; [inversion Hm|]. cbn [negb].
      pose proof (ConfigFacts.parseMappings_err _ _ [] _ Hm Hbad) as Hp.
      destruct (parseMappings _ _ _); [discriminate|reflexivity].
    + destruct (if negb (a_PortMap a =? "")%string then _ else _); [|reflexivity].
      apply Hne in Hs. rewrite Hs. cbn [negb].
      destruct (ParseDuration lib (a_ScaledownDuration a)); [discriminate|reflexivity].
    + destruct (if negb (a_PortMap a =? "")%string then _ else _); [|reflexivity].
      destruct (if negb (a_ScaledownDuration a =? "")%string then _ else _); [|reflexivity].
      apply Hne in Hs. rewrite Hs. cbn [negb].
      destruct (ParseBool (a_DisableCheckpointing a)); [discriminate|reflexivity].
    + destruct (if negb (a_PortMap a =? "")%string then _ else _); [|reflexivity].
      destruct (if negb (a_ScaledownDuration a =? "")%string then _ else _); [|reflexivity].
      destruct (if negb (a_DisableCheckpointing a =? "")%string then _ else _); [|reflexivity].
      apply Hne in Hs. rewrite Hs. cbn [negb].
      destruct (ParseBool (a_PreDump a)); [discriminate|reflexivity].
Qed.

(** [X3] The ports of a decoded configuration are the ports listed for
    this container's name, over all its mappings and in the order of the
    port map; the mappings of other containers contribute nothing, and
    every port is a number from 0 to 65535. *)
Theorem NewConfig_ports (lib : Library) (ctx : Context) (spec : Spec) (cfg : Config) :
  NewConfig lib ctx spec = Ok cfg ->
  exists a,
    Decode lib (Annotations spec) = Ok a /\
    Ports cfg = flat_map (mappingPorts (a_ContainerName a)) (mappingsOf a) /\
    Forall (fun p => 0 <= p <= 65535) (Ports cfg).
Proof.
  intros H. destruct (NewConfig_ok _ _ _ _ H)
    as (a & ports & dur & dc & pd & Hdec & Hports & _ & _ & _ & -> & _).
  exists a. split; [exact Hdec|]. unfold mappingsOf.
  rewrite PathFacts.len_zero in Hports.
  destruct (a_PortMap a =? "")%string; cbn [negb] in Hports.
  - injection Hports as <-. split; [reflexivity|constructor].
  - destruct (parseMappings_ok _ _ _ _ Hports) as [-> Hr]. split; [reflexivity|].
    apply Hr. constructor.
Qed.

Lemma NewConfig_ports_witness :
  NewConfig library noCtx appSpec = Ok appConfig /\
  exists a,
    Decode library (Annotations appSpec) = Ok a /\
    a_PortMap a = "app=8080,8081;sidecar=9090" /\
    Ports appConfig = flat_map (mappingPorts (a_ContainerName a)) (mappingsOf a) /\
    Ports appConfig = [8080; 8081].
Proof.
  assert (Hcfg : NewConfig library noCtx appSpec = Ok appConfig)
    by (vm_compute; reflexivity).
  split; [exact Hcfg|].
  destruct (NewConfig_ports library noCtx appSpec appConfig Hcfg) as (a & Hdec & Hp & _).
  exists a. split; [exact Hdec|].
  assert (Ha : a_PortMap a = "app=8080,8081;sidecar=9090").
  { vm_compute in Hdec. injection Hdec as <-. reflexivity. }
  split; [exact Ha|]. split; [exact Hp|reflexivity].
Defined.

(** [X4] In a decoded configuration pre-dump is on exactly when its
    annotation parses as true and the host is not arm64, and checkpointing
    is disabled exactly when its annotation parses as true. *)
Theorem NewConfig_flags (lib : Library) (ctx : Context) (spec : Spec) (cfg : Config) :
  NewConfig lib ctx spec = Ok cfg ->
  exists a,
    Decode lib (Annotations spec) = Ok a /\
    (PreDump cfg = true <->
       ParseBool (a_PreDump a) = Ok true /\ GOARCH lib <> "arm64") /\
    (DisableCheckpointing cfg = true <->
       ParseBool (a_DisableCheckpointing a) = Ok true).
Proof.
  intros H. destruct (NewConfig_ok _ _ _ _ H)
    as (a & ports & dur & dc & pd & Hdec & _ & _ & Hdc & Hpd & _ & _ & -> & -> & _).
  exists a. split; [exact Hdec|].
  rewrite PathFacts.len_zero in Hdc, Hpd.
  assert (Hempty : ParseBool "" <> Ok true) by discriminate.
  split.
  - destruct (a_PreDump a =? "")%string eqn:He; cbn [negb] in Hpd.
    + apply String.eqb_eq in He. rewrite He. injection Hpd as <-. cbn.
      split; [discriminate|intros [? _]; contradiction].
    + rewrite Hpd. destruct pd; cbn [andb].
      * destruct (GOARCH lib =? "arm64")%string eqn:Harch.
        -- apply String.eqb_eq in Harch. split; [discriminate|intros [_ Hn]; contradiction].
        -- apply String.eqb_neq in Harch. split; auto.
      * split; [discriminate|intros [? _]; discriminate].
  - destruct (a_DisableCheckpointing a =? "")%string eqn:He; cbn [negb] in Hdc.
    + apply String.eqb_eq in He. rewrite He. injection Hdc as <-.
      split; [discriminate|intros ?; contradiction].
    + rewrite Hdc. split; [intros ->; reflexivity|intros [= ->]; reflexivity].
Qed.

Lemma NewConfig_flags_witness :
  NewConfig armLibrary noCtx flagsSpec = Ok flagsConfig /\
  ParseBool "true" = Ok true /\ GOARCH armLibrary = "arm64" /\
  PreDump flagsConfig = false /\ DisableCheckpointing flagsConfig = true.
Proof.
  assert (Hcfg : NewConfig armLibrary noCtx flagsSpec = Ok flagsConfig)
    by (vm_compute; reflexivity).
  split; [exact Hcfg|]. split; [reflexivity|]. split; [reflexivity|].
  destruct (NewConfig_flags armLibrary noCtx flagsSpec flagsConfig Hcfg)
    as (a & Hdec & Hpd & Hdc).
  vm_compute in Hdec. injection Hdec as <-. split.
  - apply not_true_is_false. intros H. apply Hpd in H as [_ Hn]. apply Hn. reflexivity.
  - apply Hdc. reflexivity.
Defined.

(** [X5] A decoded configuration selects its container exactly when the
    container-names annotation is empty or lists the container's name
    between its commas. *)
Theorem NewConfig_selects (lib : Library) (ctx : Context) (spec : Spec) (cfg : Config) :
  NewConfig lib ctx spec = Ok cfg ->
  exists a,
    Decode lib (Annotations spec) = Ok a /\
    (IsZeropodContainer cfg = true <->
       a_ZeropodContainerNames a = "" \/
       a_ContainerName a ∈ Split (a_ZeropodContainerNames a) containersDelim).
Proof.
  intros H. destruct (NewConfig_ok _ _ _ _ H)
    as (a & ports & dur & dc & pd & Hdec & _ & _ & _ & _ & _ & _ & _ & _ & Hn & Hc & _).
  exists a. split; [exact Hdec|].
  unfold IsZeropodContainer. rewrite Hn, Hc, PathFacts.len_zero.
  destruct (a_ZeropodContainerNames a =? "")%string eqn:He; cbn [negb].
  - apply String.eqb_eq in He. cbn. tauto.
  - apply String.eqb_neq in He.
    rewrite orb_true_iff, existsb_eqb_elem_of.
    assert (Hlen : (Z.of_nat (length (Split (a_ZeropodContainerNames a) containersDelim)) =? 0)
                   = false).
    { apply Z.eqb_neq. unfold Split, containersDelim.
      pose proof (Split_from_not_nil "," (a_ZeropodContainerNames a) 0) as Hnil.
      destruct (Split_from "," 0 (a_ZeropodContainerNames a)); [contradiction|].
      cbn [length]. lia. }
    rewrite Hlen. split; [intros [?|?]; [auto|discriminate]|intros [?|?]; [contradiction|auto]].
Qed.

Lemma NewConfig_selects_witness :
  NewConfig library noCtx namesSpec = Ok namesConfig /\
  IsZeropodContainer namesConfig = false /\
  IsZeropodContainer appConfig = true.
Proof.
  assert (Hcfg : NewConfig library noCtx namesSpec = Ok namesConfig)
    by (vm_compute; reflexivity).
  assert (Happ : NewConfig library noCtx appSpec = Ok appConfig)
    by (vm_compute; reflexivity).
  split; [exact Hcfg|].
  destruct (NewConfig_selects library noCtx namesSpec namesConfig Hcfg) as (a & Hdec & Hsel).
  destruct (NewConfig_selects library noCtx appSpec appConfig Happ) as (a' & Hdec' & Hsel').
  vm_compute in Hdec. injection Hdec as <-.
  vm_compute in Hdec'. injection Hdec' as <-. split.
  - apply not_true_is_false. intros Htrue. apply Hsel in Htrue as [Hn|Hin].
    + discriminate.
    + vm_compute in Hin. in_events Hin.
  - apply Hsel'. left. reflexivity.
Defined.

End ConfigMore.

(* --------------------------------------------------------------------- *)
(** ** More on the task wrapper: Kill and Delete *)
(* --------------------------------------------------------------------- *)
Module TaskMore.
Import GoLib Run Zeropod Task Statements MoreStatements TaskStatements Examples MoreExamples.

#[local] Arguments NewConfig : simpl never.
#[local] Arguments IsZeropodContainer : simpl never.
#[local] Arguments len : simpl never.
#[local] Arguments path_Join : simpl never.



(** [X7] A Kill with an empty exec id on a managed container that is
    running stops the activator and signals the current process.  When
    the signal is delivered the initial process is marked exited with
    status 0 and the request goes to the delegate, whose answer is
    returned; when it is not, the error is returned in gRPC form, the
    delegate is not called and no process is marked, although the
    activator has been stopped. *)
Theorem Kill_running (env : Env) (r : KillRequest) (w : World)
    (zc : ZContainer) (ip : Proc) :
  kr_ExecID r = "" ->
  zeropodContainers w !! kr_ID r = Some zc ->
  ScaledDown zc = false ->
  InitialProcess zc = Some ip ->
  exists w',
    zeropodContainers w' !! kr_ID r
      = Some {| zc_Container := zc_Container zc; zc_cfg := zc_cfg zc;
                zc_scaledDown := false; zc_process := zc_process zc;
                zc_initialProcess := Some ip; zc_preRestore := zc_preRestore zc;
                zc_postRestore := zc_postRestore zc; zc_activatorStopped := true;
                zc_scaleDownScheduled := zc_scaleDownScheduled zc |} /\
    match process_Kill env (Process_ zc) (kr_Signal r) (kr_All r) with
    | None =>
      Kill env r w = (Done (service_Kill env r), w') /\
      trace w' = (trace w ++
        [ Lock "checkpointRestore";
          Log Info "requested container %s to be killed" [AStr (kr_ID r)];
          Stop (kr_ID r);
          ProcessKill (Process_ zc) (kr_Signal r) (kr_All r);
          SetExited ip 0;
          ServiceKill r;
          Unlock "checkpointRestore" ])%list /\
      is_Some (exited w' !! p_addr ip)
    | Some err =>
      Kill env r w = (Done (Err (ToGRPC err)), w') /\
      trace w' = (trace w ++
        [ Lock "checkpointRestore";
          Log Info "requested container %s to be killed" [AStr (kr_ID r)];
          Stop (kr_ID r);
          ProcessKill (Process_ zc) (kr_Signal r) (kr_All r);
          Unlock "checkpointRestore" ])%list /\
      exited w' = exited w
    end.
Proof.
  intros Hexec Hzc Hsd Hip. unfold ScaledDown in Hsd. unfold InitialProcess in Hip.
  unfold Kill, getZeropodContainer, InitialProcess_SetExited, Proc_SetExited,
    Container_Stop, update_zc, emit. run.
  rewrite Hzc, Hexec. unfold ScaledDown, InitialProcess. rewrite Hsd, Hip. run.
  destruct (process_Kill env (Process_ zc) (kr_Signal r) (kr_All r)) as [err|]; run.
  - eexists. split; [|split; [reflexivity|split]].
    + cbn. rewrite Hzc, lookup_insert_eq, Hsd, Hip. reflexivity.
    + cbn. rewrite <- !app_assoc. reflexivity.
    + reflexivity.
  - eexists. split; [|split; [reflexivity|split]].
    + cbn. rewrite Hzc, lookup_insert_eq, Hsd, Hip. reflexivity.
    + cbn. rewrite <- !app_assoc. reflexivity.
    + cbn. destruct (exited w !! p_addr ip) eqn:He; [rewrite He; eauto|].
      rewrite lookup_insert_eq. eauto.
Qed.

Lemma Kill_running_witness :
  zeropodContainers T2.runningWorld !! "c1" = Some (T.managed false) /\
  (exists w',
     Kill T2.ok T2.killInit T2.runningWorld = (Done (Ok tt), w') /\
     exited w' !! 10%nat = Some 0) /\
  (exists w',
     Kill (T2.env false true false false) T2.killInit T2.runningWorld
       = (Done (Err (ToGRPC (errorString "process already finished"))), w') /\
     exited w' = ∅ /\
     ServiceKill T2.killInit ∉ trace w').
Proof.
  split; [reflexivity|]. split.
  - destruct (Kill_running T2.ok T2.killInit T2.runningWorld (T.managed false) T.init1
                eq_refl eq_refl eq_refl eq_refl) as (w' & _ & Hrun & Ht & _).
    exists w'. split; [exact Hrun|].
    pose proof (f_equal fst Hrun) as Ho. clear Ht.
    assert (Hw : w' = snd (Kill T2.ok T2.killInit T2.runningWorld)) by (rewrite Hrun; reflexivity).
    rewrite Hw. vm_compute. reflexivity.
  - destruct (Kill_running (T2.env false true false false) T2.killInit T2.runningWorld
                (T.managed false) T.init1 eq_refl eq_refl eq_refl eq_refl)
      as (w' & _ & Hrun & Ht & Hex).
    exists w'. split; [exact Hrun|]. split; [exact Hex|].
    rewrite Ht. intros H. cbn in H. in_events H.
Defined.

(** [X8] A Kill for a container that is not managed, or with an exec id,
    only hands the request to the delegate under the mutex and returns its
    answer: the activator is not stopped, no process is signalled or
    marked, and the state of the wrapper is as before. *)
Theorem Kill_passes_through (env : Env) (r : KillRequest) (w : World) :
  zeropodContainers w !! kr_ID r = None \/ kr_ExecID r <> "" ->
  Kill env r w
  = (Done (service_Kill env r),
     with_trace (fun t => (t ++ [ Lock "checkpointRestore"; ServiceKill r;
                                  Unlock "checkpointRestore" ])%list) w).
Proof.
  intros H.
  unfold Kill, getZeropodContainer, emit. run.
  destruct (zeropodContainers w !! kr_ID r) as [zc|] eqn:Hzc.
  - destruct H as [H|H]; [discriminate|].
    apply String.eqb_neq in H. rewrite PathFacts.len_zero, H. run.
    unfold with_trace. cbn. rewrite <- !app_assoc. reflexivity.
  - run. unfold with_trace. cbn. rewrite <- !app_assoc. reflexivity.
Qed.

Lemma Kill_passes_through_witness :
  kr_ExecID T2.killExec <> "" /\
  zeropodContainers T.created !! "c1" = None /\
  Kill T2.ok T2.killExec T2.runningWorld
  = (Done (Ok tt),
     with_trace (fun t => (t ++ [ Lock "checkpointRestore"; ServiceKill T2.killExec;
                                  Unlock "checkpointRestore" ])%list) T2.runningWorld) /\
  fst (Kill T2.ok T2.killInit T.created) = Done (Ok tt).
Proof.
  split; [discriminate|]. split; [reflexivity|]. split.
  - apply (Kill_passes_through T2.ok T2.killExec T2.runningWorld). right. discriminate.
  - rewrite (Kill_passes_through T2.ok T2.killInit T.created); [reflexivity|].
    left. reflexivity.
Defined.

(** [X9] [Delete] re-arms the countdown only for an exec of a managed
    container, and before it calls the delegate: when the timer refuses,
    the error is returned and the delegate is not called.  A Delete of the
    init process, or for a container that is not managed, only calls the
    delegate and leaves the wrapper as it is. *)
Theorem Delete_rearms_for_exec (env : Env) (r : DeleteRequest) (w : World) :
  (zeropodContainers w !! dr_ID r = None \/ dr_ExecID r = "" ->
     Delete env r w
     = (Done (service_Delete env r), with_trace (fun t => (t ++ [ServiceDelete r])%list) w)) /\
  (forall zc,
     zeropodContainers w !! dr_ID r = Some zc -> dr_ExecID r <> "" ->
     exists w',
       trace w' = (trace w ++
         ScheduleScaleDown (dr_ID r)
         :: match timer_schedule env (dr_ID r) with
            | None => [ServiceDelete r]
            | Some _ => []
            end)%list /\
       match timer_schedule env (dr_ID r) with
       | None =>
         Delete env r w = (Done (service_Delete env r), w') /\
         zeropodContainers w' !! dr_ID r = Some (set_scheduled true zc)
       | Some err =>
         Delete env r w = (Done (Err err), w') /\
         zeropodContainers w' = zeropodContainers w
       end).
Proof.
  split.
  - intros H. unfold Delete, getZeropodContainer, emit. run.
    destruct (zeropodContainers w !! dr_ID r) as [zc|] eqn:Hzc; run; [|reflexivity].
    destruct H as [H|H]; [discriminate|]. rewrite H. run. reflexivity.
  - intros zc Hzc Hexec.
    unfold Delete, getZeropodContainer, Container_ScheduleScaleDown, update_zc, emit. run.
    apply String.eqb_neq in Hexec. rewrite Hzc, PathFacts.len_zero, Hexec. run.
    destruct (timer_schedule env (dr_ID r)) as [err|]; run.
    + eexists. split; [|split; reflexivity]. reflexivity.
    + eexists. split; [|split; [reflexivity|]].
      * cbn. rewrite <- !app_assoc. reflexivity.
      * cbn. rewrite Hzc. apply lookup_insert_eq.
Qed.

Lemma Delete_rearms_for_exec_witness :
  dr_ExecID T2.deleteInit = "" /\
  zeropodContainers T2.runningWorld !! "c1" = Some (T.managed false) /\
  fst (Delete T2.ok T2.deleteInit T2.runningWorld)
    = Done (Ok {| dr_Pid := 43; dr_ExitStatus := 0 |}) /\
  (exists w',
     Delete T2.ok T2.deleteExec T2.runningWorld
       = (Done (Ok {| dr_Pid := 43; dr_ExitStatus := 0 |}), w') /\
     zeropodContainers w' !! "c1" = Some (set_scheduled true (T.managed false))) /\
  (exists w',
     Delete (T2.env true false false false) T2.deleteExec T2.runningWorld
       = (Done (Err (errorString "timer refused")), w') /\
     trace w' = [ScheduleScaleDown "c1"]).
Proof.
  split; [reflexivity|]. split; [reflexivity|].
  destruct (Delete_rearms_for_exec T2.ok T2.deleteInit T2.runningWorld) as [Hinit _].
  destruct (Delete_rearms_for_exec T2.ok T2.deleteExec T2.runningWorld) as [_ Hexec].
  destruct (Delete_rearms_for_exec (T2.env true false false false) T2.deleteExec
              T2.runningWorld) as [_ Hfail].
  split; [rewrite Hinit; [reflexivity|right; reflexivity]|]. split.
  - destruct (Hexec (T.managed false) eq_refl ltac:(discriminate)) as (w' & _ & Hrun & Hz).
    exists w'. auto.
  - destruct (Hfail (T.managed false) eq_refl ltac:(discriminate)) as (w' & Ht & Hrun & _).
    exists w'. auto.
Defined.

(* --------------------------------------------------------------------- *)
(** ** More on the task wrapper: Exec and Restore *)
(* --------------------------------------------------------------------- *)

(** [X10] An Exec for a container that is not managed goes to the
    delegate and nothing else happens.  For a managed container that is
    running, the pending countdown is cancelled first and then the
    delegate is called: no restore takes place. *)
Theorem Exec_without_restore (env : Env) (r : ExecProcessRequest) (w : World) :
  (zeropodContainers w !! er_ID r = None ->
     Exec env r w
     = (Done (service_Exec env r), with_trace (fun t => (t ++ [ServiceExec r])%list) w)) /\
  (forall zc,
     zeropodContainers w !! er_ID r = Some zc -> ScaledDown zc = false ->
     exists w',
       Exec env r w = (Done (service_Exec env r), w') /\
       trace w' = (trace w ++ [CancelScaleDown (er_ID r); ServiceExec r])%list /\
       zeropodContainers w' !! er_ID r = Some (set_scheduled false zc) /\
       containers w' = containers w /\ exited w' = exited w).
Proof.
  split.
  - intros Hzc. unfold Exec, getZeropodContainer, emit. run. rewrite Hzc. run. reflexivity.
  - intros zc Hzc Hsd.
    unfold Exec, getZeropodContainer, Container_CancelScaleDown, update_zc, emit. run.
    rewrite Hzc. run. rewrite Hsd. run.
    eexists. split; [reflexivity|]. cbn. rewrite <- !app_assoc, Hzc.
    split; [reflexivity|]. split; [apply lookup_insert_eq|]. split; reflexivity.
Qed.

Lemma Exec_without_restore_witness :
  zeropodContainers T.created !! "c1" = None /\
  zeropodContainers T2.runningWorld !! "c1" = Some (T.managed false) /\
  fst (Exec T2.ok T2.execSh T.created) = Done (Ok tt) /\
  exists w',
    Exec T2.ok T2.execSh T2.runningWorld = (Done (Ok tt), w') /\
    trace w' = [CancelScaleDown "c1"; ServiceExec T2.execSh].
Proof.
  split; [reflexivity|]. split; [reflexivity|].
  destruct (Exec_without_restore T2.ok T2.execSh T.created) as [Hun _].
  destruct (Exec_without_restore T2.ok T2.execSh T2.runningWorld) as [_ Hrun].
  split; [rewrite (Hun eq_refl); reflexivity|].
  destruct (Hrun (T.managed false) eq_refl eq_refl) as (w' & He & Ht & _).
  exists w'. auto.
Defined.

(** [X11] An Exec on a scaled-down container whose restore succeeds: the
    countdown is cancelled, the container is created anew from the
    checkpoint under the mutex, the closure of the service is fetched
    before the process is started and called after it, the redirects are
    removed, and only then is the Exec handed to the delegate.  Afterwards
    the managed container is running on the new runtime container and the
    new process, the initial process is still the old one, and the service
    knows the new container under its id. *)
Theorem Exec_restores_scaled_down (env : Env) (r : ExecProcessRequest) (w : World)
    (zc : ZContainer) (ip : Proc) (newc : RuncContainer) (p : Proc) :
  zeropodContainers w !! er_ID r = Some zc ->
  ScaledDown zc = true ->
  InitialProcess zc = Some ip ->
  zc_preRestore zc = true ->
  zc_postRestore zc = true ->
  runc_NewContainer env (createReq zc ip) = Ok newc ->
  container_Process env newc "" = Ok p ->
  process_Start env p = None ->
  activator_DisableRedirects env (er_ID r) = None ->
  exists w',
    Exec env r w = (Done (service_Exec env r), w') /\
    trace w' = (trace w ++
      [ CancelScaleDown (er_ID r);
        Log Info "got exec for scaled down container, restoring" [];
        Lock "checkpointRestore";
        RestoreLoggers (c_ID (zc_Container zc));
        NewContainer (createReq zc ip);
        CgroupSet newc;
        PreStart;
        PreStartCleanup;
        Log Info "restore: process created" [];
        ProcessStart p;
        ObserveRestoreDuration;
        HandleStarted newc p;
        DisableRedirects (er_ID r);
        Unlock "checkpointRestore";
        Log Info "restored process for exec: %d in %s" [AInt (p_Pid p)];
        ServiceExec r ])%list /\
    zeropodContainers w' !! er_ID r
      = Some {| zc_Container := newc; zc_cfg := zc_cfg zc; zc_scaledDown := false;
                zc_process := p; zc_initialProcess := Some ip;
                zc_preRestore := true; zc_postRestore := true;
                zc_activatorStopped := zc_activatorStopped zc;
                zc_scaleDownScheduled := false |} /\
    containers w' !! c_ID newc = Some newc.
Proof.
  intros Hzc Hsd Hip Hpre Hpost Hnew Hproc Hstart Hred.
  unfold InitialProcess in Hip.
  unfold Exec, getZeropodContainer, Container_CancelScaleDown, SetScaledDown, update_zc,
    Restore, preRestore, postRestore, emit. run.
  rewrite Hzc. run. rewrite Hsd. run. rewrite Hip. run. rewrite Hnew. run.
  rewrite Hpre. run. rewrite Hproc. run. rewrite Hstart. run.
  rewrite Hpost. run. rewrite Hred. run.
  eexists. split; [reflexivity|]. cbn. rewrite <- !app_assoc. split; [reflexivity|].
  rewrite !Hzc. rewrite !lookup_insert_eq. cbn.
  rewrite Hip, Hpre, Hpost. split; reflexivity.
Qed.

Lemma Exec_restores_scaled_down_witness :
  zeropodContainers T.scaledDownWorld !! "c1" = Some (T.managed true) /\
  exists w' zc',
    Exec T2.ok T2.execSh T.scaledDownWorld = (Done (Ok tt), w') /\
    zeropodContainers w' !! "c1" = Some zc' /\
    ScaledDown zc' = false /\ Process_ zc' = T.init1' /\ zc_Container zc' = T.c1' /\
    InitialProcess zc' = Some T.init1 /\
    containers w' !! "c1" = Some T.c1'.
Proof.
  split; [reflexivity|].
  destruct (Exec_restores_scaled_down T2.ok T2.execSh T.scaledDownWorld (T.managed true)
              T.init1 T.c1' T.init1'
              eq_refl eq_refl eq_refl eq_refl eq_refl eq_refl eq_refl eq_refl eq_refl)
    as (w' & Hrun & _ & Hz & Hc).
  exists w'. eexists. split; [exact Hrun|]. split; [exact Hz|].
  repeat (split; [reflexivity|]). exact Hc.
Defined.

(** [X12] When the runtime cannot create the container for the restore,
    [Restore] returns that error and has done nothing but ask: the mutex is
    released, no hook has run, no process was started, and the managed
    container and the service are as before. *)
Theorem Restore_create_failure (env : Env) (id : string) (c : ZContainer) (w : World)
    (ip : Proc) (err : error) :
  InitialProcess c = Some ip ->
  runc_NewContainer env (createReq c ip) = Err err ->
  Restore env id c w
  = (Done (Err err),
     with_trace (fun t => (t ++ [ Lock "checkpointRestore";
                                  RestoreLoggers (c_ID (zc_Container c));
                                  NewContainer (createReq c ip);
                                  Unlock "checkpointRestore" ])%list) w).
Proof.
  intros Hip Hnew. unfold InitialProcess in Hip.
  unfold Restore, emit. run. rewrite Hip. run. rewrite Hnew. run.
  unfold with_trace. cbn. rewrite <- !app_assoc. reflexivity.
Qed.

Lemma Restore_create_failure_witness :
  runc_NewContainer (T2.env false false true false) (createReq (T.managed true) T.init1)
    = Err (errorString "bundle not found") /\
  exists w',
    Restore (T2.env false false true false) "c1" (T.managed true) T.scaledDownWorld
      = (Done (Err (errorString "bundle not found")), w') /\
    zeropodContainers w' = zeropodContainers T.scaledDownWorld /\
    ProcessStart T.init1' ∉ trace w'.
Proof.
  split; [reflexivity|].
  rewrite (Restore_create_failure (T2.env false false true false) "c1" (T.managed true)
             T.scaledDownWorld T.init1 (errorString "bundle not found") eq_refl eq_refl).
  eexists. split; [reflexivity|]. split; [reflexivity|].
  cbn. intros H. in_events H.
Defined.

(** [X13] When the redirects cannot be removed after the process was
    restored, [Restore] returns an error although the restore has taken
    effect: the managed container already holds the new runtime container
    and the new process, the service already knows the new container, and
    the closure of the service has been called for the new process. *)
Theorem Restore_redirect_failure (env : Env) (id : string) (c : ZContainer) (w : World)
    (ip : Proc) (newc : RuncContainer) (p : Proc) (err : error) :
  zeropodContainers w !! id = Some c ->
  InitialProcess c = Some ip ->
  zc_preRestore c = true ->
  zc_postRestore c = true ->
  runc_NewContainer env (createReq c ip) = Ok newc ->
  container_Process env newc "" = Ok p ->
  process_Start env p = None ->
  activator_DisableRedirects env id = Some err ->
  exists w' zc',
    Restore env id c w = (Done (Err (wrapError "could not disable redirects" err)), w') /\
    zeropodContainers w' !! id = Some zc' /\
    zc_Container zc' = newc /\ Process_ zc' = p /\ ScaledDown zc' = ScaledDown c /\
    containers w' !! c_ID newc = Some newc /\
    HandleStarted newc p ∈ trace w' /\
    exists evs, trace w' = (trace w ++ Lock "checkpointRestore" :: evs
                              ++ [DisableRedirects id; Unlock "checkpointRestore"])%list.
Proof.
  intros Hzc Hip Hpre Hpost Hnew Hproc Hstart Hred. unfold InitialProcess in Hip.
  unfold Restore, preRestore, postRestore, update_zc, emit. run.
  rewrite Hip. run. rewrite Hnew. run. rewrite Hpre. run. rewrite Hproc. run.
  rewrite Hstart. run. rewrite Hpost. run. rewrite Hred. run.
  do 2 eexists. split; [reflexivity|]. cbn. rewrite Hzc, !lookup_insert_eq.
  split; [reflexivity|]. cbn. repeat (split; [reflexivity|]).
  rewrite <- !app_assoc. cbn. split.
  - apply elem_of_app. right. set_solver.
  - eexists [_; _; _; _; _; _; _; _; _]. reflexivity.
Qed.

Lemma Restore_redirect_failure_witness :
  activator_DisableRedirects (T2.env false false false true) "c1"
    = Some (errorString "iptables: no chain") /\
  exists w' zc',
    Restore (T2.env false false false true) "c1" (T.managed true) T.scaledDownWorld
      = (Done (Err (wrapError "could not disable redirects"
                      (errorString "iptables: no chain"))), w') /\
    zeropodContainers w' !! "c1" = Some zc' /\
    zc_Container zc' = T.c1' /\ Process_ zc' = T.init1' /\ ScaledDown zc' = true.
Proof.
  split; [reflexivity|].
  destruct (Restore_redirect_failure (T2.env false false false true) "c1" (T.managed true)
              T.scaledDownWorld T.init1 T.c1' T.init1' (errorString "iptables: no chain")
              eq_refl eq_refl eq_refl eq_refl eq_refl eq_refl eq_refl eq_refl)
    as (w' & zc' & Hrun & Hz & Hc & Hp & Hs & _).
  exists w', zc'. auto.
Defined.

(* --------------------------------------------------------------------- *)
(** ** More on the task wrapper: Start *)
(* --------------------------------------------------------------------- *)

(** [X14] [Start] returns the first error it meets and then does nothing
    more: the error of the delegate, of the lookup of the container or of
    the load of the spec is returned as it is, no managed container is
    created and nothing is registered or scheduled. *)
Theorem Start_returns_first_error (env : Env) (ctx : Context) (r : StartRequest)
    (w : World) :
  let called := [ Log Info "start called in zeropod service %s, %s"
                      [AStr (sr_ID r); AStr (sr_ExecID r)];
                  ServiceStart r ] in
  (forall err, service_Start env r = Err err ->
     Start env ctx r w = (Done (Err err), with_trace (fun t => (t ++ called)%list) w)) /\
  (forall resp, service_Start env r = Ok resp -> containers w !! sr_ID r = None ->
     Start env ctx r w
     = (Done (Err (ToGRPC (errorString "container not created"))),
        with_trace (fun t => (t ++ called)%list) w)) /\
  (forall resp container err,
     service_Start env r = Ok resp -> containers w !! sr_ID r = Some container ->
     GetSpec env (c_Bundle container) = Err err ->
     Start env ctx r w = (Done (Err err), with_trace (fun t => (t ++ called)%list) w)).
Proof.
  cbn zeta. unfold Start, getContainer, emit. run. repeat split.
  - intros err H. rewrite H. run. unfold with_trace. cbn. rewrite <- !app_assoc. reflexivity.
  - intros resp H Hc. rewrite H. run. rewrite Hc. run.
    unfold with_trace. cbn. rewrite <- !app_assoc. reflexivity.
  - intros resp container err H Hc Hs. rewrite H. run. rewrite Hc. run. rewrite Hs. run.
    unfold with_trace. cbn. rewrite <- !app_assoc. reflexivity.
Qed.

Lemma Start_returns_first_error_witness :
  service_Start T2.ok {| sr_ID := "c9"; sr_ExecID := "" |} = Ok {| Pid := 42 |} /\
  containers T.created !! "c9" = None /\
  exists w',
    Start T2.ok noCtx {| sr_ID := "c9"; sr_ExecID := "" |} T.created
      = (Done (Err (ToGRPC (errorString "container not created"))), w') /\
    zeropodContainers w' = ∅.
Proof.
  split; [reflexivity|]. split; [reflexivity|].
  destruct (Start_returns_first_error T2.ok noCtx {| sr_ID := "c9"; sr_ExecID := "" |}
              T.created) as (_ & Hlookup & _).
  rewrite (Hlookup {| Pid := 42 |} eq_refl eq_refl).
  eexists. split; reflexivity.
Defined.

(** [X15] When the countdown cannot be scheduled, [Start] returns the
    error of the timer, and yet the managed container it has constructed
    stays registered under the id, with both callbacks, and the shutdown
    hook that stops it stays registered too. *)
Theorem Start_schedule_failure_keeps_container (env : Env) (ctx : Context)
    (r : StartRequest) (w : World) (resp : StartResponse) (container : RuncContainer)
    (spec : Spec) (cfg : Config) (p : Proc) (err : error) :
  service_Start env r = Ok resp ->
  containers w !! sr_ID r = Some container ->
  GetSpec env (c_Bundle container) = Ok spec ->
  NewConfig (lib env) ctx spec = Ok cfg ->
  ~ ignored r cfg ->
  container_Process env container "" = Ok p ->
  timer_schedule env (sr_ID r) = Some err ->
  exists w',
    Start env ctx r w = (Done (Err err), w') /\
    zeropodContainers w' !! sr_ID r =
      Some {| zc_Container := container; zc_cfg := cfg; zc_scaledDown := false;
              zc_process := p; zc_initialProcess := Some p;
              zc_preRestore := true; zc_postRestore := true;
              zc_activatorStopped := false; zc_scaleDownScheduled := false |} /\
    RegisterShutdownStop (sr_ID r) ∈ trace w' /\
    last (trace w') = Some (Unlock "mut").
Proof.
  intros Hsvc Hc Hspec Hcfg Hign Hp Htimer.
  rewrite TaskFacts.ignored_test in Hign. apply not_true_is_false in Hign.
  unfold Start, getContainer, Container_ScheduleScaleDown, update_zc, New, emit. run.
  rewrite Hsvc. run. rewrite Hc. run. rewrite Hspec, Hcfg. run.
  rewrite Hign. run. rewrite Hp. run. rewrite Htimer. run.
  eexists. split; [reflexivity|]. cbn. split; [apply lookup_insert_eq|].
  rewrite <- !app_assoc. cbn. split.
  - apply elem_of_app. right. set_solver.
  - rewrite last_app. reflexivity.
Qed.

Lemma Start_schedule_failure_keeps_container_witness :
  timer_schedule (T2.env true false false false) "c1" = Some (errorString "timer refused") /\
  ~ ignored T2.startInit appConfig /\
  exists w',
    Start (T2.env true false false false) noCtx T2.startInit T.created
      = (Done (Err (errorString "timer refused")), w') /\
    is_Some (zeropodContainers w' !! "c1").
Proof.
  assert (Hcfg : NewConfig (lib (T2.env true false false false)) noCtx appSpec = Ok appConfig)
    by (vm_compute; reflexivity).
  assert (Hnot : ~ ignored T2.startInit appConfig).
  { intros [H|[H|H]]; [by apply H|discriminate|vm_compute in H; discriminate]. }
  split; [reflexivity|]. split; [exact Hnot|].
  destruct (Start_schedule_failure_keeps_container (T2.env true false false false) noCtx
              T2.startInit T.created {| Pid := 42 |} T.c1 appSpec appConfig T.init1
              (errorString "timer refused") eq_refl eq_refl eq_refl Hcfg Hnot
              eq_refl eq_refl) as (w' & Hrun & Hz & _).
  exists w'. split; [exact Hrun|]. cbn in Hz. rewrite Hz. eauto.
Defined.

(* --------------------------------------------------------------------- *)
(** ** More on the exit reconciler *)
(* --------------------------------------------------------------------- *)

Lemma preventExit_live cp w :
  livePair w cp ->
  exists w1 evs, preventExit cp w = (Done false, w1) /\ quietStep w w1 evs /\
    (forall a, exited w1 !! a = exited w !! a \/
               (exited w !! a = None /\ exited w1 !! a = Some 0)) /\
    (forall zc ip, zeropodContainers w !! c_ID (Container cp) = Some zc ->
       InitialProcess zc = Some ip -> isMainProcess zc ip cp ->
       exited w1 !! p_addr ip = Some (default 0 (exited w !! p_addr ip))).
Proof.
  unfold livePair, isMainProcess.
  unfold preventExit, getZeropodContainer, InitialProcess_SetExited, Proc_SetExited, emit.
  run.
  destruct (zeropodContainers w !! c_ID (Container cp)) as [zc|] eqn:Hzc.
  - intros [Hsd [ip Hip]]. rewrite Hsd, Hip.
    destruct ((p_ID (Process cp) =? p_ID ip)%string
              || (p_ID (Process cp) =? p_ID (Process_ zc))%string) eqn:Hm; run.
    + do 2 eexists. split; [reflexivity|]. split.
      { unfold quietStep; cbn. repeat split; reflexivity. }
      cbn. split.
      * intros a. destruct (exited w !! p_addr ip) eqn:He; [by left|].
        destruct (decide (a = p_addr ip)) as [->|Hne].
        -- right. rewrite lookup_insert_eq. auto.
        -- left. apply lookup_insert_ne. congruence.
      * intros zc' ip' [= <-] Hip' _. assert (ip' = ip) as -> by congruence.
        destruct (exited w !! p_addr ip) eqn:He; cbn; [exact He|apply lookup_insert_eq].
    + do 2 eexists. split; [reflexivity|]. split; [apply TaskFacts.quietStep_refl|].
      split; [by left|].
      intros zc' ip' [= <-] Hip' Hmain. assert (ip' = ip) as -> by congruence.
      destruct Hmain as [H|H]; rewrite H, String.eqb_refl in Hm;
        [discriminate|rewrite orb_true_r in Hm; discriminate].
  - intros _. do 2 eexists. split; [reflexivity|]. split; [apply TaskFacts.quietStep_refl|].
    split; [by left|]. intros zc ip [=].
Qed.

Lemma preventExitLoop_live cps : forall w,
  (forall cp, cp ∈ cps -> livePair w cp) ->
  exists w1 evs, preventExitLoop cps false w = (Done false, w1) /\ quietStep w w1 evs /\
    (forall a, exited w1 !! a = exited w !! a \/
               (exited w !! a = None /\ exited w1 !! a = Some 0)) /\
    (forall cp zc ip, cp ∈ cps ->
       zeropodContainers w !! c_ID (Container cp) = Some zc ->
       InitialProcess zc = Some ip -> isMainProcess zc ip cp ->
       exited w1 !! p_addr ip = Some (default 0 (exited w !! p_addr ip))).
Proof.
  induction cps as [|cp rest IH]; intros w Hlive.
  - exists w, []. split; [reflexivity|]. split; [apply TaskFacts.quietStep_refl|].
    split; [by left|]. intros cp zc ip Hin. inversion Hin.
  - destruct (preventExit_live cp w) as (w1 & evs1 & Hrun & Hq & Hmono & Hmark).
    { apply Hlive. by left. }
    assert (Hz : zeropodContainers w1 = zeropodContainers w) by apply Hq.
    destruct (IH w1) as (w2 & evs2 & Hrun2 & Hq2 & Hmono2 & Hmark2).
    { intros cp' Hin. unfold livePair. rewrite Hz. apply Hlive. by right. }
    exists w2, (evs1 ++ evs2)%list.
    cbn [preventExitLoop]. unfold mbind, M_bind, Run.bind. rewrite Hrun.
    split; [exact Hrun2|]. split; [eapply TaskFacts.quietStep_trans; eauto|]. split.
    + intros a. destruct (Hmono a) as [H1|[H1 H1']], (Hmono2 a) as [H2|[H2 H2']].
      * left; congruence.
      * right; split; congruence.
      * right; split; congruence.
      * congruence.
    + intros cp' zc ip Hin Hzc Hip Hmain.
      apply elem_of_cons in Hin as [->|Hin].
      * specialize (Hmark zc ip Hzc Hip Hmain).
        destruct (Hmono2 (p_addr ip)) as [H2|[H2 _]]; congruence.
      * rewrite <- Hz in Hzc. specialize (Hmark2 cp' zc ip Hin Hzc Hip Hmain).
        rewrite Hmark2. f_equal.
        destruct (Hmono (p_addr ip)) as [H1|[H1 H1']]; rewrite ?H1, ?H1'; reflexivity.
Qed.

(** [X16] When no pair registered for the pid of an exit event belongs
    to a scaled-down container, one pass of [processExits] informs every
    exit subscriber of the event, keeps in the running map only the pairs
    it defers, hands every registered pair to the delegate, and has
    recorded an exit status (0 unless one was recorded before) for the
    initial process of every managed container whose initial or current
    process is among the pairs. *)
Theorem processExit_live (e : Exit) (w : World) :
  let cps := default [] (running w !! e_Pid e) in
  (forall cp, cp ∈ cps -> livePair w cp) ->
  exists w',
    processExit e w = (Done tt, w') /\
    exitSubscribers w' = informed e <$> exitSubscribers w /\
    running w' !! e_Pid e =
      match List.filter (deferred (pendingExecs w)) cps with
      | [] => None
      | skipped => Some skipped
      end /\
    (forall cp, cp ∈ cps -> HandleProcessExit e (Container cp) (Process cp) ∈ trace w') /\
    (forall cp zc ip, cp ∈ cps ->
       zeropodContainers w !! c_ID (Container cp) = Some zc ->
       InitialProcess zc = Some ip -> isMainProcess zc ip cp ->
       exited w' !! p_addr ip = Some (default 0 (exited w !! p_addr ip))).
Proof.
  intros cps Hlive. unfold processExit.
  unfold mbind at 1, M_bind at 1, Run.bind at 1, Run.get at 1.
  unfold mbind at 1, M_bind at 1, Run.bind at 1.
  fold cps.
  destruct (preventExitLoop_live cps w Hlive) as (w1 & evs & Hrun & Hq & _ & Hmark).
  rewrite Hrun.
  destruct Hq as (_ & _ & Hr & Hp & Hs & Ht & _).
  pose proof (TaskFacts.forEach_emit (fun cp => HandleProcessExit e (Container cp) (Process cp)))
    as HF.
  unfold emit, Run.modify in HF.
  unfold emit. run. rewrite Hr, Hp. fold cps. rewrite TaskFacts.splitExits_spec. cbn [app].
  assert (Hhandled : forall (t : list Event) cp, cp ∈ cps ->
            HandleProcessExit e (Container cp) (Process cp)
            ∈ (t ++ map (fun cp => HandleProcessExit e (Container cp) (Process cp))
                      (cps ++ List.filter (fun cp => negb (deferred (pendingExecs w) cp)) cps))%list).
  { intros t cp Hin. apply elem_of_app. right.
    apply (list_elem_of_fmap_2 (fun cp => HandleProcessExit e (Container cp) (Process cp))).
    apply elem_of_app. by left. }
  destruct (List.filter (deferred (pendingExecs w)) cps) as [|s0 sk] eqn:Hsk.
  - change (0 <? Z.of_nat (length (@nil containerProcess))) with false. run. rewrite HF.
    eexists. split; [reflexivity|]. cbn.
    split; [rewrite Hs; reflexivity|]. split; [apply lookup_delete_eq|].
    split; [intros cp Hin; apply Hhandled, Hin|exact Hmark].
  - assert (Hlen : (0 <? Z.of_nat (length (s0 :: sk))) = true)
      by (apply Z.ltb_lt; cbn [length]; lia).
    rewrite Hlen. run. rewrite HF.
    eexists. split; [reflexivity|]. cbn.
    split; [rewrite Hs; reflexivity|]. split; [apply lookup_insert_eq|].
    split; [intros cp Hin; apply Hhandled, Hin|exact Hmark].
Qed.

Lemma processExit_live_witness :
  (forall cp, cp ∈ default [] (running T2.runningWorld !! e_Pid T.exit42) ->
     livePair T2.runningWorld cp) /\
  exists w',
    processExit T.exit42 T2.runningWorld = (Done tt, w') /\
    exitSubscribers w' = informed T.exit42 <$> exitSubscribers T2.runningWorld /\
    running w' !! 42 = None /\
    HandleProcessExit T.exit42 T.c1 T.init1 ∈ trace w' /\
    exited w' !! 10%nat = Some 0.
Proof.
  assert (Hlive : forall cp,
            cp ∈ default [] (running T2.runningWorld !! e_Pid T.exit42) ->
            livePair T2.runningWorld cp).
  { intros cp Hin. change (cp ∈ [ {| Container := T.c1; Process := T.init1 |} ]) in Hin.
    apply elem_of_cons in Hin as [->|Hin]; [|inversion Hin].
    split; [reflexivity|]. by exists T.init1. }
  split; [exact Hlive|].
  destruct (processExit_live T.exit42 T2.runningWorld Hlive)
    as (w' & Hrun & Hsub & Hr & Hh & Hmark).
  assert (Hin : {| Container := T.c1; Process := T.init1 |}
                  ∈ default [] (running T2.runningWorld !! e_Pid T.exit42))
    by (vm_compute; by left).
  exists w'. split; [exact Hrun|]. split; [exact Hsub|]. split; [exact Hr|].
  split; [exact (Hh _ Hin)|].
  apply (Hmark _ (T.managed false) T.init1 Hin eq_refl eq_refl). by left.
Defined.

Lemma processExit_frame (e : Exit) (w : World) :
  exists o w' evs,
    processExit e w = (o, w') /\
    (forall code, o <> Exited code) /\
    zeropodContainers w' = zeropodContainers w /\
    containers w' = containers w /\
    pendingExecs w' = pendingExecs w /\
    (forall pid, pid <> e_Pid e -> running w' !! pid = running w !! pid) /\
    trace w' = (trace w ++ evs)%list.
Proof.
  unfold processExit.
  unfold mbind at 1, M_bind at 1, Run.bind at 1, Run.get at 1.
  unfold mbind at 1, M_bind at 1, Run.bind at 1.
  destruct (TaskFacts.preventExitLoop_quiet (default [] (running w !! e_Pid e)) false w)
    as (o & w1 & evs & Hrun & Hq & _ & Hnx).
  rewrite Hrun.
  destruct Hq as (Hz & Hc & Hr & Hp & _ & Ht & _).
  destruct o as [flag| |].
  - destruct flag.
    + exists (Done tt), w1, evs. split; [reflexivity|]. split; [discriminate|].
      repeat (split; [assumption|]). split; [|exact Ht]. intros pid _. by rewrite Hr.
    + pose proof (TaskFacts.forEach_emit (fun cp => HandleProcessExit e (Container cp) (Process cp)))
        as HF.
      unfold emit, Run.modify in HF.
      unfold emit. run. rewrite TaskFacts.splitExits_spec. cbn [app].
      destruct (0 <? _); run; rewrite HF;
        do 3 eexists; (split; [reflexivity|]); (split; [discriminate|]); cbn;
        repeat (split; [assumption|]);
        (split; [intros pid Hne; rewrite <- Hr;
                 first [apply lookup_insert_ne | apply lookup_delete_ne]; congruence|]);
        rewrite Ht, <- !app_assoc; reflexivity.
  - exists (Panicked why), w1, evs. split; [reflexivity|]. split; [discriminate|].
    repeat (split; [assumption|]). split; [|exact Ht]. intros pid _. by rewrite Hr.
  - destruct (Hnx code eq_refl).
Qed.

(** [X17] Whatever exit events arrive, [processExits] never ends the
    shim process, leaves the managed containers, the containers of the
    service and the pending execs as they are, touches no entry of the
    running map but those of the pids that exited, and only adds to what
    was done before. *)
Theorem processExits_keeps_registry (ec : list Exit) : forall w : World,
  exists o w' evs,
    processExits ec w = (o, w') /\
    (forall code, o <> Exited code) /\
    zeropodContainers w' = zeropodContainers w /\
    containers w' = containers w /\
    pendingExecs w' = pendingExecs w /\
    (forall pid, pid ∉ map e_Pid ec -> running w' !! pid = running w !! pid) /\
    trace w' = (trace w ++ evs)%list.
Proof.
  unfold processExits. induction ec as [|e rest IH]; intros w.
  - exists (Done tt), w, []. split; [reflexivity|]. split; [discriminate|].
    rewrite app_nil_r. auto.
  - destruct (processExit_frame e w) as (o & w1 & evs1 & Hrun & Hnx & Hz & Hc & Hp & Hr & Ht).
    cbn [forEach]. unfold Run.bind. rewrite Hrun.
    assert (Hr' : forall pid, pid ∉ map e_Pid (e :: rest) ->
              running w1 !! pid = running w !! pid).
    { intros pid Hpid. apply Hr. intros ->. apply Hpid. cbn. by left. }
    destruct o as [[]| |].
    + destruct (IH w1) as (o2 & w2 & evs2 & Hrun2 & Hnx2 & Hz2 & Hc2 & Hp2 & Hr2 & Ht2).
      exists o2, w2, (evs1 ++ evs2)%list. split; [exact Hrun2|]. split; [exact Hnx2|].
      split; [congruence|]. split; [congruence|]. split; [congruence|]. split.
      * intros pid Hpid. rewrite Hr2, Hr'; [reflexivity|exact Hpid|].
        intros Hin. apply Hpid. cbn. by right.
      * rewrite Ht2, Ht, app_assoc. reflexivity.
    + exists (Panicked why), w1, evs1. split; [reflexivity|]. split; [discriminate|]. auto.
    + destruct (Hnx code eq_refl).
Qed.

End TaskMore.

(* --------------------------------------------------------------------- *)
(** ** More on the service that rewrites the stdio paths *)
(* --------------------------------------------------------------------- *)
Module StringFacts.
Import GoLib.

Lemma length_append (a b : string) :
  String.length (a ++ b) = (String.length a + String.length b)%nat.
Proof.
  induction a as [|c a IH]; [reflexivity|].
  change (S (String.length (a ++ b)) = S (String.length a + String.length b)).
  f_equal. exact IH.
Qed.

Lemma HasPrefix_append (pre x : string) : HasPrefix (pre ++ x) pre = true.
Proof.
  induction pre as [|c pre IH]; [reflexivity|].
  change (Ascii.eqb c c && HasPrefix (pre ++ x) pre = true).
  rewrite Ascii.eqb_refl. exact IH.
Qed.

Lemma drop_string_append (a b : string) : drop_string (String.length a) (a ++ b) = b.
Proof. induction a as [|c a IH]; [destruct b; reflexivity|exact IH]. Qed.

Lemma take_string_append (a b : string) : take_string (String.length a) (a ++ b) = a.
Proof.
  induction a as [|c a IH]; [destruct b; reflexivity|].
  change (String c (take_string (String.length a) (a ++ b)) = String c a).
  f_equal. exact IH.
Qed.

(** [strings.TrimPrefix] undoes the concatenation of the prefix. *)
Lemma TrimPrefix_append (pre x : string) : TrimPrefix (pre ++ x) pre = x.
Proof. unfold TrimPrefix. rewrite HasPrefix_append. apply drop_string_append. Qed.

Lemma HasSuffix_append (x suf : string) : HasSuffix (x ++ suf) suf = true.
Proof.
  unfold HasSuffix. rewrite length_append.
  replace (String.length x + String.length suf - String.length suf)%nat
    with (String.length x) by lia.
  rewrite drop_string_append, String.eqb_refl, andb_true_r.
  apply Nat.leb_le. lia.
Qed.

(** [strings.TrimSuffix] undoes the concatenation of the suffix. *)
Lemma TrimSuffix_append (x suf : string) : TrimSuffix (x ++ suf) suf = x.
Proof.
  unfold TrimSuffix. rewrite HasSuffix_append, length_append.
  replace (String.length x + String.length suf - String.length suf)%nat
    with (String.length x) by lia.
  apply take_string_append.
Qed.

(** Concatenation is injective in its left operand. *)
Lemma append_inj_l (a b s : string) : a ++ s = b ++ s -> a = b.
Proof.
  revert b. induction a as [|c a IH]; intros b H.
  - destruct b as [|d b]; [reflexivity|]. exfalso.
    apply (f_equal String.length) in H. rewrite !length_append in H. cbn in H. lia.
  - destruct b as [|d b].
    + exfalso. apply (f_equal String.length) in H. rewrite !length_append in H.
      cbn in H. lia.
    + change (String c (a ++ s) = String d (b ++ s)) in H.
      injection H as -> H. f_equal. apply IH, H.
Qed.

(** Concatenation is injective in its right operand. *)
Lemma append_inj_r (p a b : string) : p ++ a = p ++ b -> a = b.
Proof.
  induction p as [|c p IH]; intros H; [exact H|].
  change (String c (p ++ a) = String c (p ++ b)) in H. injection H as H. apply IH, H.
Qed.

End StringFacts.

Module StdioMore.
Import GoLib Run TaskStdio Statements Examples.

#[local] Arguments path_Join : simpl never.
#[local] Arguments TrimPrefix : simpl never.
#[local] Arguments TrimSuffix : simpl never.

(** [X18] When the stdout of the service is a URI that an earlier
    restore has built, [file://] + x + [-1], the process that [restore]
    creates writes to the same URI again, and the service keeps x as its
    stdout path. *)
Theorem restore_stdout_round_trip
    (runtime_Create : Process -> CreateConfig -> option error)
    (runtime_Start : Process -> option error) (newID : string)
    (container : Container) (s : service) (x : string) :
  Stdout (stdio s) = "file://" ++ x ++ "-1" ->
  exists res s' p cfg rest,
    restore runtime_Create runtime_Start newID container s = (Done res, s') /\
    trace s' = (trace s ++ Log Info "restoring %s" [AStr newID]
                        :: ProcessCreate p cfg :: rest)%list /\
    (forall q, fst res = Ok q -> q = p) /\
    Stdout (p_Stdio p) = Stdout (stdio s) /\
    Stdout (stdio s') = x /\
    Stderr (stdio s') = TrimSuffix x "-1".
Proof.
  intros Hout.
  assert (Hx : TrimSuffix (TrimPrefix (Stdout (stdio s)) "file://") "-1" = x).
  { rewrite Hout, StringFacts.TrimPrefix_append. apply StringFacts.TrimSuffix_append. }
  unfold restore, emit, setStdout, setStderr, process_New. run.
  rewrite Hx.
  destruct (runtime_Create _ _) as [e|]; run.
  - do 5 eexists. split; [reflexivity|]. cbn. rewrite <- !app_assoc. cbn.
    split; [reflexivity|]. cbn. split; [discriminate|]. rewrite Hout. auto.
  - destruct (runtime_Start _) as [e|]; run;
      do 5 eexists; (split; [reflexivity|]); cbn; rewrite <- !app_assoc; cbn;
      (split; [reflexivity|]); cbn; (split; [try discriminate; by intros q [= <-]|]);
      rewrite Hout; auto.
Qed.

Lemma restore_stdout_round_trip_witness :
  Stdout (stdio S.usual) = "file://" ++ "/var/log/out" ++ "-1" /\
  exists res s' p,
    restore S.create_ok S.start_ok "r1" S.c1 S.usual = (Done res, s') /\
    (forall q, fst res = Ok q -> q = p) /\
    Stdout (p_Stdio p) = "file:///var/log/out-1" /\
    Stdout (stdio s') = "/var/log/out".
Proof.
  split; [reflexivity|].
  destruct (restore_stdout_round_trip S.create_ok S.start_ok "r1" S.c1 S.usual
              "/var/log/out" eq_refl)
    as (res & s' & p & cfg & rest & Hrun & _ & Hres & Hout & Hs & _).
  exists res, s', p. auto.
Defined.

(** [X19] [restore] publishes TaskResumed only for a process that the
    runtime has created and started, and asks the runtime to start a
    process only after it has created it: the result is a process exactly
    when the event was published, that process is the one created, it has
    the new id and works in [<bundle>/work], and the container that is
    returned has the new id and the old bundle. *)
Theorem restore_publishes_iff_started
    (runtime_Create : Process -> CreateConfig -> option error)
    (runtime_Start : Process -> option error) (newID : string)
    (container : Container) (s : service) :
  exists res s' evs,
    restore runtime_Create runtime_Start newID container s
      = (Done (res, {| ID := newID; Bundle := Bundle container |}), s') /\
    trace s' = (trace s ++ evs)%list /\
    (is_ok res = true <-> SendTaskResumed newID ∈ evs) /\
    (forall id, SendTaskResumed id ∈ evs -> id = newID) /\
    (forall q, ProcessStart q ∈ evs ->
       exists cfg, ProcessCreate q cfg ∈ evs /\ runtime_Create q cfg = None) /\
    (forall q, res = Ok q ->
       ProcessStart q ∈ evs /\ runtime_Start q = None /\
       p_ID q = newID /\ p_Bundle q = Bundle container /\
       p_WorkDir q = path_Join [Bundle container; "work"] /\
       p_CriuWorkPath q = p_WorkDir q).
Proof.
  unfold restore, emit, setStdout, setStderr, process_New. run.
  destruct (runtime_Create _ _) as [e|] eqn:Hc; run.
  - do 3 eexists. split; [reflexivity|]. cbn. rewrite <- !app_assoc. cbn.
    split; [reflexivity|]. split; [split; [discriminate|intros H; in_events H]|].
    split; [intros id H; in_events H|].
    split; [intros q H; in_events H|discriminate].
  - destruct (runtime_Start _) as [e|] eqn:Hs; run;
      do 3 eexists; (split; [reflexivity|]); cbn; rewrite <- !app_assoc; cbn;
      (split; [reflexivity|]).
    + split; [split; [discriminate|intros H; in_events H]|].
      split; [intros id H; in_events H|]. split; [|discriminate].
      intros q H. in_events H. apply list_elem_of_singleton in H. injection H as ->.
      eexists. split; [|exact Hc]. set_solver.
    + split; [split; [intros _; set_solver|reflexivity]|].
      split; [intros id H; in_events H|]. split.
      * intros q H. in_events H. apply elem_of_cons in H as [H|H]; [|in_events H].
        injection H as ->. eexists. split; [|exact Hc]. set_solver.
      * intros q [= <-]. cbn. split; [set_solver|]. split; [exact Hs|]. auto.
Qed.

End StdioMore.

(* --------------------------------------------------------------------- *)
(** ** More on the checkpoint on Start *)
(* --------------------------------------------------------------------- *)
Module CriuMore.
Import GoLib Run TaskCriu Statements CriuStatements Examples.

#[local] Arguments len : simpl never.
#[local] Arguments path_Join : simpl never.

(** Bringing up the activator returns, and touches neither the
    scaled-down flag nor the original process. *)
Lemma StartZeropod_frame env container w :
  exists r w' evs, StartZeropod env container w = (Done r, w') /\
    scaledDown w' = scaledDown w /\ originalProcess w' = originalProcess w /\
    trace w' = (trace w ++ evs)%list.
Proof.
  unfold StartZeropod, emit, set_netNSPath. run.
  repeat CriuFacts.step;
    do 3 eexists; (split; [reflexivity|]); cbn; rewrite <- ?app_assoc;
    (split; [reflexivity|]); (split; [reflexivity|]);
    try reflexivity; symmetry; apply app_nil_r.
Qed.

(** [X20] [scaleDown] of an init process always returns.  When the
    snapshot directory cannot be removed the flag is left as it was and
    the wrapped error is returned before anything else is done; when the
    checkpoint fails the flag is false again and what is returned is the
    outcome of reading dump.log, not the error of the checkpoint; when the
    checkpoint succeeds the flag stays true and TaskCheckpointed is
    published, whatever happens to the activator afterwards. *)
Theorem scaleDown_flag_and_error (env : Env) (container : Container)
    (p : Process) (w : wrapper) :
  p_isInit p = true ->
  exists r w' evs,
    scaleDown env container p w = (Done r, w') /\
    originalProcess w' = originalProcess w /\
    trace w' = (trace w ++ evs)%list /\
    (forall err, os_RemoveAll env (snapshotDir (Bundle container)) = Some err ->
       scaledDown w' = scaledDown w /\
       r = Some (wrapError "unable to prepare snapshot dir" err) /\
       evs = [RemoveAll (snapshotDir (Bundle container))]) /\
    (forall err, os_RemoveAll env (snapshotDir (Bundle container)) = None ->
       Init_Checkpoint env p (checkpointOptions (Bundle container)) = Some err ->
       scaledDown w' = false /\ r = dumpLogError env (Bundle container)) /\
    (os_RemoveAll env (snapshotDir (Bundle container)) = None ->
     Init_Checkpoint env p (checkpointOptions (Bundle container)) = None ->
     scaledDown w' = true /\ SendTaskCheckpointed (ID container) ∈ evs).
Proof.
  intros Hinit. unfold dumpLogError, dumpLogPath, checkpointOptions.
  unfold scaleDown, removeCriuIPTablesRules, emit, set_scaledDown. run.
  unfold containerDir, snapshotDir.
  destruct (os_RemoveAll env _) as [e|] eqn:Hrm; run.
  { do 3 eexists. split; [reflexivity|]. cbn. split; [reflexivity|].
    split; [reflexivity|]. split; [intros err [= <-]; auto|].
    split; [intros err [=]|intros [=]]. }
  rewrite Hinit. run.
  destruct (Init_Checkpoint env p _) as [e|] eqn:Hcp; run.
  - destruct (os_ReadFile env _) as [b|e'] eqn:Hrd; run;
      do 3 eexists; (split; [reflexivity|]); cbn; rewrite <- !app_assoc;
      (split; [reflexivity|]); (split; [reflexivity|]);
      (split; [intros err [=]|]); (split; [auto|intros _ [=]]).
  - match goal with
    | |- context [StartZeropod env container ?w0] =>
      destruct (StartZeropod_frame env container w0)
        as (r1 & w1 & evs1 & Hrun & Hsd & Hop & Ht)
    end.
    rewrite Hrun. cbn in Hsd, Hop, Ht. rewrite <- !app_assoc in Ht. cbn in Ht.
    assert (Hfin : forall (r2 : option error) w2 post,
               scaledDown w2 = scaledDown w1 -> originalProcess w2 = originalProcess w1 ->
               trace w2 = (trace w1 ++ post)%list ->
               exists r w' evs, (Done r2, w2) = (Done r, w') /\
                 originalProcess w' = originalProcess w /\
                 trace w' = (trace w ++ evs)%list /\
                 (forall err, @None error = Some err ->
                    scaledDown w' = scaledDown w /\
                    r = Some (wrapError "unable to prepare snapshot dir" err) /\
                    evs = [RemoveAll (path_Join [Bundle container; "snapshots"])]) /\
                 (forall err, @None error = None -> @None error = Some err ->
                    scaledDown w' = false /\
                    r = match os_ReadFile env
                                (path_Join [path_Join [path_Join [Bundle container; "snapshots"];
                                                       "work"]; "dump.log"]) with
                        | Ok _ => None
                        | Err e => Some e
                        end) /\
                 (@None error = None -> @None error = None ->
                  scaledDown w' = true /\ SendTaskCheckpointed (ID container) ∈ evs)).
    { intros r2 w2 post Hsd2 Hop2 Ht2. exists r2, w2. eexists. split; [reflexivity|].
      split; [congruence|]. rewrite Ht2, Ht, <- !app_assoc. cbn.
      split; [reflexivity|]. split; [intros err [=]|]. split; [intros err _ [=]|].
      intros _ _. split; [congruence|]. set_solver. }
    destruct r1 as [e|]; run.
    + eapply Hfin; [reflexivity|reflexivity|cbn; rewrite <- ?app_assoc; reflexivity].
    + destruct (ns_GetNS env _) as [e|]; run.
      * eapply Hfin; [reflexivity|reflexivity|cbn; rewrite <- ?app_assoc; reflexivity].
      * destruct (iptables_restore env _) as [e|]; run;
          (eapply Hfin; [reflexivity|reflexivity|cbn; rewrite <- ?app_assoc; reflexivity]).
Qed.

Lemma scaleDown_flag_and_error_witness :
  p_isInit K.init1 = true /\
  Init_Checkpoint (K.env true) K.init1 (checkpointOptions (Bundle K.c1))
    = Some (errorString "criu failed: type NOTIFY errno 0") /\
  exists w' evs,
    scaleDown (K.env true) K.c1 K.init1 K.fresh = (Done None, w') /\
    trace w' = (trace K.fresh ++ evs)%list /\
    scaledDown w' = false.
Proof.
  split; [reflexivity|]. split; [reflexivity|].
  destruct (scaleDown_flag_and_error (K.env true) K.c1 K.init1 K.fresh eq_refl)
    as (r & w' & evs & Hrun & _ & Ht & _ & Hfail & _).
  destruct (Hfail (errorString "criu failed: type NOTIFY errno 0") eq_refl eq_refl)
    as [Hsd Hr].
  exists w', evs. rewrite Hrun, Hr. split; [reflexivity|]. split; [exact Ht|exact Hsd].
Defined.

(** [scaleDown] of an init process returns and keeps the original
    process. *)
Lemma scaleDown_returns env container p w :
  p_isInit p = true ->
  exists r w', scaleDown env container p w = (Done r, w') /\
    originalProcess w' = originalProcess w.
Proof.
  intros Hinit.
  unfold scaleDown, removeCriuIPTablesRules, emit, set_scaledDown. run.
  destruct (os_RemoveAll env _) as [e|]; run; [eauto|].
  rewrite Hinit. run.
  destruct (Init_Checkpoint env p _) as [e|]; run.
  - destruct (os_ReadFile env _) as [b|e']; run; eauto.
  - match goal with
    | |- context [StartZeropod env container ?w0] =>
      destruct (StartZeropod_frame env container w0)
        as (r1 & w1 & evs1 & Hrun & _ & Hop & _)
    end.
    rewrite Hrun. cbn in Hop.
    destruct r1 as [e|]; run; [eauto|].
    destruct (ns_GetNS env _) as [e|]; run; [eauto|].
    destruct (iptables_restore env _) as [e|]; run; eauto.
Qed.

(** [X21] When every step succeeds, [Start] of the init process of a
    container that is not a sandbox checkpoints it and brings up the
    activator in place: the delegate's response is returned, the process
    is stored as the original process, the wrapper is scaled down, and the
    steps are, in this order, the delegate's Start, the removal of the
    snapshot directory, the checkpoint, the TaskCheckpointed event, the
    creation and the start of the activator on the configured port in the
    network namespace of the container, and the reset of the filter table
    in that namespace. *)
Theorem Start_scales_down (env : Env) (r : StartRequest) (w : wrapper)
    (resp : StartResponse) (container : Container) (p : Process)
    (spec : Zeropod.Spec) (netNS : string) (cfg : Config) :
  service_Start env r = Ok resp ->
  getContainer env (r_ID r) = Ok container ->
  container_Process env container (r_ExecID r) = Ok p ->
  IsSandboxContainer env (Bundle container) = Ok false ->
  r_ExecID r = "" ->
  p_isInit p = true ->
  os_RemoveAll env (snapshotDir (Bundle container)) = None ->
  Init_Checkpoint env p (checkpointOptions (Bundle container)) = None ->
  GetSpec env (Bundle container) = Ok spec ->
  usedNetNS env spec w = Ok netNS ->
  NewConfig env spec = Ok cfg ->
  activator_NewServer env (Port cfg) netNS = None ->
  srv_Start env = None ->
  ns_GetNS env netNS = None ->
  iptables_restore env netNS = None ->
  Start env r w
  = (Done (Ok resp),
     {| originalProcess := Some p; scaledDown := true; netNSPath := netNS;
        trace := (trace w ++
          [ ServiceStart r;
            RemoveAll (snapshotDir (Bundle container));
            Log Info "checkpointing process %d of container to %s"
                [AInt (p_Pid p); AStr (snapshotDir (Bundle container))];
            Checkpoint p (checkpointOptions (Bundle container));
            SendTaskCheckpointed (ID container);
            Log Info "starting zeropod" [];
            Log Info "starting activator with config: %v" [];
            NewServer (Port cfg) netNS;
            RegisterShutdownCallback;
            ServerStart;
            Log Info "activator started" [];
            GetNS netNS;
            IptablesRestore netNS;
            Log Info "restored iptables" [] ])%list |}).
Proof.
  intros Hsvc Hc Hp Hsb Hexec Hinit Hrm Hcp Hspec Hns Hcfg Hnew Hsrv Hget Hipt.
  unfold usedNetNS in Hns. unfold checkpointOptions in Hcp. unfold snapshotDir in *.
  unfold Start, scaleDown, StartZeropod, removeCriuIPTablesRules, emit, set_scaledDown,
    set_originalProcess, set_netNSPath. run.
  rewrite Hsvc, Hc, Hp, Hsb, Hexec. change (len "" =? 0) with true. run.
  unfold containerDir, snapshotDir.
  rewrite Hrm. run. rewrite Hinit. run. rewrite Hcp. run. rewrite Hspec. run.
  destruct (len (netNSPath w) =? 0) eqn:Hlen; run.
  - rewrite Hns. run. rewrite Hcfg. run. rewrite Hnew. run. rewrite Hsrv. run.
    rewrite Hget. run. rewrite Hipt. run. rewrite <- !app_assoc. reflexivity.
  - injection Hns as Hns. subst netNS.
    rewrite Hcfg. run. rewrite Hnew. run. rewrite Hsrv. run.
    rewrite Hget. run. rewrite Hipt. run. rewrite <- !app_assoc. reflexivity.
Qed.

Lemma Start_scales_down_witness :
  exists w',
    Start (K.env false) K.start K.fresh = (Done (Ok {| Pid := 42 |}), w') /\
    originalProcess w' = Some K.init1 /\ scaledDown w' = true /\
    netNSPath w' = "/proc/42/ns/net" /\
    length (trace w') = 14%nat.
Proof.
  rewrite (Start_scales_down (K.env false) K.start K.fresh {| Pid := 42 |} K.c1 K.init1
             appSpec "/proc/42/ns/net" {| Port := 8080; ScaleDownDuration := 60000000000 |}
             eq_refl eq_refl eq_refl eq_refl eq_refl eq_refl eq_refl eq_refl eq_refl
             eq_refl eq_refl eq_refl eq_refl eq_refl eq_refl).
  eexists. repeat split.
Defined.

(** [X22] [Start] of a sandbox container, or of an exec process, only
    calls the delegate: its response is returned, nothing is
    checkpointed, and the wrapper keeps its original process, its flag and
    its network namespace. *)
Theorem Start_passes_through (env : Env) (r : StartRequest) (w : wrapper)
    (resp : StartResponse) (container : Container) (p : Process) (sandbox : bool) :
  service_Start env r = Ok resp ->
  getContainer env (r_ID r) = Ok container ->
  container_Process env container (r_ExecID r) = Ok p ->
  IsSandboxContainer env (Bundle container) = Ok sandbox ->
  sandbox = true \/ r_ExecID r <> "" ->
  Start env r w
  = (Done (Ok resp),
     {| originalProcess := originalProcess w; scaledDown := scaledDown w;
        netNSPath := netNSPath w; trace := (trace w ++ [ServiceStart r])%list |}).
Proof.
  intros Hsvc Hc Hp Hsb Hskip.
  unfold Start, emit. run. rewrite Hsvc, Hc, Hp, Hsb. run.
  assert (Htest : negb sandbox && (len (r_ExecID r) =? 0) = false).
  { destruct Hskip as [->|Hne]; [reflexivity|].
    rewrite PathFacts.len_zero. apply String.eqb_neq in Hne. rewrite Hne.
    apply andb_false_r. }
  rewrite Htest. reflexivity.
Qed.

Lemma Start_passes_through_witness :
  exists w',
    Start (K.env false) {| r_ID := "c1"; r_ExecID := "sh" |} K.fresh
      = (Done (Ok {| Pid := 42 |}), w') /\
    trace w' = [ServiceStart {| r_ID := "c1"; r_ExecID := "sh" |}] /\
    originalProcess w' = None /\ scaledDown w' = false.
Proof.
  rewrite (Start_passes_through (K.env false) {| r_ID := "c1"; r_ExecID := "sh" |} K.fresh
             {| Pid := 42 |} K.c1 K.init1 false eq_refl eq_refl eq_refl eq_refl
             (or_intror (fun H : "sh" = "" => eq_ind "sh"%string
                (fun s => match s with EmptyString => False | String _ _ => True end)
                I "" H))).
  eexists. repeat split.
Defined.

(** [X23] Once the lookups have succeeded, no error of the scale-down
    reaches the caller of [Start]: whatever [scaleDown] returns, [Start]
    returns a response and no error, namely the delegate's response when
    the scale-down returned nil and otherwise a response made of the pid
    of the process; the process is stored as the original process before
    the scale-down runs. *)
Theorem Start_swallows_scaleDown_errors (env : Env) (r : StartRequest) (w : wrapper)
    (resp : StartResponse) (container : Container) (p : Process) :
  service_Start env r = Ok resp ->
  getContainer env (r_ID r) = Ok container ->
  container_Process env container (r_ExecID r) = Ok p ->
  IsSandboxContainer env (Bundle container) = Ok false ->
  r_ExecID r = "" ->
  p_isInit p = true ->
  exists res w',
    scaleDown env container p
      {| originalProcess := Some p; scaledDown := scaledDown w;
         netNSPath := netNSPath w; trace := (trace w ++ [ServiceStart r])%list |}
      = (Done res, w') /\
    Start env r w
      = (Done (Ok (match res with
                   | None => resp
                   | Some _ => {| Pid := uint32 (p_Pid p) |}
                   end)), w') /\
    originalProcess w' = Some p.
Proof.
  intros Hsvc Hc Hp Hsb Hexec Hinit.
  match goal with
  | |- context [scaleDown env container p ?w0] =>
    destruct (scaleDown_returns env container p w0 Hinit) as (res & w' & Hrun & Hop)
  end.
  exists res, w'. split; [exact Hrun|]. split; [|exact Hop].
  unfold Start, emit, set_originalProcess. run.
  rewrite Hsvc, Hc, Hp, Hsb, Hexec. change (len "" =? 0) with true. run. rewrite Hrun.
  destruct res; reflexivity.
Qed.

Lemma Start_swallows_scaleDown_errors_witness :
  exists w',
    Start (K.env true) K.start K.fresh = (Done (Ok {| Pid := 42 |}), w') /\
    originalProcess w' = Some K.init1.
Proof.
  destruct (Start_swallows_scaleDown_errors (K.env true) K.start K.fresh {| Pid := 42 |}
              K.c1 K.init1 eq_refl eq_refl eq_refl eq_refl eq_refl eq_refl)
    as (res & w' & _ & Hrun & Hop).
  exists w'. split; [|exact Hop]. rewrite Hrun. destruct res; reflexivity.
Defined.

End CriuMore.

(* --------------------------------------------------------------------- *)
(** ** The checkpointing wrapper: Kill, restore and the exit events *)
(* --------------------------------------------------------------------- *)
Module CriuRestMore.
Import GoLib Run TaskCriu TaskCriuRest Statements CriuRestStatements Examples MoreExamples.

#[local] Arguments len : simpl never.
#[local] Arguments path_Join : simpl never.
#[local] Arguments uint32 : simpl never.

(** [X24] [Kill] of the init process of a scaled-down container marks
    the original process and the process of the container as exited with
    status 0, in this order, and then hands the request to the delegate,
    whose answer it returns. *)
Theorem Kill_scaled_down_marks_both (env : Env) (r : KillRequest) (s : state)
    (container : Container) (p op : Process) :
  k_ExecID r = "" ->
  scaledDown (base s) = true ->
  getContainer (lookup env) (k_ID r) = Ok container ->
  container_Process (lookup env) container "" = Ok p ->
  originalProcess (base s) = Some op ->
  Kill env r s
  = (Done (service_Kill env r),
     {| base := base s;
        events := (events s ++
          [ Log Info "requested scaled down process %d to be killed" [AInt (p_Pid p)];
            SetExited op 0; SetExited p 0; ServiceKill r ])%list |}).
Proof.
  intros Hexec Hsd Hc Hp Hop.
  unfold Kill, emit. run. rewrite Hexec, Hsd. change (len "" =? 0) with true. run.
  rewrite Hc. run. rewrite Hp. run. rewrite Hop. run.
  rewrite <- !app_assoc. reflexivity.
Qed.

Lemma Kill_scaled_down_marks_both_witness :
  exists s',
    Kill (K2.env false) {| k_ID := "c1"; k_ExecID := ""; k_Signal := 15; k_All := false |}
         K2.scaled = (Done (Ok tt), s') /\
    events s' =
      [ Log Info "requested scaled down process %d to be killed" [AInt 42];
        SetExited K.init1 0; SetExited K.init1 0;
        ServiceKill {| k_ID := "c1"; k_ExecID := ""; k_Signal := 15; k_All := false |} ].
Proof.
  rewrite (Kill_scaled_down_marks_both (K2.env false)
             {| k_ID := "c1"; k_ExecID := ""; k_Signal := 15; k_All := false |}
             K2.scaled K.c1 K.init1 K.init1 eq_refl eq_refl eq_refl eq_refl eq_refl).
  eexists. split; reflexivity.
Defined.

(** [X25] [restore] builds the process from the stdio of the original
    process: stdout from its stdout and stderr from its stderr, each
    wrapped in [file://] and [-1], so that the two paths are the same
    only when the original ones are.  It asks the runtime to create that
    process from the snapshot of the bundle, publishes TaskStart exactly
    when it returns the process, and does not touch the scaled-down
    flag. *)
Theorem restore_stdio_from_original (env : Env) (container : Container) (s : state)
    (op : Process) :
  originalProcess (base s) = Some op ->
  let p := restoredInit container op in
  exists res s' rest,
    restore env container s = (Done res, s') /\
    base s' = base s /\
    events s' = (events s ++ Log Info "restoring %s" [AStr (ID container)]
                          :: ProcessCreate p (restoreConfig container) :: rest)%list /\
    (forall q, res = Ok q -> q = p) /\
    (is_ok res = true <->
       SendTaskStart (ID container) (uint32 (runtime_Pid env p)) ∈ rest) /\
    (Stderr (i_Stdio p) = Stdout (i_Stdio p) <-> Stderr (p_Stdio op) = Stdout (p_Stdio op)).
Proof.
  intros Hop p.
  assert (Hio : Stderr (i_Stdio p) = Stdout (i_Stdio p)
                <-> Stderr (p_Stdio op) = Stdout (p_Stdio op)).
  { cbn. split; [|intros ->; reflexivity]. intros H.
    apply StringFacts.append_inj_r in H. apply StringFacts.append_inj_l in H. exact H. }
  unfold restore, emit, process_New. run. rewrite Hop. run.
  fold (restoreConfig container). fold (restoredInit container op). fold p.
  destruct (runtime_Create env p _) as [e|]; run.
  - do 3 eexists. split; [reflexivity|]. cbn. split; [reflexivity|].
    rewrite <- !app_assoc. split; [reflexivity|]. split; [discriminate|].
    split; [|exact Hio]. split; [discriminate|]. intros H. inversion H.
  - destruct (runtime_Start env p) as [e|]; run;
      do 3 eexists; (split; [reflexivity|]); cbn; (split; [reflexivity|]);
      rewrite <- !app_assoc; (split; [reflexivity|]).
    + split; [discriminate|]. split; [|exact Hio].
      split; [discriminate|]. intros H. in_events H.
    + split; [intros q Hq; injection Hq as Hq; symmetry; exact Hq|]. split; [|exact Hio].
      split; [intros _|reflexivity].
      do 3 (apply elem_of_cons; right). apply elem_of_cons. by left.
Qed.

Lemma restore_stdio_from_original_witness :
  originalProcess (base K2.scaled) = Some K.init1 /\
  exists res s',
    restore (K2.env false) K.c1 K2.scaled = (Done res, s') /\
    (forall q, res = Ok q ->
       Stdout (i_Stdio q) = "file:///run/c1/out-1" /\
       Stderr (i_Stdio q) = "file:///run/c1/err-1") /\
    scaledDown (base s') = true.
Proof.
  split; [reflexivity|].
  destruct (restore_stdio_from_original (K2.env false) K.c1 K2.scaled K.init1 eq_refl)
    as (res & s' & rest & Hrun & Hbase & _ & Hres & _).
  exists res, s'. split; [exact Hrun|]. split.
  - intros q Hq. rewrite (Hres q Hq). split; reflexivity.
  - rewrite Hbase. reflexivity.
Defined.

(** [X26] When the runtime fails to create or to start the restored
    process, the closure that serves an accepted connection logs the
    error and ends the shim process with exit status 1: it does not
    return, the send lock it took is not released, TaskStart is not
    published, and the wrapper is still scaled down. *)
Theorem onAccept_restore_failure_exits (env : Env) (container : Container) (s : state)
    (op : Process) :
  originalProcess (base s) = Some op ->
  runtime_Create env (restoredInit container op) (restoreConfig container) <> None \/
  runtime_Start env (restoredInit container op) <> None ->
  exists s' evs err,
    onAccept env container s = (Exited 1, s') /\
    base s' = base s /\
    events s' = (events s ++ Log Info "got a request" [] :: Lock "eventSendMu" :: evs
                   ++ [Log Fatal "error restoring container, exiting shim: %s" [AErr err]])%list /\
    (Unlock "eventSendMu" ∉ evs) /\
    (forall ev, ev ∈ evs -> isTaskStart ev = false).
Proof.
  intros Hop Hfail.
  unfold onAccept, restore, emit, set_scaledDown, process_New. run. rewrite Hop. run.
  fold (restoreConfig container). fold (restoredInit container op).
  destruct (runtime_Create env _ _) as [e|] eqn:Hc; run.
  - eexists _, [_; _], _. split; [reflexivity|]. cbn. split; [reflexivity|].
    rewrite <- !app_assoc. cbn. split; [reflexivity|].
    split; [intros H; in_events H|].
    intros ev H. repeat (apply elem_of_cons in H as [->|H]; [reflexivity|]). inversion H.
  - destruct (runtime_Start env _) as [e|] eqn:Hs; run.
    + eexists _, [_; _; _; _], _. split; [reflexivity|]. cbn. split; [reflexivity|].
      rewrite <- !app_assoc. cbn. split; [reflexivity|].
      split; [intros H; in_events H|].
      intros ev H. repeat (apply elem_of_cons in H as [->|H]; [reflexivity|]). inversion H.
    + destruct Hfail as [H|H]; congruence.
Qed.

Lemma onAccept_restore_failure_exits_witness :
  runtime_Start (K2.env true) (restoredInit K.c1 K.init1) <> None /\
  exists s',
    onAccept (K2.env true) K.c1 K2.scaled = (Exited 1, s') /\
    scaledDown (base s') = true.
Proof.
  assert (Hne : runtime_Start (K2.env true) (restoredInit K.c1 K.init1) <> None)
    by discriminate.
  split; [exact Hne|].
  destruct (onAccept_restore_failure_exits (K2.env true) K.c1 K2.scaled K.init1 eq_refl
              (or_intror Hne)) as (s' & evs & err & Hrun & Hbase & _).
  exists s'. split; [exact Hrun|]. rewrite Hbase. reflexivity.
Defined.

(** [X27] When the runtime creates and starts the restored process, the
    closure that serves an accepted connection returns the container and
    the process, the wrapper is no longer scaled down, and between taking
    and releasing the send lock TaskStart has been published twice for
    the container: once by [restore] and once by the closure. *)
Theorem onAccept_restores (env : Env) (container : Container) (s : state)
    (op : Process) :
  let p := restoredInit container op in
  let pid := runtime_Pid env p in
  originalProcess (base s) = Some op ->
  runtime_Create env p (restoreConfig container) = None ->
  runtime_Start env p = None ->
  onAccept env container s
  = (Done (container, p),
     {| base := {| originalProcess := Some op; scaledDown := false;
                   netNSPath := netNSPath (base s); trace := trace (base s) |};
        events := (events s ++
          [ Log Info "got a request" [];
            Lock "eventSendMu";
            Log Info "restoring %s" [AStr (ID container)];
            ProcessCreate p (restoreConfig container);
            Log Info "restore: process created" [];
            ProcessStart p;
            SetMainProcess (ID container) p;
            SendTaskStart (ID container) (uint32 pid);
            Log Info "restored process: %d" [AInt pid];
            SendTaskStart (ID container) (uint32 pid);
            Unlock "eventSendMu" ])%list |}).
Proof.
  intros p pid Hop Hc Hs. subst p pid.
  unfold onAccept, restore, emit, set_scaledDown, process_New. run. rewrite Hop. run.
  fold (restoreConfig container). fold (restoredInit container op).
  rewrite Hc. run. rewrite Hs. run. rewrite <- !app_assoc, Hop. reflexivity.
Qed.

Lemma onAccept_restores_witness :
  exists s',
    onAccept (K2.env false) K.c1 K2.scaled = (Done (K.c1, restoredInit K.c1 K.init1), s') /\
    scaledDown (base s') = false /\
    List.filter isTaskStart (events s') = [SendTaskStart "c1" 77; SendTaskStart "c1" 77].
Proof.
  rewrite (onAccept_restores (K2.env false) K.c1 K2.scaled K.init1 eq_refl eq_refl eq_refl).
  eexists. repeat split.
Defined.

(** What is done to the children of an init marks no exit. *)
Lemma killEvents_quiet env container p :
  forallb (fun ev => negb (marksExit ev)) (killEvents env container p) = true.
Proof.
  unfold killEvents.
  destruct (p_isInit p && ShouldKillAllOnExit env (Bundle container)); [|reflexivity].
  destruct (Init_KillAll env p); reflexivity.
Qed.

Lemma killBlock env (container : Container) (p : Process) (s : state) :
  ((if p_isInit p && ShouldKillAllOnExit env (Bundle container)
    then emit (KillAll p);;
         match Init_KillAll env p with
         | Some err => emit (Log Error "failed to kill init's children"
                                 [AErr err; AStr (p_ID p)])
         | None => mret tt
         end
    else mret tt) : M state unit) s
  = (Done tt, {| base := base s; events := (events s ++ killEvents env container p)%list |}).
Proof.
  unfold killEvents, emit.
  destruct (p_isInit p && ShouldKillAllOnExit env (Bundle container)); run.
  - destruct (Init_KillAll env p); run; rewrite <- ?app_assoc; reflexivity.
  - rewrite app_nil_r. destruct s; reflexivity.
Qed.

Lemma quiet_no_exit evs cid id pid st :
  forallb (fun ev => negb (marksExit ev)) evs = true -> SendTaskExit cid id pid st ∉ evs.
Proof.
  intros Hq Hin. rewrite forallb_forall in Hq. apply list_elem_of_In in Hin.
  specialize (Hq _ Hin). discriminate.
Qed.

Lemma quiet_filter evs :
  forallb (fun ev => negb (marksExit ev)) evs = true -> List.filter isTaskExit evs = [].
Proof.
  induction evs as [|ev evs IH]; [reflexivity|]. cbn [forallb List.filter].
  intros H. apply andb_true_iff in H as [Hev Hrest].
  unfold marksExit in Hev. apply negb_true_iff, orb_false_iff in Hev as [_ Hev].
  rewrite Hev. apply IH, Hrest.
Qed.

(** The inner loop of [checkProcesses]. *)
Lemma checkAll_spec env e container ps : forall s,
  exists o s' evs, checkAll env e container ps s = (o, s') /\
    (forall code, o <> Exited code) /\
    base s' = base s /\ events s' = (events s ++ evs)%list /\
    (scaledDown (base s) = true ->
       o = Done tt /\ forallb (fun ev => negb (marksExit ev)) evs = true) /\
    (length (List.filter isTaskExit evs) <= 1)%nat /\
    (forall cid id pid st, SendTaskExit cid id pid st ∈ evs ->
       scaledDown (base s) = false /\ cid = ID container /\
       pid = uint32 (e_Pid e) /\ st = uint32 (e_Status e) /\
       exists p, p ∈ ps /\ p_Pid p = e_Pid e /\ p_ID p = id).
Proof.
  induction ps as [|p rest IH]; intros s.
  - exists (Done tt), s, []. split; [reflexivity|]. split; [discriminate|].
    split; [reflexivity|]. split; [by rewrite app_nil_r|]. split; [auto|].
    split; [cbn; lia|]. intros cid id pid st H. inversion H.
  - cbn [checkAll]. destruct (p_Pid p =? e_Pid e) eqn:Hpid; cbn [negb].
    2:{ destruct (IH s) as (o & s' & evs & Hrun & Hnx & Hb & Hev & Hsd & Hone & Hexit).
        exists o, s', evs. repeat (split; [assumption|]).
        intros cid id pid st Hin. destruct (Hexit _ _ _ _ Hin) as (?&?&?&?&q&Hq&?&?).
        repeat (split; [assumption|]). exists q. split; [by right|auto]. }
    apply Z.eqb_eq in Hpid.
    unfold mbind at 1, M_bind at 1, Run.bind at 1. rewrite killBlock.
    pose proof (killEvents_quiet env container p) as Hkq.
    set (kevs := killEvents env container p) in *.
    unfold emit. run.
    destruct (scaledDown (base s)) eqn:Hsd; run.
    + match goal with
      | |- context [checkAll env e container rest ?s1] =>
        destruct (IH s1) as (o & s' & evs & Hrun & Hnx & Hb & Hev & Hsd2 & Hone & Hexit)
      end.
      cbn in Hb, Hev, Hsd2, Hexit. destruct (Hsd2 Hsd) as [-> Hq].
      exists (Done tt), s'. eexists. split; [exact Hrun|]. split; [discriminate|].
      split; [exact Hb|]. split; [rewrite Hev, <- !app_assoc; reflexivity|].
      assert (Hall : forallb (fun ev => negb (marksExit ev))
                (kevs ++ [Log Info "not setting exited because process has scaled down: %v"
                              [AInt (p_Pid p)]] ++ evs) = true).
      { rewrite !forallb_app, Hkq, Hq. reflexivity. }
      split; [auto|]. split; [rewrite (quiet_filter _ Hall); cbn; lia|].
      intros cid id pid st Hin. destruct (quiet_no_exit _ _ _ _ _ Hall Hin).
    + destruct (originalProcess (base s)) as [op|] eqn:Hop; run.
      * destruct (p_ID p =? p_ID op)%string; run;
          (exists (Done tt); do 2 eexists; split; [reflexivity|]; split; [discriminate|];
           cbn; split; [reflexivity|]; split; [rewrite <- !app_assoc; reflexivity|];
           split; [discriminate|]; split;
           [ rewrite List.filter_app, (quiet_filter _ Hkq); cbn; lia
           | intros cid id pid st Hin;
             apply elem_of_app in Hin as [Hin|Hin];
             [destruct (quiet_no_exit _ _ _ _ _ Hkq Hin)|];
             cbn in Hin; in_events Hin; apply list_elem_of_singleton in Hin;
             injection Hin as -> -> -> ->; repeat (split; [reflexivity|]);
             exists p; split; [by left|auto] ]).
      * exists (Panicked "invalid memory address or nil pointer dereference").
        do 2 eexists. split; [reflexivity|]. split; [discriminate|].
        cbn. split; [reflexivity|]. split; [reflexivity|]. split; [discriminate|].
        split; [rewrite (quiet_filter _ Hkq); cbn; lia|].
        intros cid id pid st Hin. destruct (quiet_no_exit _ _ _ _ _ Hkq Hin).
Qed.

(** The outer loop of [checkProcesses]. *)
Lemma checkContainers_spec env e cs : forall s,
  exists o s' evs, checkContainers env e cs s = (o, s') /\
    (forall code, o <> Exited code) /\
    base s' = base s /\ events s' = (events s ++ evs)%list /\
    (scaledDown (base s) = true ->
       o = Done tt /\ forallb (fun ev => negb (marksExit ev)) evs = true) /\
    (length (List.filter isTaskExit evs) <= 1)%nat /\
    (forall cid id pid st, SendTaskExit cid id pid st ∈ evs ->
       scaledDown (base s) = false /\
       pid = uint32 (e_Pid e) /\ st = uint32 (e_Status e) /\
       exists c p, c ∈ cs /\ p ∈ t_All c /\ cid = ID (t_Container c) /\
                   p_Pid p = e_Pid e /\ p_ID p = id).
Proof.
  induction cs as [|c rest IH]; intros s.
  - exists (Done tt), s, []. split; [reflexivity|]. split; [discriminate|].
    split; [reflexivity|]. split; [by rewrite app_nil_r|]. split; [auto|].
    split; [cbn; lia|]. intros cid id pid st H. inversion H.
  - cbn [checkContainers]. destruct (HasPid c (e_Pid e)); cbn [negb].
    + destruct (checkAll_spec env e (t_Container c) (t_All c) s)
        as (o & s' & evs & Hrun & Hnx & Hb & Hev & Hsd & Hone & Hexit).
      exists o, s', evs. repeat (split; [assumption|]).
      intros cid id pid st Hin.
      destruct (Hexit _ _ _ _ Hin) as (H1 & H2 & H3 & H4 & p & Hp & Hpid & Hid).
      repeat (split; [assumption|]). exists c, p. split; [by left|auto].
    + destruct (IH s) as (o & s' & evs & Hrun & Hnx & Hb & Hev & Hsd & Hone & Hexit).
      exists o, s', evs. repeat (split; [assumption|]).
      intros cid id pid st Hin.
      destruct (Hexit _ _ _ _ Hin) as (H1 & H2 & H3 & c' & p & Hc & Hrest).
      repeat (split; [assumption|]). exists c', p. split; [by right|exact Hrest].
Qed.

(** [X28] For every exit event and whatever the containers are,
    [checkProcesses] takes the mutex and releases it again, also when it
    panics; it never ends the shim process, leaves the wrapper as it is,
    and publishes at most one TaskExit, which then carries the pid and the
    status of the event and the ids of a container and of one of its
    processes that has the pid, and is published only while the wrapper
    is not scaled down. *)
Theorem checkProcesses_at_most_one_exit (env : Env) (cs : list Tracked) (e : Exit)
    (s : state) :
  exists o s' evs,
    checkProcesses env cs e s = (o, s') /\
    (forall code, o <> Exited code) /\
    base s' = base s /\
    events s' = (events s ++ Lock "mu" :: evs ++ [Unlock "mu"])%list /\
    (length (List.filter isTaskExit evs) <= 1)%nat /\
    (forall cid id pid st, SendTaskExit cid id pid st ∈ evs ->
       scaledDown (base s) = false /\
       pid = uint32 (e_Pid e) /\ st = uint32 (e_Status e) /\
       exists c p, c ∈ cs /\ p ∈ t_All c /\ cid = ID (t_Container c) /\
                   p_Pid p = e_Pid e /\ p_ID p = id).
Proof.
  unfold checkProcesses, Run.deferring, emit. run.
  match goal with
  | |- context [checkContainers env e cs ?s1] =>
    destruct (checkContainers_spec env e cs s1)
      as (o & s' & evs & Hrun & Hnx & Hb & Hev & _ & Hone & Hexit)
  end.
  rewrite Hrun. cbn in Hb, Hev, Hexit.
  destruct o as [[]| |]; [| |destruct (Hnx code eq_refl)];
    do 2 eexists; exists evs; (split; [reflexivity|]); (split; [discriminate|]); cbn;
    (split; [exact Hb|]);
    (split; [rewrite Hev, <- !app_assoc; reflexivity|]);
    (split; [exact Hone|exact Hexit]).
Qed.

(** [X29] While the wrapper is scaled down, [checkProcesses] returns
    without marking any process as exited and without publishing
    TaskExit, whatever the exit event and the containers are. *)
Theorem checkProcesses_suppresses_scaled_down (env : Env) (cs : list Tracked) (e : Exit)
    (s : state) :
  scaledDown (base s) = true ->
  exists s' evs,
    checkProcesses env cs e s = (Done tt, s') /\
    base s' = base s /\
    events s' = (events s ++ Lock "mu" :: evs ++ [Unlock "mu"])%list /\
    (forall ev, ev ∈ evs -> isSetExited ev = false /\ isTaskExit ev = false).
Proof.
  intros Hsd. unfold checkProcesses, Run.deferring, emit. run.
  match goal with
  | |- context [checkContainers env e cs ?s1] =>
    destruct (checkContainers_spec env e cs s1)
      as (o & s' & evs & Hrun & _ & Hb & Hev & Hquiet & _)
  end.
  rewrite Hrun. cbn in Hb, Hev, Hquiet. destruct (Hquiet Hsd) as [-> Hq].
  eexists. exists evs. split; [reflexivity|]. cbn. split; [exact Hb|].
  split; [rewrite Hev, <- !app_assoc; reflexivity|].
  intros ev Hin. rewrite forallb_forall in Hq. apply list_elem_of_In in Hin.
  specialize (Hq _ Hin). unfold marksExit in Hq.
  apply negb_true_iff, orb_false_iff in Hq. exact Hq.
Qed.

Lemma checkProcesses_suppresses_scaled_down_witness :
  scaledDown (base K2.scaled) = true /\
  exists s' evs,
    checkProcesses (K2.env false) [K2.tracked; K2.other] K2.exit42 K2.scaled
      = (Done tt, s') /\
    events s' = (Lock "mu" :: evs ++ [Unlock "mu"])%list /\
    (forall ev, ev ∈ evs -> isSetExited ev = false /\ isTaskExit ev = false).
Proof.
  split; [reflexivity|].
  destruct (checkProcesses_suppresses_scaled_down (K2.env false) [K2.tracked; K2.other]
              K2.exit42 K2.scaled eq_refl) as (s' & evs & Hrun & _ & Hev & Hq).
  exists s', evs. split; [exact Hrun|]. split; [exact Hev|exact Hq].
Defined.

Lemma checkAll_live env e container ps : forall s p op,
  scaledDown (base s) = false -> originalProcess (base s) = Some op ->
  List.find (fun p => p_Pid p =? e_Pid e) ps = Some p ->
  checkAll env e container ps s
  = (Done tt,
     {| base := base s;
        events := (events s ++ killEvents env container p
                     ++ (if String.eqb (p_ID p) (p_ID op) then [SetExited op 0] else [])
                     ++ [ SetExited p (e_Status e);
                          SendTaskExit (ID container) (p_ID p) (uint32 (e_Pid e))
                                       (uint32 (e_Status e)) ])%list |}).
Proof.
  induction ps as [|q rest IH]; intros s p op Hsd Hop Hfind; [discriminate|].
  cbn [List.find] in Hfind. cbn [checkAll].
  destruct (p_Pid q =? e_Pid e) eqn:Hpid; cbn [negb]; [|apply IH; assumption].
  injection Hfind as ->.
  unfold mbind at 1, M_bind at 1, Run.bind at 1. rewrite killBlock.
  unfold emit. run. rewrite Hsd, Hop. run.
  destruct (p_ID p =? p_ID op)%string; run; rewrite <- !app_assoc; reflexivity.
Qed.

(** [X30] While the wrapper is not scaled down, [checkProcesses] handles
    the exit for the first process with the pid of the first container
    that has the pid: under the mutex the children of an init are killed
    where the runtime asks for it, the original process is marked as
    exited with status 0 when it has the id of the process, the process is
    marked as exited with the status of the event, and one TaskExit with
    the ids, the pid and the status is published. *)
Theorem checkProcesses_publishes_exit (env : Env) (cs : list Tracked) (e : Exit)
    (s : state) (op : Process) (c : Tracked) (p : Process) :
  scaledDown (base s) = false ->
  originalProcess (base s) = Some op ->
  exitedProcess cs (e_Pid e) = Some (c, p) ->
  checkProcesses env cs e s
  = (Done tt,
     {| base := base s;
        events := (events s ++ [Lock "mu"] ++ killEvents env (t_Container c) p
                     ++ (if String.eqb (p_ID p) (p_ID op) then [SetExited op 0] else [])
                     ++ [ SetExited p (e_Status e);
                          SendTaskExit (ID (t_Container c)) (p_ID p) (uint32 (e_Pid e))
                                       (uint32 (e_Status e));
                          Unlock "mu" ])%list |}).
Proof.
  intros Hsd Hop Hfound. unfold exitedProcess in Hfound.
  destruct (List.find (fun c => HasPid c (e_Pid e)) cs) as [c'|] eqn:Hc; [|discriminate].
  destruct (List.find (fun p => p_Pid p =? e_Pid e) (t_All c')) as [p'|] eqn:Hp;
    [|discriminate].
  injection Hfound as -> ->.
  assert (Hloop : forall s1, scaledDown (base s1) = false ->
            originalProcess (base s1) = Some op ->
            checkContainers env e cs s1
            = checkAll env e (t_Container c) (t_All c) s1).
  { clear s Hsd Hop. induction cs as [|c0 rest IH]; intros s1 Hsd Hop; [discriminate|].
    cbn [List.find] in Hc. cbn [checkContainers].
    destruct (HasPid c0 (e_Pid e)); cbn [negb].
    - injection Hc as ->. reflexivity.
    - apply IH; assumption. }
  unfold checkProcesses, Run.deferring, emit. run.
  rewrite Hloop by assumption.
  match goal with
  | |- context [checkAll env e _ _ ?s1] =>
    rewrite (checkAll_live env e (t_Container c) (t_All c) s1 p op Hsd Hop Hp)
  end.
  cbn. rewrite <- !app_assoc. reflexivity.
Qed.

Lemma checkProcesses_publishes_exit_witness :
  exitedProcess [K2.tracked; K2.other] (e_Pid K2.exit42) = Some (K2.tracked, K.init1) /\
  exists s',
    checkProcesses (K2.env false) [K2.tracked; K2.other] K2.exit42 K2.live = (Done tt, s') /\
    events s' = [ Lock "mu"; KillAll K.init1; SetExited K.init1 0; SetExited K.init1 137;
                  SendTaskExit "c1" "c1" 42 137; Unlock "mu" ].
Proof.
  split; [reflexivity|].
  rewrite (checkProcesses_publishes_exit (K2.env false) [K2.tracked; K2.other] K2.exit42
             K2.live K.init1 K2.tracked K.init1 eq_refl eq_refl eq_refl).
  eexists. split; reflexivity.
Defined.

End CriuRestMore.
